(** * Dynamic Window Approach planners

    A shallow embedding of the two planners of the repository,
    [PathPlanning/DynamicWindowApproach/dwa_3d.py] (module [Dwa3d]) and
    [PathPlanning/DynamicWindowApproach/dwa_flocking.py] (module [Flocking]).

    Python floats and numpy float64 values are IEEE binary64 numbers: they are
    Rocq's primitive [float]s, so every arithmetic expression of the source is
    evaluated here bit for bit.  Python lists and numpy arrays are lists, and
    an index that is out of range raises [IndexError] as it does in Python.
    The functions of the C math library behind [math.cos], [math.sin],
    [math.atan2] and [np.hypot] are a parameter [Libm] of the development;
    [math.cos] and [math.sin] refuse an infinite argument, as Python does. *)

From Stdlib Require Import Floats ZArith List Bool Lia PeanoNat.
From Stdlib Require Uint63.
Import ListNotations.

Set Warnings "-inexact-float".
Local Open Scope float_scope.

(** ** Outcomes of a Python computation *)

Inductive exn : Set :=
  IndexError | ValueError | TypeError | ZeroDivisionError.

(** A call returns a value, raises an exception, or is still running when the
    fuel given to its loops is used up. *)
Inductive res (A : Type) : Type :=
| Ok (a : A)
| Raise (e : exn)
| OutOfFuel.

Arguments Ok {A} a.
Arguments Raise {A} e.
Arguments OutOfFuel {A}.

Definition bind {A B : Type} (c : res A) (k : A -> res B) : res B :=
  match c with
  | Ok a => k a
  | Raise e => Raise e
  | OutOfFuel => OutOfFuel
  end.

Notation "x <- c ;; k" := (bind c (fun x => k))
  (at level 61, c at next level, right associativity).

(** [for a in l: s = body(s, a)] *)
Fixpoint for_each {A S : Type} (l : list A) (body : S -> A -> res S) (s : S)
  : res S :=
  match l with
  | [] => Ok s
  | a :: l' => s' <- body s a ;; for_each l' body s'
  end.

(** ** Lists and numpy arrays *)

(** A numpy array of floats of dimension one, two or three.  A two-dimensional
    array is the list of its rows; numpy keeps all rows of one array at the
    same width. *)
Inductive ndarray : Type :=
| Arr1 (data : list float)
| Arr2 (rows : list (list float))
| Arr3 (planes : list (list (list float))).

(** [l[i]] for [0 <= i] *)
Definition getitem {A : Type} (l : list A) (i : nat) : res A :=
  match nth_error l i with
  | Some v => Ok v
  | None => Raise IndexError
  end.

Fixpoint replace_nth {A : Type} (l : list A) (i : nat) (v : A) : list A :=
  match l, i with
  | [], _ => []
  | _ :: t, O => v :: t
  | h :: t, S k => h :: replace_nth t k v
  end.

(** [l[i] = v] for [0 <= i] *)
Definition setitem (l : list float) (i : nat) (v : float)
  : res (list float) :=
  if (i <? length l)%nat then Ok (replace_nth l i v) else Raise IndexError.

(** [x[n, j]] on the rows of a two-dimensional array, [x[n][j]] on a list
    of lists *)
Definition getitem2 {A : Type} (x : list (list A)) (n j : nat) : res A :=
  match nth_error x n with
  | Some row => getitem row j
  | None => Raise IndexError
  end.

(** [x[n, j] = v] *)
Definition setitem2 (x : list (list float)) (n j : nat) (v : float)
  : res (list (list float)) :=
  match nth_error x n with
  | Some row => row' <- setitem row j v ;; Ok (replace_nth x n row')
  | None => Raise IndexError
  end.

(** [a[-1, j]]: one float on a two-dimensional array with a last row.  A
    one-dimensional array has too many indices ([IndexError]).  The two
    files give the cost functions arrays of one or two dimensions only; a
    three-dimensional array, on which the result is an array that the
    [math] functions refuse unless it has a single element, is refused
    here. *)
Definition getitem_last (a : ndarray) (j : nat) : res float :=
  match a with
  | Arr1 _ => Raise IndexError
  | Arr2 rows =>
      match rows with
      | [] => Raise IndexError
      | r :: t => getitem (last t r) j
      end
  | Arr3 _ => Raise TypeError
  end.

(** [a[:, j]] on a two-dimensional array; a one-dimensional array has
    too many indices.  On a three-dimensional array, which the two files
    never give to the obstacle cost and on which numpy would broadcast the
    difference with the obstacle columns, the index is refused here. *)
Fixpoint column_of (rows : list (list float)) (j : nat) : res (list float) :=
  match rows with
  | [] => Ok []
  | r :: t => v <- getitem r j ;; c <- column_of t j ;; Ok (v :: c)
  end.

Definition column (a : ndarray) (j : nat) : res (list float) :=
  match a with
  | Arr1 _ => Raise IndexError
  | Arr2 rows => column_of rows j
  | Arr3 _ => Raise TypeError
  end.

(** [np.vstack((a, b))]: one-dimensional arguments become one row each. *)
Definition atleast_2d (a : ndarray) : res (list (list float)) :=
  match a with
  | Arr1 d => Ok [d]
  | Arr2 rows => Ok rows
  | Arr3 _ => Raise ValueError
  end.

Definition vstack (a b : ndarray) : res ndarray :=
  ra <- atleast_2d a ;; rb <- atleast_2d b ;; Ok (Arr2 (ra ++ rb)).

(** [np.minimum] on two floats: a NaN wins. *)
Definition np_minimum (a b : float) : float :=
  if is_nan a then a else if a <? b then a else b.

(** [np.min(r)] over all the elements of [r]; numpy refuses an array of size
    zero with [ValueError]. *)
Definition np_min (r : list (list float)) : res float :=
  match concat r with
  | [] => Raise ValueError
  | a :: t => Ok (fold_left np_minimum t a)
  end.

(** [np.array(r <= c).any()] *)
Definition any_le (r : list (list float)) (c : float) : bool :=
  existsb (fun row => existsb (fun d => d <=? c) row) r.

(** A number in a Python list is a Python [float] (a field of [Config]) or
    a [numpy.float64] (an element of an array, or computed from one).  Both
    hold a binary64 value and the arithmetic of the two agrees, with one
    exception that matters here: dividing a Python float by a Python float
    that is zero raises [ZeroDivisionError], while a division in which a
    [numpy.float64] takes part gives an infinity or a NaN (and a
    warning). *)
Inductive scalar : Type :=
| PyFloat (v : float)
| NpFloat (v : float).

Definition value (s : scalar) : float :=
  match s with
  | PyFloat v | NpFloat v => v
  end.

Definition is_python (s : scalar) : bool :=
  match s with
  | PyFloat _ => true
  | NpFloat _ => false
  end.

(** Python's [max(a, b)] and [min(a, b)]: the first argument is kept unless
    the second is strictly greater (smaller); the result is one of the two
    objects. *)
Definition py_max (a b : scalar) : scalar :=
  if value a <? value b then b else a.
Definition py_min (a b : scalar) : scalar :=
  if value b <? value a then b else a.

(** *** [np.arange(start, stop, step)] on floats

    numpy computes [(stop - start) / step] on the objects it is given: with
    two Python floats as bounds and a step that is zero this is a Python
    division and raises [ZeroDivisionError].  A quotient that is zero
    while [stop - start] is not (an underflow, or a division by an
    infinity) gives one element, [start], or none if the quotient is
    [-0.0].  Otherwise the length of the array is the ceiling of the
    quotient: a NaN is refused with [ValueError]; so is a quotient below
    [-2^63] or above [2^63] (numpy turns the overflow of the length into
    [ValueError]); the quotient [2^63] itself passes the test, made on
    doubles, and becomes [-2^63] when it is converted to a 64-bit index,
    so the array is empty, as it is for every length that is at most
    zero; a length from [2^60] on is refused with [ValueError], the size
    of the array in bytes being beyond a 64-bit index.  The array is
    filled with [start], [start + step] and then [start + i * delta] for
    [delta = (start + step) - start].  (The memory of the machine is not
    modelled: numpy raises [MemoryError] for an array it cannot
    allocate.) *)

Definition two63 : Z := 9223372036854775808.
Definition two60 : Z := 1152921504606846976.

(** [ceil] of a finite binary64 value, from its sign, mantissa and exponent;
    none for an infinity or a NaN. *)
Definition ceil_sf (s : spec_float) : option Z :=
  match s with
  | S754_zero _ => Some 0%Z
  | S754_finite sg m e =>
      let mag_floor :=
        if (0 <=? e)%Z then (Zpos m * 2 ^ e)%Z else (Zpos m / 2 ^ (- e))%Z in
      let mag_ceil :=
        if (0 <=? e)%Z then (Zpos m * 2 ^ e)%Z
        else (- ((- Zpos m) / 2 ^ (- e)))%Z in
      Some (if sg then (- mag_floor)%Z else mag_ceil)
  | S754_infinity _ | S754_nan => None
  end.

Definition ceil (x : float) : option Z := ceil_sf (Prim2SF x).

(** The sign bit of a value that is not NaN. *)
Definition sf_sign (s : spec_float) : bool :=
  match s with
  | S754_zero sg | S754_infinity sg | S754_finite sg _ _ => sg
  | S754_nan => false
  end.

Definition signbit (x : float) : bool := sf_sign (Prim2SF x).

(** The loop index [i] as a float. *)
Definition float_of_nat (i : nat) : float :=
  PrimFloat.of_uint63 (Uint63.of_Z (Z.of_nat i)).

(** A Python [int] used where a float is expected. *)
Definition float_of_Z (z : Z) : float :=
  match z with
  | Z0 => 0
  | Zpos _ => PrimFloat.of_uint63 (Uint63.of_Z z)
  | Zneg p => - PrimFloat.of_uint63 (Uint63.of_Z (Zpos p))
  end.

Definition arange_item (start next : float) (i : nat) : float :=
  match i with
  | O => start
  | S O => next
  | _ => start + float_of_nat i * (next - start)
  end.

Definition arange (start stop : scalar) (step : float) : res (list float) :=
  if is_python start && is_python stop && (step =? 0)
  then Raise ZeroDivisionError
  else
    let delta := value stop - value start in
    let q := delta / step in
    if (q =? 0) && negb (delta =? 0)
    then if signbit q then Ok [] else Ok [value start]
    else if is_nan q then Raise ValueError
    else
      match ceil q with
      | None => Raise ValueError
      | Some n =>
          if ((n <? - two63) || (two63 <? n))%Z then Raise ValueError
          else if (n =? two63)%Z then Ok []
          else if (two60 <=? n)%Z then Raise ValueError
          else
            Ok (map (arange_item (value start) (value start + step))
                  (seq 0 (Z.to_nat n)))
      end.

(** ** The C math library *)

Record Libm : Type := {
  cos : float -> float;
  sin : float -> float;
  atan2 : float -> float -> float;
  hypot : float -> float -> float
}.

(** Python's [math.cos] and [math.sin] are the functions of the C library
    on every argument but an infinite one, which they refuse with
    [ValueError] (math domain error); a NaN is passed on.  [math.atan2],
    [math.hypot] and [np.hypot] refuse nothing. *)
Definition math_ok (a : float) : bool := negb (is_infinity a).

Definition math_cos (M : Libm) (a : float) : res float :=
  if math_ok a then Ok (cos M a) else Raise ValueError.

Definition math_sin (M : Libm) (a : float) : res float :=
  if math_ok a then Ok (sin M a) else Raise ValueError.

(** An executable instance, to run the planners on concrete inputs: series
    for the trigonometric functions, a scaled square root for [hypot].  It
    stands for the machine's libm in the runs below, with which it agrees
    to about fifteen digits, and exactly at the arguments the runs turn on
    ([cos 0 = 1], [sin 0 = 0], [atan2 0 x = 0] for positive [x],
    [hypot a 0 = |a|]); the theorems that are not runs hold for every
    [Libm]. *)
Module ExampleLibm.

Definition pi : float := 3.141592653589793.
Definition half_pi : float := 1.5707963267948966.
Definition two_pi : float := 6.283185307179586.

(** The nearest integer, for arguments below [2^51] in size. *)
Definition rint (x : float) : float := (x + 0x1.8p52) - 0x1.8p52.

(** [x] brought into [[-pi, pi]]. *)
Definition reduce (x : float) : float := x - two_pi * rint (x / two_pi).

(** [k] further terms of an alternating power series in [r2]: the term
    after [term] is [- term * r2 / ((d + 1) * (d + 2))]. *)
Fixpoint series (k : nat) (term acc r2 d : float) : float :=
  match k with
  | O => acc
  | S k' =>
      let term' := - (term * r2 / ((d + 1) * (d + 2))) in
      series k' term' (acc + term') r2 (d + 2)
  end.

Definition sin (x : float) : float :=
  let r := reduce x in series 16 r r (r * r) 1.

Definition cos (x : float) : float :=
  let r := reduce x in series 16 1 1 (r * r) 0.

(** [z - z^3/3 + z^5/5 - ...], for small [z]. *)
Fixpoint atan_series (k : nat) (pow acc z2 d : float) : float :=
  match k with
  | O => acc
  | S k' =>
      let pow' := - (pow * z2) in
      atan_series k' pow' (acc + pow' / (d + 2)) z2 (d + 2)
  end.

Definition halve (z : float) : float := z / (1 + PrimFloat.sqrt (1 + z * z)).

Definition atan_small (z : float) : float :=
  let w := halve (halve (halve z)) in
  8 * atan_series 12 w w (w * w) 1.

Definition atan (z : float) : float :=
  if abs z <=? 1 then atan_small z
  else if 0 <? z then half_pi - atan_small (1 / z)
  else if z <? 0 then - half_pi - atan_small (1 / z)
  else z.

Definition atan2 (y x : float) : float :=
  if 0 <? x then atan (y / x)
  else if x <? 0 then
    if y <? 0 then atan (y / x) - pi else atan (y / x) + pi
  else if 0 <? y then half_pi
  else if y <? 0 then - half_pi
  else y + x.

Definition hypot (a b : float) : float :=
  let a := abs a in
  let b := abs b in
  let hi := if a <? b then b else a in
  let lo := if a <? b then a else b in
  if is_infinity hi then hi
  else if hi =? 0 then hi + lo
  else hi * PrimFloat.sqrt (1 + (lo / hi) * (lo / hi)).

End ExampleLibm.

Definition example_libm : Libm := {|
  cos := ExampleLibm.cos;
  sin := ExampleLibm.sin;
  atan2 := ExampleLibm.atan2;
  hypot := ExampleLibm.hypot
|}.

(** ** [class Config] (the same fields in both files; [ob] apart) *)

Inductive RobotType : Set := circle | rectangle.

Record Config : Type := {
  max_speed : float;
  min_speed : float;
  max_yaw_rate : float;
  max_accel : float;
  max_delta_yaw_rate : float;
  v_resolution : float;
  yaw_rate_resolution : float;
  dt : float;
  predict_time : float;
  to_goal_cost_gain : float;
  speed_cost_gain : float;
  obstacle_cost_gain : float;
  robot_stuck_flag_cons : float;
  robot_type : RobotType;
  robot_radius : float;
  robot_width : float;
  robot_length : float;
  ob : ndarray
}.

Definition math_pi : float := 3.141592653589793.

(** [Config.__init__] with the obstacle list left to each file. *)
Definition init_config (obstacles : ndarray) : Config := {|
  max_speed := 0.8;
  min_speed := -0.5;
  max_yaw_rate := 60.0 * math_pi / 180.0;
  max_accel := 0.2;
  max_delta_yaw_rate := 40.0 * math_pi / 180.0;
  v_resolution := 0.01;
  yaw_rate_resolution := 1.0 * math_pi / 180.0;
  dt := 0.1;
  predict_time := 1.5;
  to_goal_cost_gain := 0.15;
  speed_cost_gain := 1.0;
  obstacle_cost_gain := 1.0;
  robot_stuck_flag_cons := 0.0001;
  robot_type := circle;
  robot_radius := 0.5;
  robot_width := 0.5;
  robot_length := 1.2;
  ob := obstacles
|}.

(** [np.array(objarry)]: a list of points is a two-dimensional array, the
    empty list the one-dimensional array of size zero. *)
Definition np_array_of_points (objarry : list (list float)) : ndarray :=
  match objarry with
  | [] => Arr1 []
  | _ => Arr2 objarry
  end.

(** ** The cost terms, which the two files share word for word *)

Section Costs.
Variable M : Libm.

(** [calc_obstacle_cost(trajectory, ob, config)] *)
Definition distances (tx ty ox oy : list float) : list (list float) :=
  map (fun o : float * float =>
         map (fun t : float * float =>
                hypot M (fst t - fst o) (snd t - snd o))
             (combine tx ty))
      (combine ox oy).

Definition calc_obstacle_cost (trajectory obs : ndarray) (config : Config)
  : res float :=
  ox <- column obs 0 ;;
  oy <- column obs 1 ;;
  tx <- column trajectory 0 ;;
  ty <- column trajectory 1 ;;
  let r := distances tx ty ox oy in
  if any_le r (robot_radius config) then Ok infinity
  else min_r <- np_min r ;; Ok (1.0 / min_r).

(** [calc_to_goal_cost(trajectory, goal)] *)
Definition calc_to_goal_cost (trajectory : ndarray) (goal : list float)
  : res float :=
  g0 <- getitem goal 0 ;;
  t0 <- getitem_last trajectory 0 ;;
  let dx := g0 - t0 in
  g1 <- getitem goal 1 ;;
  t1 <- getitem_last trajectory 1 ;;
  let dy := g1 - t1 in
  let error_angle := atan2 M dy dx in
  t2 <- getitem_last trajectory 2 ;;
  let cost_angle := error_angle - t2 in
  s <- math_sin M cost_angle ;;
  c <- math_cos M cost_angle ;;
  Ok (abs (atan2 M s c)).

(** Lines 185-189 of [dwa_3d.py], 194-198 of [dwa_flocking.py]: the cost of
    one simulated trajectory. *)
Definition final_cost (config : Config) (trajectory : ndarray)
  (goal : list float) (obs : ndarray) : res float :=
  g <- calc_to_goal_cost trajectory goal ;;
  let to_goal_cost := to_goal_cost_gain config * g in
  v_last <- getitem_last trajectory 3 ;;
  let speed_cost := speed_cost_gain config * (max_speed config - v_last) in
  o <- calc_obstacle_cost trajectory obs config ;;
  let ob_cost := obstacle_cost_gain config * o in
  Ok (to_goal_cost + speed_cost + ob_cost).

End Costs.

(** * [dwa_3d.py] *)

Module Dwa3d.

(** [Config.__init__]'s obstacle list: the walls of the map, then eight
    single points. *)
Definition fi (i : nat) : float := float_of_nat i.
Definition fneg (i : nat) : float := float_of_Z (- Z.of_nat i).

Definition objarry : list (list float) :=
  flat_map (fun i => [[fi i / 5.0; 0]; [fi i / 5.0; -20]]) (seq 0 150)
  ++ flat_map (fun i => [[0; fneg i / 5.0]; [30; fneg i / 5.0]])
       (seq 0 100)
  ++ flat_map (fun i => [[fi i / 5.0; -10]]) (seq 0 125)
  ++ flat_map (fun i => [[28 + fi i / 5.0; -10]; [17; - (10 + fi i / 5.0)]])
       (seq 0 10)
  ++ flat_map (fun i => [[25; - (8 + fi i / 5.0)]; [6; - (3 + fi i / 5.0)]])
       (seq 0 25)
  ++ flat_map (fun i => [[28; - (8 + fi i / 5.0)]]) (seq 0 40)
  ++ flat_map (fun i => [[22 + fi i / 5.0; -13]; [8; fneg i / 5.0];
                         [8; - (7 + fi i / 5.0)]]) (seq 0 15)
  ++ flat_map (fun i => [[22 + fi i / 5.0; -16]; [17; - (14 + fi i / 5.0)]])
       (seq 0 30)
  ++ [[12; -3]; [13; -5]; [12.5; -8]; [14.5; -4];
      [21; -5]; [22.5; -2]; [23; -8]; [24; -6]].

(** [config = Config()] *)
Definition config : Config := init_config (np_array_of_points objarry).

Section WithLibm.
Variable M : Libm.

(** [motion(x, u, dt)], lines 115-128.  The state is a one-dimensional
    numpy array, as [main] and the simulator build it, the command a
    Python list. *)
Definition motion (x u : list float) (dt : float) : res (list float) :=
  x3 <- getitem x 3 ;;
  u1 <- getitem u 1 ;;
  x <- setitem x 3 (x3 + u1 * dt) ;;
  x0 <- getitem x 0 ;;
  u0 <- getitem u 0 ;;
  x3 <- getitem x 3 ;;
  c <- math_cos M x3 ;;
  x <- setitem x 0 (x0 + u0 * c * dt) ;;
  x1 <- getitem x 1 ;;
  u0 <- getitem u 0 ;;
  x3 <- getitem x 3 ;;
  s <- math_sin M x3 ;;
  x <- setitem x 1 (x1 + u0 * s * dt) ;;
  x <- setitem x 2 1 ;;
  u0 <- getitem u 0 ;;
  x <- setitem x 4 u0 ;;
  u1 <- getitem u 1 ;;
  x <- setitem x 5 u1 ;;
  u2 <- getitem u 2 ;;
  x <- setitem x 6 u2 ;;
  Ok x.

(** [calc_dynamic_window(x, config)], lines 131-150: the static bounds
    are the Python floats of [Config], the reachable ones are computed
    from elements of the state array. *)
Definition calc_dynamic_window (x : list float) (config : Config)
  : res (list scalar) :=
  let Vs0 := PyFloat (min_speed config) in
  let Vs1 := PyFloat (max_speed config) in
  let Vs2 := PyFloat (- max_yaw_rate config) in
  let Vs3 := PyFloat (max_yaw_rate config) in
  x4 <- getitem x 4 ;;
  let Vd0 := NpFloat (x4 - max_accel config * dt config) in
  x4 <- getitem x 4 ;;
  let Vd1 := NpFloat (x4 + max_accel config * dt config) in
  x5 <- getitem x 5 ;;
  let Vd2 := NpFloat (x5 - max_delta_yaw_rate config * dt config) in
  x5 <- getitem x 5 ;;
  let Vd3 := NpFloat (x5 + max_delta_yaw_rate config * dt config) in
  Ok [py_max Vs0 Vd0; py_min Vs1 Vd1; py_max Vs2 Vd2; py_min Vs3 Vd3].

(** [predict_trajectory(x_init, v, y, config)], lines 153-166.  [fuel]
    bounds the iterations of the [while] loop. *)
Fixpoint predict_loop (fuel : nat) (config : Config) (v y : float)
  (x : list float) (trajectory : ndarray) (time : float) : res ndarray :=
  match fuel with
  | O => OutOfFuel
  | S fuel' =>
      if time <=? predict_time config then
        x' <- motion x [v; y] (dt config) ;;
        trajectory' <- vstack trajectory (Arr1 x') ;;
        predict_loop fuel' config v y x' trajectory' (time + dt config)
      else Ok trajectory
  end.

Definition predict_trajectory (fuel : nat) (x_init : list float)
  (v y : float) (config : Config) : res ndarray :=
  predict_loop fuel config v y x_init (Arr1 x_init) 0.

(** The variables of the search loop of [calc_control_and_trajectory]. *)
Record search_state : Type := {
  min_cost : float;
  best_u : list float;
  best_trajectory : ndarray
}.

(** Lines 192-202: the block [if min_cost >= final_cost:], which takes
    the candidate [(v, y)] of cost [cost] as the best one so far and then
    applies the anti-stall rule to it. *)
Definition accept_candidate (x : list float) (config : Config)
  (st : search_state) (trajectory : ndarray) (cost v y : float)
  : res search_state :=
  if cost <=? min_cost st then
    let best_u := [v; y] in
    b0 <- getitem best_u 0 ;;
    if abs b0 <? robot_stuck_flag_cons config then
      x4 <- getitem x 4 ;;
      if abs x4 <? robot_stuck_flag_cons config then
        best_u <- setitem best_u 1 (- max_delta_yaw_rate config) ;;
        Ok {| min_cost := cost; best_u := best_u;
              best_trajectory := trajectory |}
      else
        Ok {| min_cost := cost; best_u := best_u;
              best_trajectory := trajectory |}
    else
      Ok {| min_cost := cost; best_u := best_u;
            best_trajectory := trajectory |}
  else Ok st.

(** Lines 183-202: the body of the two nested loops, for one sampled
    command [(v, y)]. *)
Definition search_body (fuel : nat) (x : list float) (config : Config)
  (goal : list float) (obs : ndarray) (st : search_state) (v y : float)
  : res search_state :=
  trajectory <- predict_trajectory fuel x v y config ;;
  cost <- final_cost M config trajectory goal obs ;;
  accept_candidate x config st trajectory cost v y.

(** [calc_control_and_trajectory(x, dw, config, goal, ob)], lines 169-203 *)
Definition calc_control_and_trajectory (fuel : nat) (x : list float)
  (dw : list scalar) (config : Config) (goal : list float) (obs : ndarray)
  : res (list float * ndarray) :=
  let init := {| min_cost := infinity; best_u := [0.0; 0.0];
                 best_trajectory := Arr2 [x] |} in
  dw0 <- getitem dw 0 ;;
  dw1 <- getitem dw 1 ;;
  vs <- arange dw0 dw1 (v_resolution config) ;;
  st <- for_each vs
          (fun st v =>
             dw2 <- getitem dw 2 ;;
             dw3 <- getitem dw 3 ;;
             ys <- arange dw2 dw3 (yaw_rate_resolution config) ;;
             for_each ys
               (fun st y => search_body fuel x config goal obs st v y) st)
          init ;;
  Ok (best_u st, best_trajectory st).

(** [dwa_control(x, config, goal, ob)], lines 20-28 *)
Definition dwa_control (fuel : nat) (x : list float) (config : Config)
  (goal : list float) (obs : ndarray) : res (list float * ndarray) :=
  dw <- calc_dynamic_window x config ;;
  calc_control_and_trajectory fuel x dw config goal obs.

(** One of the three [while True] loops of [main] (lines 280-306, 309-334,
    336-361), the plotting left out: the loop is left by [break] when the
    robot is within [robot_radius] of the goal. *)
Fixpoint goal_loop (steps fuel : nat) (config : Config) (goal : list float)
  (obs : ndarray) (x : list float) (trajectory : ndarray)
  : res (list float * ndarray) :=
  match steps with
  | O => OutOfFuel
  | S steps' =>
      ut <- dwa_control fuel x config goal obs ;;
      x <- motion x (fst ut) (dt config) ;;
      trajectory <- vstack trajectory (Arr1 x) ;;
      x0 <- getitem x 0 ;;
      g0 <- getitem goal 0 ;;
      x1 <- getitem x 1 ;;
      g1 <- getitem goal 1 ;;
      let dist_to_goal := hypot M (x0 - g0) (x1 - g1) in
      if dist_to_goal <=? robot_radius config then Ok (x, trajectory)
      else goal_loop steps' fuel config goal obs x trajectory
  end.

(** [main(gx, gy)], lines 266-370: the three goals in their order. *)
Definition main (steps fuel : nat) (gx gy : float) : res ndarray :=
  let x := [2.5; -5.0; 0.0; 0.0; 0.0] in
  let goal1 := [gx; gy] in
  let goal2 := [20; -15] in
  let goal3 := [2.5; -15] in
  let trajectory := Arr1 x in
  let obs := ob config in
  r1 <- goal_loop steps fuel config goal1 obs x trajectory ;;
  r2 <- goal_loop steps fuel config goal2 obs (fst r1) (snd r1) ;;
  r3 <- goal_loop steps fuel config goal3 obs (fst r2) (snd r2) ;;
  Ok (snd r3).

End WithLibm.
End Dwa3d.

(** * [dwa_flocking.py] *)

Module Flocking.

(** [config = Config()]: eight obstacle points. *)
Definition objarry : list (list float) :=
  [[12; -3]; [13; -5]; [12.5; -8]; [14.5; -4];
   [21; -5]; [22.5; -2]; [23; -8]; [24; -6]].

Definition config : Config := init_config (np_array_of_points objarry).

(** [range(6)]: the six agents. *)
Definition agents : list nat := seq 0 6.

Section WithLibm.
Variable M : Libm.

(** [motion(x, n, u, dt)], lines 91-101.  The state is a two-dimensional
    array with one row per agent; only row [n] is written. *)
Definition motion (x : list (list float)) (n : nat) (u : list float)
  (dt : float) : res (list (list float)) :=
  xn2 <- getitem2 x n 2 ;;
  u1 <- getitem u 1 ;;
  x <- setitem2 x n 2 (xn2 + u1 * dt) ;;
  xn0 <- getitem2 x n 0 ;;
  u0 <- getitem u 0 ;;
  xn2 <- getitem2 x n 2 ;;
  c <- math_cos M xn2 ;;
  x <- setitem2 x n 0 (xn0 + u0 * c * dt) ;;
  xn1 <- getitem2 x n 1 ;;
  u0 <- getitem u 0 ;;
  xn2 <- getitem2 x n 2 ;;
  s <- math_sin M xn2 ;;
  x <- setitem2 x n 1 (xn1 + u0 * s * dt) ;;
  u0 <- getitem u 0 ;;
  x <- setitem2 x n 3 u0 ;;
  u1 <- getitem u 1 ;;
  x <- setitem2 x n 4 u1 ;;
  Ok x.

(** [calc_dynamic_window(x, config)], lines 104-152: one window per agent. *)
Definition Vs_row (config : Config) : list scalar :=
  [PyFloat (min_speed config); PyFloat (max_speed config);
   PyFloat (- max_yaw_rate config); PyFloat (max_yaw_rate config)].

Definition Vd_row (x : list (list float)) (config : Config) (i : nat)
  : res (list scalar) :=
  a <- getitem2 x i 3 ;;
  b <- getitem2 x i 3 ;;
  c <- getitem2 x i 4 ;;
  d <- getitem2 x i 4 ;;
  Ok [NpFloat (a - max_accel config * dt config);
      NpFloat (b + max_accel config * dt config);
      NpFloat (c - max_delta_yaw_rate config * dt config);
      NpFloat (d + max_delta_yaw_rate config * dt config)].

Definition dw_row (Vs Vd : list scalar) : res (list scalar) :=
  s0 <- getitem Vs 0 ;; d0 <- getitem Vd 0 ;;
  s1 <- getitem Vs 1 ;; d1 <- getitem Vd 1 ;;
  s2 <- getitem Vs 2 ;; d2 <- getitem Vd 2 ;;
  s3 <- getitem Vs 3 ;; d3 <- getitem Vd 3 ;;
  Ok [py_max s0 d0; py_min s1 d1; py_max s2 d2; py_min s3 d3].

Definition calc_dynamic_window (x : list (list float)) (config : Config)
  : res (list (list scalar)) :=
  Vd <- for_each agents
          (fun acc i => r <- Vd_row x config i ;; Ok (acc ++ [r])) [] ;;
  for_each Vd
    (fun acc vd => r <- dw_row (Vs_row config) vd ;; Ok (acc ++ [r])) [].

(** [predict_trajectory(x_init, n, v, y, config)], lines 155-168: every
    tick stacks the whole state array, all six rows, under the trajectory. *)
Fixpoint predict_loop (fuel : nat) (config : Config) (n : nat) (v y : float)
  (x : list (list float)) (trajectory : ndarray) (time : float)
  : res ndarray :=
  match fuel with
  | O => OutOfFuel
  | S fuel' =>
      if time <=? predict_time config then
        x' <- motion x n [v; y] (dt config) ;;
        trajectory' <- vstack trajectory (Arr2 x') ;;
        predict_loop fuel' config n v y x' trajectory' (time + dt config)
      else Ok trajectory
  end.

Definition predict_trajectory (fuel : nat) (x_init : list (list float))
  (n : nat) (v y : float) (config : Config) : res ndarray :=
  predict_loop fuel config n v y x_init (Arr2 x_init) 0.

(** The variables of the search loop; [min_cost] is set once, before the
    loop over the agents. *)
Record search_state : Type := {
  min_cost : float;
  best_u : list (list float);
  best_trajectory : ndarray
}.

(** Lines 201-211: the block [if min_cost >= final_cost:], which takes
    the candidate [(v, y)] of agent [n] as the best one so far and then
    applies the anti-stall rule to it. *)
Definition accept_candidate (x : list (list float)) (config : Config)
  (st : search_state) (trajectory : ndarray) (n : nat) (cost v y : float)
  : res search_state :=
  if cost <=? min_cost st then
    let best_u := replace_nth (best_u st) n [v; y] in
    b0 <- getitem2 best_u n 0 ;;
    if abs b0 <? robot_stuck_flag_cons config then
      xn3 <- getitem2 x n 3 ;;
      if abs xn3 <? robot_stuck_flag_cons config then
        best_u <- setitem2 best_u n 1 (- max_delta_yaw_rate config) ;;
        Ok {| min_cost := cost; best_u := best_u;
              best_trajectory := trajectory |}
      else
        Ok {| min_cost := cost; best_u := best_u;
              best_trajectory := trajectory |}
    else
      Ok {| min_cost := cost; best_u := best_u;
            best_trajectory := trajectory |}
  else Ok st.

(** Lines 191-211: the body of the three nested loops, for agent [n] and
    one sampled command [(v, y)]. *)
Definition search_body (fuel : nat) (x : list (list float))
  (config : Config) (goal : list float) (obs : ndarray)
  (st : search_state) (n : nat) (v y : float) : res search_state :=
  trajectory <- predict_trajectory fuel x n v y config ;;
  cost <- final_cost M config trajectory goal obs ;;
  accept_candidate x config st trajectory n cost v y.

(** The loops over [v] and [y] for one agent [n], lines 189-211. *)
Definition search_agent (fuel : nat) (x : list (list float))
  (dw : list (list scalar)) (config : Config) (goal : list float)
  (obs : ndarray) (st : search_state) (n : nat) : res search_state :=
  lo <- getitem2 dw n 0 ;;
  hi <- getitem2 dw n 1 ;;
  vs <- arange lo hi (v_resolution config) ;;
  for_each vs
    (fun st v =>
       ylo <- getitem2 dw n 2 ;;
       yhi <- getitem2 dw n 3 ;;
       ys <- arange ylo yhi (yaw_rate_resolution config) ;;
       for_each ys
         (fun st y => search_body fuel x config goal obs st n v y) st)
    st.

(** [calc_control_and_trajectory(x, dw, config, goal, ob)], lines 171-212 *)
Definition calc_control_and_trajectory (fuel : nat)
  (x : list (list float)) (dw : list (list scalar)) (config : Config)
  (goal : list float) (obs : ndarray)
  : res (list (list float) * ndarray) :=
  let init := {| min_cost := infinity;
                 best_u := map (fun _ => [0.0; 0.0]) agents;
                 best_trajectory := Arr3 [x] |} in
  st <- for_each agents (search_agent fuel x dw config goal obs) init ;;
  Ok (best_u st, best_trajectory st).

(** [dwa_control(x, config, goal, ob)], lines 19-27 *)
Definition dwa_control (fuel : nat) (x : list (list float))
  (config : Config) (goal : list float) (obs : ndarray)
  : res (list (list float) * ndarray) :=
  dw <- calc_dynamic_window x config ;;
  calc_control_and_trajectory fuel x dw config goal obs.

(** Lines 322-326: the scan of the agents after a step.  Its [break] leaves
    the [for] loop; the result says whether [Goal!!] was printed. *)
Fixpoint goal_scan (ns : list nat) (x : list (list float))
  (goal : list float) (config : Config) : res bool :=
  match ns with
  | [] => Ok false
  | n :: ns' =>
      xn0 <- getitem2 x n 0 ;;
      g0 <- getitem goal 0 ;;
      xn1 <- getitem2 x n 1 ;;
      g1 <- getitem goal 1 ;;
      let dist_to_goal := hypot M (xn0 - g0) (xn1 - g1) in
      if dist_to_goal <=? robot_radius config then Ok true
      else goal_scan ns' x goal config
  end.

(** What the first [while True] loop of [main] carries from one step to the
    next: the agents, their history and the [Goal!!] lines printed so far. *)
Record loop_state : Type := {
  agents_x : list (list float);
  history : ndarray;
  goals_printed : nat
}.

(** One pass through the body of the first loop, lines 299-326 (the
    plotting left out). *)
Definition goal1_step (fuel : nat) (config : Config) (goal : list float)
  (obs : ndarray) (s : loop_state) : res loop_state :=
  ut <- dwa_control fuel (agents_x s) config goal obs ;;
  x <- for_each agents
         (fun x n =>
            match nth_error (fst ut) n with
            | Some un => motion x n un (dt config)
            | None => Raise IndexError
            end)
         (agents_x s) ;;
  trajectory <- vstack (history s) (Arr2 x) ;;
  reached <- goal_scan agents x goal config ;;
  Ok {| agents_x := x; history := trajectory;
        goals_printed := if reached then S (goals_printed s)
                         else goals_printed s |}.

(** The first [while True] loop of [main], lines 298-326: no statement of
    its body leaves it. *)
Fixpoint goal1_loop (steps fuel : nat) (config : Config) (goal : list float)
  (obs : ndarray) (s : loop_state) : res loop_state :=
  match steps with
  | O => OutOfFuel
  | S steps' =>
      s' <- goal1_step fuel config goal obs s ;;
      goal1_loop steps' fuel config goal obs s'
  end.

(** The state [main] starts from, lines 280-286. *)
Definition x_start : list (list float) :=
  [[1.0; -1.0; 0.0; 0.0; 0.0];
   [1.0; -3.0; 0.0; 0.0; 0.0];
   [1.0; -5.0; 0.0; 0.0; 0.0];
   [3.0; -1.0; 0.0; 0.0; 0.0];
   [3.0; -3.0; 0.0; 0.0; 0.0];
   [3.0; -5.0; 0.0; 0.0; 0.0]].

Definition goal1 : list float := [26.5; -5].
Definition goal2 : list float := [20; -15].
Definition goal3 : list float := [2.5; -15].

(** [main()], lines 277-391.  The second loop calls [motion(x, u,
    config.dt)] with three arguments where [motion] takes four, a
    [TypeError]. *)
Definition main (steps fuel : nat) : res loop_state :=
  let s := {| agents_x := x_start; history := Arr2 x_start;
              goals_printed := 0 |} in
  s1 <- goal1_loop steps fuel config goal1 (ob config) s ;;
  ut <- dwa_control fuel (agents_x s1) config goal2 (ob config) ;;
  Raise TypeError.

End WithLibm.
End Flocking.

(** * Definitions used by the statements and the proofs *)

(** A key that orders the non-NaN values as [SFcompare] does: sign class,
    then exponent, then mantissa. *)
Definition sf_key (x : spec_float) : Z * (Z * Z) :=
  match x with
  | S754_nan => (0, (0, 0))
  | S754_infinity true => (-2, (0, 0))
  | S754_infinity false => (2, (0, 0))
  | S754_zero _ => (0, (0, 0))
  | S754_finite true m e => (-1, (- e, - Zpos m))
  | S754_finite false m e => (1, (e, Zpos m))
  end%Z.

Definition key_le (a b : Z * (Z * Z)) : Prop :=
  (fst a < fst b \/
   (fst a = fst b /\
    (fst (snd a) < fst (snd b) \/
     (fst (snd a) = fst (snd b) /\ snd (snd a) <= snd (snd b)))))%Z.

Definition key_lt (a b : Z * (Z * Z)) : Prop :=
  (fst a < fst b \/
   (fst a = fst b /\
    (fst (snd a) < fst (snd b) \/
     (fst (snd a) = fst (snd b) /\ snd (snd a) < snd (snd b)))))%Z.

(** A computation that returns or raises [IndexError], nothing else. *)
Definition index_only {A : Type} (c : res A) : Prop :=
  (exists a, c = Ok a) \/ c = Raise IndexError.

(** A computation that has returned or raised: it did not run out of
    fuel. *)
Definition settled {A : Type} (c : res A) : Prop :=
  (exists a, c = Ok a) \/ (exists e, c = Raise e).

(** What the anti-stall branch guarantees on a command it has passed. *)
Definition anti_stall_ok (config : Config) (x u : list float) : Prop :=
  exists v w : float,
    u = [v; w]
    /\ ((abs v <? robot_stuck_flag_cons config) = true ->
        forall x4, getitem x 4 = Ok x4 ->
                   (abs x4 <? robot_stuck_flag_cons config) = true ->
                   w = - max_delta_yaw_rate config).

Definition dwa3d_init (x : list float) : Dwa3d.search_state :=
  {| Dwa3d.min_cost := infinity; Dwa3d.best_u := [0.0; 0.0];
     Dwa3d.best_trajectory := Arr2 [x] |}.

Definition dwa3d_search_inv (config : Config) (x : list float)
  (st : Dwa3d.search_state) : Prop :=
  st = dwa3d_init x \/ anti_stall_ok config x (Dwa3d.best_u st).

(** One tick of the motion model of [dwa_flocking.py] on agent [n]: the
    heading first, then the position along the new heading, then the two
    velocity fields; the other rows are kept. *)
Definition flocking_tick (M : Libm) (row : list float) (v w dt : float)
  : list float :=
  match row with
  | px :: py :: heading :: _ :: _ :: rest =>
      let heading' := heading + w * dt in
      (px + v * cos M heading' * dt)
        :: (py + v * sin M heading' * dt)
        :: heading' :: v :: w :: rest
  | _ => row
  end.

(** The clock of the simulation loop: [time] after [i] more passes. *)
Fixpoint time_after (config : Config) (time : float) (i : nat) : float :=
  match i with
  | O => time
  | S j => time_after config (time + dt config) j
  end.

(** The loop runs exactly [k] times from [time]: the clock is at most
    [predict_time] before each of the first [k] passes and above it (or not
    comparable with it) after them. *)
Definition runs_for (config : Config) (time : float) (k : nat) : Prop :=
  (forall i, (i < k)%nat ->
             (time_after config time i <=? predict_time config) = true)
  /\ (time_after config time k <=? predict_time config) = false.

(** The state arrays stacked by [k] ticks of agent [n]. *)
Fixpoint flocking_snapshots (M : Libm) (x : list (list float)) (n : nat)
  (row : list float) (v w dt : float) (k : nat) : list (list float) :=
  match k with
  | O => []
  | S j =>
      let row' := flocking_tick M row v w dt in
      replace_nth x n row' ++ flocking_snapshots M x n row' v w dt j
  end.

(** A Config with another time step and horizon. *)
Definition with_horizon (config : Config) (step horizon : float) : Config :=
  {| max_speed := max_speed config;
     min_speed := min_speed config;
     max_yaw_rate := max_yaw_rate config;
     max_accel := max_accel config;
     max_delta_yaw_rate := max_delta_yaw_rate config;
     v_resolution := v_resolution config;
     yaw_rate_resolution := yaw_rate_resolution config;
     dt := step;
     predict_time := horizon;
     to_goal_cost_gain := to_goal_cost_gain config;
     speed_cost_gain := speed_cost_gain config;
     obstacle_cost_gain := obstacle_cost_gain config;
     robot_stuck_flag_cons := robot_stuck_flag_cons config;
     robot_type := robot_type config;
     robot_radius := robot_radius config;
     robot_width := robot_width config;
     robot_length := robot_length config;
     ob := ob config |}.

(** A Config with other sampling resolutions. *)
Definition with_resolution (config : Config) (v_step yaw_step : float)
  : Config :=
  {| max_speed := max_speed config;
     min_speed := min_speed config;
     max_yaw_rate := max_yaw_rate config;
     max_accel := max_accel config;
     max_delta_yaw_rate := max_delta_yaw_rate config;
     v_resolution := v_step;
     yaw_rate_resolution := yaw_step;
     dt := dt config;
     predict_time := predict_time config;
     to_goal_cost_gain := to_goal_cost_gain config;
     speed_cost_gain := speed_cost_gain config;
     obstacle_cost_gain := obstacle_cost_gain config;
     robot_stuck_flag_cons := robot_stuck_flag_cons config;
     robot_type := robot_type config;
     robot_radius := robot_radius config;
     robot_width := robot_width config;
     robot_length := robot_length config;
     ob := ob config |}.

(** A Config with another collision radius. *)
Definition with_radius (config : Config) (radius : float) : Config :=
  {| max_speed := max_speed config;
     min_speed := min_speed config;
     max_yaw_rate := max_yaw_rate config;
     max_accel := max_accel config;
     max_delta_yaw_rate := max_delta_yaw_rate config;
     v_resolution := v_resolution config;
     yaw_rate_resolution := yaw_rate_resolution config;
     dt := dt config;
     predict_time := predict_time config;
     to_goal_cost_gain := to_goal_cost_gain config;
     speed_cost_gain := speed_cost_gain config;
     obstacle_cost_gain := obstacle_cost_gain config;
     robot_stuck_flag_cons := robot_stuck_flag_cons config;
     robot_type := robot_type config;
     robot_radius := radius;
     robot_width := robot_width config;
     robot_length := robot_length config;
     ob := ob config |}.

(** [d] is the distance from a sample of the trajectory to an obstacle
    point, as [np.hypot] gives it. *)
Definition sample_obstacle_distance (M : Libm)
  (rows obstacles : list (list float))
  (d : float) : Prop :=
  exists r o : list float,
    In r rows /\ In o obstacles
    /\ d = hypot M (nth 0 r 0 - nth 0 o 0) (nth 1 r 0 - nth 1 o 0).

(** The distance matrix of [calc_obstacle_cost]. *)
Definition distance_matrix (M : Libm) (rows obstacles : list (list float))
  : list (list float) :=
  distances M (map (fun r => nth 0 r 0) rows) (map (fun r => nth 1 r 0) rows)
    (map (fun o => nth 0 o 0) obstacles) (map (fun o => nth 1 o 0) obstacles).

(** The window, search and score of [dwa_flocking.py] run on the state
    array that holds the row of one agent and nothing else: the reference
    the selected command of an agent is compared with. *)
Definition single_agent_control (M : Libm) (fuel : nat) (row : list float)
  (config : Config) (goal : list float) (obs : ndarray)
  : res (list float) :=
  vd <- Flocking.Vd_row [row] config 0 ;;
  dw <- Flocking.dw_row (Flocking.Vs_row config) vd ;;
  st <- Flocking.search_agent M fuel [row] [dw] config goal obs
          {| Flocking.min_cost := infinity;
             Flocking.best_u := [[0.0; 0.0]];
             Flocking.best_trajectory := Arr3 [[row]] |} 0 ;;
  match Flocking.best_u st with
  | [u] => Ok u
  | _ => Raise IndexError
  end.

(** The costs of all the candidates of the multi-agent search, in the
    order in which it evaluates them. *)
Definition flocking_candidate_costs (M : Libm) (fuel : nat)
  (x : list (list float)) (dw : list (list scalar)) (config : Config)
  (goal : list float) (obs : ndarray) : res (list float) :=
  for_each Flocking.agents
    (fun acc n =>
       lo <- getitem2 dw n 0 ;;
       hi <- getitem2 dw n 1 ;;
       vs <- arange lo hi (v_resolution config) ;;
       for_each vs
         (fun acc v =>
            ylo <- getitem2 dw n 2 ;;
            yhi <- getitem2 dw n 3 ;;
            ys <- arange ylo yhi (yaw_rate_resolution config) ;;
            for_each ys
              (fun acc y =>
                 trajectory <- Flocking.predict_trajectory M fuel x n v y
                                 config ;;
                 c <- final_cost M config trajectory goal obs ;;
                 Ok (acc ++ [c]))
              acc)
         acc)
    [].

(** The six agents of [main], the first one moved onto the obstacle point
    (12, -3). *)
Definition x_on_obstacle : list (list float) :=
  [[12; -3; 0.0; 0.0; 0.0];
   [1.0; -3.0; 0.0; 0.0; 0.0];
   [1.0; -5.0; 0.0; 0.0; 0.0];
   [3.0; -1.0; 0.0; 0.0; 0.0];
   [3.0; -3.0; 0.0; 0.0; 0.0];
   [3.0; -5.0; 0.0; 0.0; 0.0]].

(** The first loop of the multi-agent [main] entered with agent 0 at
    (26.3, -5), 0.2 m from the first goal (26.5, -5). *)
Definition near_goal_state : Flocking.loop_state :=
  let x := [[26.3; -5.0; 0.0; 0.0; 0.0];
            [1.0; -3.0; 0.0; 0.0; 0.0];
            [1.0; -5.0; 0.0; 0.0; 0.0];
            [3.0; -1.0; 0.0; 0.0; 0.0];
            [3.0; -3.0; 0.0; 0.0; 0.0];
            [3.0; -5.0; 0.0; 0.0; 0.0]] in
  {| Flocking.agents_x := x; Flocking.history := Arr2 x;
     Flocking.goals_printed := 0 |}.

(** The anti-stall rule on a command [(v, w)] taken for agent [n]: when
    [abs v] and the absolute value of the agent's current linear velocity
    [x[n, 3]] are both below the threshold, [w] is [- max_delta_yaw_rate]. *)
Definition flocking_stall_rule (config : Config) (x : list (list float))
  (n : nat) (v w : float) : Prop :=
  (abs v <? robot_stuck_flag_cons config) = true ->
  forall xv, getitem2 x n 3 = Ok xv ->
             (abs xv <? robot_stuck_flag_cons config) = true ->
             w = - max_delta_yaw_rate config.

(** The variables [st] of the multi-agent search within the loops of agent
    [n], against the variables [st0] these loops started with and the
    costs of the candidates of agent [n] scored so far: either no
    candidate was taken, none of the costs being at most the [min_cost]
    the loops started with, and the variables are as they were; or one
    was, and [best_u[n]] is a command that went through the anti-stall
    rule. *)
Definition flocking_agent_inv (config : Config) (x : list (list float))
  (n : nat) (st0 st : Flocking.search_state) (costs : list float) : Prop :=
  (st = st0
   /\ forall c, In c costs -> (c <=? Flocking.min_cost st0) = false)
  \/ ((exists c, In c costs /\ (c <=? Flocking.min_cost st0) = true)
      /\ exists v w : float,
          nth_error (Flocking.best_u st) n = Some [v; w]
          /\ flocking_stall_rule config x n v w).

(** ** Shapes, windows and search invariants of the further properties *)

(** A state array of [dwa_flocking.py] with a row of at least five fields
    for each of the six agents. *)
Definition flock_shaped (x : list (list float)) : Prop :=
  (6 <= length x)%nat /\ forall row, In row x -> (5 <= length row)%nat.

(** One command of two entries for each of the six agents. *)
Definition six_commands (us : list (list float)) : Prop :=
  length us = 6%nat /\ forall u, In u us -> length u = 2%nat.

(** A call that was refused by [np.arange], or by [math.cos] or
    [math.sin]: [ValueError], or the [ZeroDivisionError] of a step of
    zero. *)
Definition arange_refused {A : Type} (c : res A) : Prop :=
  c = Raise ValueError \/ c = Raise ZeroDivisionError.

(** [2^63] as a float: the greatest size of the quotient
    [(stop - start) / step] from which [np.arange] takes a length; and
    the greatest double below [2^60], [2^60 - 128]: the greatest quotient
    that gives an array. *)
Definition two63f : float := 9223372036854775808.
Definition below_two60f : float := 1152921504606846848.

(** The quotient from which [np.arange(start, stop, step)] takes the
    length of its result. *)
Definition length_quotient (start stop : scalar) (step : float) : float :=
  (value stop - value start) / step.

(** A range [start, stop) with a positive step that holds no number,
    [stop <= start], and whose quotient is a length [np.arange] takes. *)
Definition empty_range (start stop : scalar) (step : float) : bool :=
  (0 <? step) && (value stop <=? value start)
  && (- two63f <=? length_quotient start stop step).

(** A range with a positive step whose quotient gives [np.arange] an
    array: it is within [-2^63] and [2^60 - 128]. *)
Definition countable_range (start stop : scalar) (step : float) : bool :=
  (0 <? step) && (- two63f <=? length_quotient start stop step)
  && (length_quotient start stop step <=? below_two60f).

(** A window that is empty in a dimension: in velocity, or in yaw rate
    with a velocity range that can be enumerated. *)
Definition empty_window (config : Config) (dw : list scalar) : bool :=
  match dw with
  | lo :: hi :: ylo :: yhi :: _ =>
      empty_range lo hi (v_resolution config)
      || (countable_range lo hi (v_resolution config)
          && empty_range ylo yhi (yaw_rate_resolution config))
  | _ => false
  end.

(** The window of an agent at rest under the Config of
    [dwa_flocking.py]: the four reachable bounds. *)
Definition window_at_rest : list scalar :=
  [NpFloat (-0.020000000000000004); NpFloat 0.020000000000000004;
   NpFloat (-0.069813170079773182); NpFloat 0.069813170079773182].

(** The variables of the multi-agent search before its loops. *)
Definition flocking_init (x : list (list float)) : Flocking.search_state :=
  {| Flocking.min_cost := infinity;
     Flocking.best_u := map (fun _ => [0.0; 0.0]) Flocking.agents;
     Flocking.best_trajectory := Arr3 [x] |}.

(** A computation that does not raise [ZeroDivisionError]. *)
Definition no_zero_division {A : Type} (c : res A) : Prop :=
  c <> Raise ZeroDivisionError.

(** The four bounds of a window lie within the limits of the robot. *)
Definition within_limits (config : Config) (dw : list scalar) : Prop :=
  exists v_min v_max yaw_min yaw_max : float,
    map value dw = [v_min; v_max; yaw_min; yaw_max]
    /\ (min_speed config <=? v_min) = true
    /\ (v_max <=? max_speed config) = true
    /\ (- max_yaw_rate config <=? yaw_min) = true
    /\ (yaw_max <=? max_yaw_rate config) = true.

(** The window of one agent of [dwa_flocking.py], from the two velocity
    fields of its row. *)
Definition flocking_window_of (config : Config) (row : list float)
  : list scalar :=
  let a := max_accel config * dt config in
  let b := max_delta_yaw_rate config * dt config in
  [py_max (PyFloat (min_speed config)) (NpFloat (nth 3 row 0 - a));
   py_min (PyFloat (max_speed config)) (NpFloat (nth 3 row 0 + a));
   py_max (PyFloat (- max_yaw_rate config)) (NpFloat (nth 4 row 0 - b));
   py_min (PyFloat (max_yaw_rate config)) (NpFloat (nth 4 row 0 + b))].

(** A binary64 value that is a zero; one that is a zero or a finite
    number. *)
Definition sf_zero (s : spec_float) : Prop := exists sg, s = S754_zero sg.

Definition sf_finite (s : spec_float) : Prop :=
  sf_zero s \/ exists sg m e, s = S754_finite sg m e.

(** The costs of the candidates of agent [n], appended to [acc] in the
    order in which the search evaluates them. *)
Definition flocking_agent_costs (M : Libm) (fuel : nat)
  (x : list (list float)) (dw : list (list scalar)) (config : Config)
  (goal : list float) (obs : ndarray) (acc : list float) (n : nat)
  : res (list float) :=
  lo <- getitem2 dw n 0 ;;
  hi <- getitem2 dw n 1 ;;
  vs <- arange lo hi (v_resolution config) ;;
  for_each vs
    (fun acc v =>
       ylo <- getitem2 dw n 2 ;;
       yhi <- getitem2 dw n 3 ;;
       ys <- arange ylo yhi (yaw_rate_resolution config) ;;
       for_each ys
         (fun acc y =>
            trajectory <- Flocking.predict_trajectory M fuel x n v y
                            config ;;
            c <- final_cost M config trajectory goal obs ;;
            Ok (acc ++ [c]))
         acc)
    acc.

(** The variables of the multi-agent search against the costs of the
    candidates scored so far: [min_cost] is not NaN and is at most every
    cost that is not NaN; either nothing was accepted yet, or
    [best_trajectory] is the trajectory of an accepted candidate of some
    agent [n], [min_cost] is its cost, no candidate scored after it was
    accepted, and [best_u[n]] is its command. *)
Definition flocking_least_inv (M : Libm) (fuel : nat)
  (x : list (list float)) (config : Config) (goal : list float)
  (obs : ndarray) (st : Flocking.search_state) (costs : list float) : Prop :=
  is_nan (Flocking.min_cost st) = false
  /\ (forall c', In c' costs -> is_nan c' = false ->
                 (Flocking.min_cost st <=? c') = true)
  /\ ((Flocking.min_cost st = infinity
       /\ Flocking.best_trajectory st = Arr3 [x]
       /\ Flocking.best_u st = repeat [0.0; 0.0] 6
       /\ forall c, In c costs -> is_nan c = true)
      \/ exists (n : nat) (v y : float),
          Flocking.predict_trajectory M fuel x n v y config
          = Ok (Flocking.best_trajectory st)
          /\ final_cost M config (Flocking.best_trajectory st) goal obs
             = Ok (Flocking.min_cost st)
          /\ (exists pre post : list float,
                 costs = pre ++ Flocking.min_cost st :: post
                 /\ forall c', In c' post ->
                               (c' <=? Flocking.min_cost st) = false)
          /\ (nth_error (Flocking.best_u st) n = Some [v; y]
              \/ nth_error (Flocking.best_u st) n
                 = Some [v; - max_delta_yaw_rate config])).

(** Agent [n] of the state array [x] is within the robot's radius of the
    goal. *)
Definition agent_at_goal (M : Libm) (x : list (list float))
  (goal : list float) (config : Config) (n : nat) : Prop :=
  exists row, nth_error x n = Some row
    /\ (hypot M (nth 0 row 0 - nth 0 goal 0) (nth 1 row 0 - nth 1 goal 0)
        <=? robot_radius config) = true.

(** The velocity fields of the agents in [done] hold the commands [us]
    selected for them. *)
Definition commands_applied (us x : list (list float)) (done : list nat)
  : Prop :=
  forall n u, In n done -> nth_error us n = Some u ->
              getitem2 x n 3 = getitem u 0 /\ getitem2 x n 4 = getitem u 1.

(** The Config of [dwa_flocking.py] with a time step of zero. *)
Definition config_zero_step : Config := with_horizon Flocking.config 0 1.5.

(** The command [u] of agent [n] was sampled from the window of agent [n]:
    its velocity is one of [np.arange] over the velocity bounds, its yaw
    rate one of [np.arange] over the yaw-rate bounds or the anti-stall yaw
    rate. *)
Definition sampled_command (config : Config) (dw : list (list scalar))
  (n : nat) (u : list float) : Prop :=
  exists (lo hi ylo yhi : scalar) (v y : float) (vs ys : list float),
    getitem2 dw n 0 = Ok lo /\ getitem2 dw n 1 = Ok hi
    /\ getitem2 dw n 2 = Ok ylo /\ getitem2 dw n 3 = Ok yhi
    /\ arange lo hi (v_resolution config) = Ok vs
    /\ arange ylo yhi (yaw_rate_resolution config) = Ok ys
    /\ In v vs /\ In y ys
    /\ (u = [v; y] \/ u = [v; - max_delta_yaw_rate config]).

Definition flocking_sampled_inv (config : Config)
  (dw : list (list scalar)) (st : Flocking.search_state) : Prop :=
  forall m u, nth_error (Flocking.best_u st) m = Some u ->
              u = [0.0; 0.0] \/ sampled_command config dw m u.

(** Rows of one width [w], as the rows of a two-dimensional numpy array
    are; [np.vstack] accepts two arrays whose rows have the same width. *)
Definition same_width (w : nat) (rows : list (list float)) : Prop :=
  forall r, In r rows -> length r = w.

(** What the first loop of the multi-agent [main] keeps from one pass to
    the next: six agents of five fields or more, and a two-dimensional
    history whose rows are as wide as those of the state array. *)
Definition flocking_loop_inv (w : nat) (s : Flocking.loop_state) : Prop :=
  flock_shaped (Flocking.agents_x s)
  /\ same_width w (Flocking.agents_x s)
  /\ exists h, Flocking.history s = Arr2 h /\ same_width w h.

(** The headings of [k] ticks from the heading [h] with the yaw rate [w]
    are all accepted by [math.cos] and [math.sin]. *)
Fixpoint headings_ok (h w dt : float) (k : nat) : bool :=
  match k with
  | O => true
  | S j => math_ok (h + w * dt) && headings_ok (h + w * dt) w dt j
  end.

(** ** Binary64 values as integers *)

(** The value of a finite binary64 number in units of [2^-1074], the
    smallest positive number of the format: every finite number is an
    integer number of units. *)
Definition sf_units (s : spec_float) : Z :=
  match s with
  | S754_finite sg m e => cond_Zopp sg (Zpos m * 2 ^ (e + 1074))%Z
  | _ => 0%Z
  end.

Definition sf_is_finite (s : spec_float) : bool :=
  match s with
  | S754_zero _ | S754_finite _ _ _ => true
  | _ => false
  end.

(** The number of binary digits of a non-negative integer. *)
Definition bits (z : Z) : Z := (if z =? 0 then 0 else Z.log2 z + 1)%Z.

(** The exponent, in units, at which a positive integer of [bits] digits is
    rounded: its last [grid] digits are lost. *)
Definition grid (z : Z) : Z := Z.max (bits z - 53) 0.

(** An integer number of units that binary64 holds exactly: it lies on
    the grid of its size and is below the overflow threshold. *)
Definition representable (X : Z) : Prop :=
  (Z.abs X mod 2 ^ grid (Z.abs X) = 0 /\ Z.abs X < 2 ^ 2098)%Z.

(** What is known of a result that is at most (at least) [X] units. *)
Definition sf_le_units (r : spec_float) (X : Z) : Prop :=
  r = S754_infinity true \/ (sf_is_finite r = true /\ (sf_units r <= X)%Z).

Definition sf_ge_units (r : spec_float) (X : Z) : Prop :=
  r = S754_infinity false \/ (sf_is_finite r = true /\ (X <= sf_units r)%Z).

(** * The order of binary64 values

    From the specification of the primitive comparisons
    ([FloatAxioms.leb_spec], [FloatAxioms.ltb_spec]). *)

Section FloatOrder.

Lemma compare_cont_Eq (p q : positive) :
  Pos.compare_cont Eq p q = (p ?= q)%positive.
Proof. reflexivity. Qed.

Lemma SFleb_key (x y : spec_float) :
  x <> S754_nan -> y <> S754_nan ->
  (SFleb x y = true <-> key_le (sf_key x) (sf_key y)).
Proof.
  intros Hx Hy. unfold SFleb, SFcompare, key_le.
  destruct x as [sx|sx| |sx mx ex], y as [sy|sy| |sy my ey];
    try congruence;
    try destruct sx; try destruct sy; cbn [sf_key fst snd];
    try (split; [intros _; lia | reflexivity]);
    try (split; [discriminate | lia]).
  - rewrite compare_cont_Eq.
    destruct (Z.compare_spec ex ey), (Pos.compare_spec mx my); cbn;
      split; try discriminate; try reflexivity; try lia.
  - rewrite compare_cont_Eq.
    destruct (Z.compare_spec ex ey), (Pos.compare_spec mx my); cbn;
      split; try discriminate; try reflexivity; try lia.
Qed.

Lemma SFltb_key (x y : spec_float) :
  x <> S754_nan -> y <> S754_nan ->
  (SFltb x y = true <-> key_lt (sf_key x) (sf_key y)).
Proof.
  intros Hx Hy. unfold SFltb, SFcompare, key_lt.
  destruct x as [sx|sx| |sx mx ex], y as [sy|sy| |sy my ey];
    try congruence;
    try destruct sx; try destruct sy; cbn [sf_key fst snd];
    try (split; [intros _; lia | reflexivity]);
    try (split; [discriminate | lia]).
  - rewrite compare_cont_Eq.
    destruct (Z.compare_spec ex ey), (Pos.compare_spec mx my); cbn;
      split; try discriminate; try reflexivity; try lia.
  - rewrite compare_cont_Eq.
    destruct (Z.compare_spec ex ey), (Pos.compare_spec mx my); cbn;
      split; try discriminate; try reflexivity; try lia.
Qed.

Lemma SFleb_not_nan (x y : spec_float) :
  SFleb x y = true -> x <> S754_nan /\ y <> S754_nan.
Proof.
  unfold SFleb, SFcompare.
  destruct x, y; try discriminate; split; discriminate.
Qed.

Lemma SFcompare_refl (x : spec_float) :
  x <> S754_nan -> SFcompare x x = Some Eq.
Proof.
  intros H. destruct x as [s|s| |s m e]; try congruence;
    try (destruct s; reflexivity).
  unfold SFcompare. rewrite Z.compare_refl, compare_cont_Eq, Pos.compare_refl.
  destruct s; reflexivity.
Qed.

Lemma is_nan_spec (a : float) : is_nan a = false <-> Prim2SF a <> S754_nan.
Proof.
  unfold is_nan. rewrite FloatAxioms.eqb_spec. unfold SFeqb.
  split.
  - intros H E. rewrite E in H. discriminate.
  - intros H. rewrite SFcompare_refl by assumption. reflexivity.
Qed.

(** The order facts on floats used below. *)
Lemma leb_not_nan (a b : float) :
  (a <=? b) = true -> is_nan a = false /\ is_nan b = false.
Proof.
  rewrite FloatAxioms.leb_spec. intros H. apply SFleb_not_nan in H.
  split; apply is_nan_spec; tauto.
Qed.

Lemma leb_refl (a : float) : is_nan a = false -> (a <=? a) = true.
Proof.
  intros H. apply is_nan_spec in H. rewrite FloatAxioms.leb_spec.
  apply SFleb_key; auto. unfold key_le. lia.
Qed.

Lemma leb_trans (a b c : float) :
  (a <=? b) = true -> (b <=? c) = true -> (a <=? c) = true.
Proof.
  rewrite !FloatAxioms.leb_spec. intros H1 H2.
  destruct (SFleb_not_nan _ _ H1) as [Ha Hb].
  destruct (SFleb_not_nan _ _ H2) as [_ Hc].
  apply SFleb_key in H1; auto. apply SFleb_key in H2; auto.
  apply SFleb_key; auto. unfold key_le in *. lia.
Qed.

Lemma ltb_leb (a b : float) : (a <? b) = true -> (a <=? b) = true.
Proof.
  rewrite FloatAxioms.ltb_spec, FloatAxioms.leb_spec. unfold SFltb, SFleb.
  destruct (SFcompare (Prim2SF a) (Prim2SF b)) as [[| |]|];
    try discriminate; reflexivity.
Qed.

Lemma not_ltb_leb (a b : float) :
  is_nan a = false -> is_nan b = false ->
  (a <? b) = false -> (b <=? a) = true.
Proof.
  intros Ha Hb. apply is_nan_spec in Ha. apply is_nan_spec in Hb.
  rewrite FloatAxioms.ltb_spec, FloatAxioms.leb_spec. intros H.
  apply SFleb_key; auto.
  destruct (SFltb (Prim2SF a) (Prim2SF b)) eqn:E; [discriminate|].
  assert (K : ~ key_lt (sf_key (Prim2SF a)) (sf_key (Prim2SF b))).
  { intros K. apply SFltb_key in K; auto. congruence. }
  unfold key_lt, key_le in *. lia.
Qed.

Lemma leb_not_ltb (a b : float) : (a <=? b) = true -> (b <? a) = false.
Proof.
  intros H. destruct (leb_not_nan _ _ H) as [Ha Hb].
  apply is_nan_spec in Ha. apply is_nan_spec in Hb.
  rewrite FloatAxioms.leb_spec in H. apply SFleb_key in H; auto.
  rewrite FloatAxioms.ltb_spec.
  destruct (SFltb (Prim2SF b) (Prim2SF a)) eqn:E; auto.
  apply SFltb_key in E; auto. unfold key_lt, key_le in *. lia.
Qed.

End FloatOrder.

(** * Binary64 arithmetic

    The results of [+], [-], [*] and [/] located from the specification
    of the primitive operations ([FloatAxioms.add_spec] and the like):
    rounding to nearest is monotone, so a sum or a difference lies on the
    side of a representable bound on which the exact result lies. *)

Section Digits.
Local Open Scope Z_scope.

Lemma digits2_pos_log2 (m : positive) :
  Zpos (digits2_pos m) = Z.log2 (Zpos m) + 1.
Proof.
  induction m as [m IH | m IH |]; cbn [digits2_pos].
  - rewrite Pos2Z.inj_succ, IH.
    change (Zpos m~1) with (2 * Zpos m + 1).
    rewrite Z.log2_succ_double by lia. lia.
  - rewrite Pos2Z.inj_succ, IH.
    change (Zpos m~0) with (2 * Zpos m).
    rewrite Z.log2_double by lia. lia.
  - reflexivity.
Qed.

Lemma Zdigits2_bits (m : Z) : 0 <= m -> Zdigits2 m = bits m.
Proof.
  intros H. unfold bits. destruct m as [|p|p]; [reflexivity | | lia].
  cbn [Zdigits2]. rewrite digits2_pos_log2. reflexivity.
Qed.

Lemma bits_nonneg (z : Z) : 0 <= bits z.
Proof.
  unfold bits. destruct (z =? 0); [lia |].
  pose proof (Z.log2_nonneg z). lia.
Qed.

Lemma bits_spec (z : Z) : 0 < z -> 2 ^ (bits z - 1) <= z < 2 ^ bits z.
Proof.
  intros H. unfold bits. destruct (Z.eqb_spec z 0); [lia |].
  pose proof (Z.log2_spec z H) as L.
  replace (Z.log2 z + 1 - 1) with (Z.log2 z) by lia.
  replace (Z.log2 z + 1) with (Z.succ (Z.log2 z)) by lia. exact L.
Qed.

Lemma bits_lt_pow (z k : Z) : 0 <= z -> 0 <= k -> z < 2 ^ k -> bits z <= k.
Proof.
  intros Hz Hk H. unfold bits. destruct (Z.eqb_spec z 0); [lia |].
  assert (L : Z.log2 z < k) by (apply Z.log2_lt_pow2; lia). lia.
Qed.

Lemma bits_ge_pow (z k : Z) : 0 <= k -> 2 ^ k <= z -> k < bits z.
Proof.
  intros Hk H. unfold bits.
  assert (0 < 2 ^ k) by (apply Z.pow_pos_nonneg; lia).
  destruct (Z.eqb_spec z 0); [lia |].
  assert (L : k <= Z.log2 z) by (apply Z.log2_le_pow2; lia). lia.
Qed.

Lemma bits_le (a b : Z) : 0 <= a <= b -> bits a <= bits b.
Proof.
  intros H. unfold bits.
  destruct (Z.eqb_spec a 0), (Z.eqb_spec b 0); try lia.
  - pose proof (Z.log2_nonneg b). lia.
  - pose proof (Z.log2_le_mono a b). lia.
Qed.

Lemma bits_mul_pow2 (a k : Z) :
  0 < a -> 0 <= k -> bits (a * 2 ^ k) = bits a + k.
Proof.
  intros Ha Hk. unfold bits.
  assert (0 < 2 ^ k) by (apply Z.pow_pos_nonneg; lia).
  destruct (Z.eqb_spec a 0); [lia |].
  destruct (Z.eqb_spec (a * 2 ^ k) 0); [nia |].
  rewrite Z.log2_mul_pow2 by lia. lia.
Qed.

End Digits.

Section Units.
Local Open Scope Z_scope.

Lemma pow2_pos (k : Z) : 0 <= k -> 0 < 2 ^ k.
Proof. intros H. apply Z.pow_pos_nonneg; lia. Qed.

Lemma pow2_split (a b : Z) : 0 <= a -> 0 <= b -> 2 ^ (a + b) = 2 ^ a * 2 ^ b.
Proof. intros. apply Z.pow_add_r; assumption. Qed.

Lemma pow2_le (a b : Z) : 0 <= a <= b -> 2 ^ a <= 2 ^ b.
Proof. intros H. apply Z.pow_le_mono_r; lia. Qed.

Lemma mul_compare_r (n m p : Z) : 0 < p -> (n * p ?= m * p) = (n ?= m).
Proof.
  intros H. destruct (Z.compare_spec n m) as [E | L | L].
  - subst. apply Z.compare_refl.
  - apply Z.compare_lt_iff. nia.
  - apply Z.compare_gt_iff. nia.
Qed.

(** What [valid_binary] says of a finite number. *)
Lemma bounded_spec (m : positive) (e : Z) :
  bounded prec emax m e = true ->
  -1074 <= e <= 971 /\ bits (Zpos m) <= 53
  /\ (e = -1074 \/ bits (Zpos m) = 53).
Proof.
  unfold bounded, canonical_mantissa, fexp, SpecFloat.emin, prec, emax.
  rewrite andb_true_iff, Z.eqb_eq, Z.leb_le, digits2_pos_log2.
  unfold bits. change (Zpos m =? 0) with false. cbv iota. lia.
Qed.

Lemma valid_units_bits (s : bool) (m : positive) (e : Z) :
  bounded prec emax m e = true ->
  let u := Zpos m * 2 ^ (e + 1074) in
  0 < u /\ bits u = bits (Zpos m) + (e + 1074)
  /\ bits u - 53 <= e + 1074
  /\ (e + 1074 = 0 \/ bits u - 53 = e + 1074)
  /\ u mod 2 ^ (e + 1074) = 0.
Proof.
  intros H u. apply bounded_spec in H. destruct H as [He [Hb Hc]].
  assert (P : 0 < 2 ^ (e + 1074)) by (apply pow2_pos; lia).
  unfold u. rewrite bits_mul_pow2 by lia.
  repeat split; try lia. apply Z.mod_mul. lia.
Qed.

Lemma units_lt_exp (m1 m2 : positive) (e1 e2 : Z) :
  bounded prec emax m1 e1 = true -> bounded prec emax m2 e2 = true ->
  e1 < e2 -> Zpos m1 * 2 ^ (e1 + 1074) < Zpos m2 * 2 ^ (e2 + 1074).
Proof.
  intros H1 H2 L.
  apply bounded_spec in H1, H2.
  destruct H1 as [He1 [Hb1 _]]. destruct H2 as [He2 [_ Hc2]].
  assert (B2 : bits (Zpos m2) = 53) by lia.
  pose proof (bits_spec (Zpos m1) ltac:(lia)) as S1.
  pose proof (bits_spec (Zpos m2) ltac:(lia)) as S2.
  rewrite B2 in S2. change (2 ^ (53 - 1)) with 4503599627370496 in S2.
  assert (U1 : Zpos m1 < 2 ^ 53).
  { eapply Z.lt_le_trans; [apply S1 |].
    apply pow2_le. pose proof (bits_nonneg (Zpos m1)). lia. }
  change (2 ^ 53) with 9007199254740992 in U1.
  replace (e2 + 1074) with ((e1 + 1074) + (e2 - e1)) by lia.
  rewrite (pow2_split (e1 + 1074) (e2 - e1)) by lia.
  assert (P : 0 < 2 ^ (e1 + 1074)) by (apply pow2_pos; lia).
  assert (Q : 2 ^ 1 <= 2 ^ (e2 - e1)) by (apply pow2_le; lia).
  change (2 ^ 1) with 2 in Q.
  set (p := 2 ^ (e1 + 1074)) in *. set (q := 2 ^ (e2 - e1)) in *.
  assert (A : Zpos m1 * p < 9007199254740992 * p)
    by (apply Z.mul_lt_mono_pos_r; assumption).
  assert (B : 4503599627370496 * 2 <= Zpos m2 * q)
    by (apply Z.mul_le_mono_nonneg; lia).
  assert (C : 4503599627370496 * 2 * p <= Zpos m2 * q * p)
    by (apply Z.mul_le_mono_nonneg_r; lia).
  lia.
Qed.

Lemma finite_or_zero_valid_compare (x y : spec_float) :
  sf_is_finite x = true -> sf_is_finite y = true ->
  valid_binary x = true -> valid_binary y = true ->
  SFcompare x y = Some (sf_units x ?= sf_units y).
Proof.
  destruct x as [sx|sx| |sx mx ex], y as [sy|sy| |sy my ey];
    try discriminate; intros _ _ Vx Vy; cbn [sf_units SFcompare].
  - reflexivity.
  - pose proof (valid_units_bits sy my ey Vy) as [P _].
    destruct sy; cbn [cond_Zopp]; f_equal; symmetry;
      [apply Z.compare_gt_iff | apply Z.compare_lt_iff]; lia.
  - pose proof (valid_units_bits sx mx ex Vx) as [P _].
    destruct sx; cbn [cond_Zopp]; f_equal; symmetry;
      [apply Z.compare_lt_iff | apply Z.compare_gt_iff]; lia.
  - pose proof (valid_units_bits sx mx ex Vx) as [Px _].
    pose proof (valid_units_bits sy my ey Vy) as [Py _].
    cbn [valid_binary] in Vx, Vy.
    assert (G : 0 < 2 ^ (ex + 1074)).
    { apply pow2_pos. apply bounded_spec in Vx. lia. }
    destruct sx, sy; cbn [cond_Zopp]; f_equal.
    + destruct (Z.compare_spec ex ey) as [E | L | L].
      * subst ey. rewrite Z.compare_opp.
        rewrite mul_compare_r by exact G.
        change (Pos.compare_cont Eq mx my) with (mx ?= my)%positive.
        rewrite <- Pos.compare_antisym. reflexivity.
      * symmetry. apply Z.compare_gt_iff.
        pose proof (units_lt_exp mx my ex ey Vx Vy L). lia.
      * symmetry. apply Z.compare_lt_iff.
        pose proof (units_lt_exp my mx ey ex Vy Vx L). lia.
    + symmetry. apply Z.compare_lt_iff. lia.
    + symmetry. apply Z.compare_gt_iff. lia.
    + destruct (Z.compare_spec ex ey) as [E | L | L].
      * subst ey. rewrite mul_compare_r by exact G. reflexivity.
      * symmetry. apply Z.compare_lt_iff.
        exact (units_lt_exp mx my ex ey Vx Vy L).
      * symmetry. apply Z.compare_gt_iff.
        pose proof (units_lt_exp my mx ey ex Vy Vx L). lia.
Qed.

End Units.

Section Shifts.
Local Open Scope Z_scope.

Lemma iter_pos_count {A : Type} (f : A -> A) (P : Z -> A -> Prop) :
  (forall k a, 0 <= k -> P k a -> P (k + 1) (f a)) ->
  forall (p : positive) (k : Z) (a : A),
    0 <= k -> P k a -> P (k + Zpos p) (SpecFloat.iter_pos f p a).
Proof.
  intros Hf. induction p as [p IH | p IH |]; intros k a Hk Ha;
    cbn [SpecFloat.iter_pos].
  - replace (k + Zpos p~1) with (k + 1 + Zpos p + Zpos p) by lia.
    apply IH; [lia |]. apply IH; [lia |]. apply Hf; assumption.
  - replace (k + Zpos p~0) with (k + Zpos p + Zpos p) by lia.
    apply IH; [lia |]. apply IH; assumption.
  - apply Hf; assumption.
Qed.

Lemma shr_1_spec (mrs : shr_record) :
  0 <= shr_m mrs ->
  shr_m (shr_1 mrs) = shr_m mrs / 2
  /\ (shr_r mrs = false -> shr_s mrs = false -> shr_m mrs mod 2 = 0 ->
      shr_r (shr_1 mrs) = false /\ shr_s (shr_1 mrs) = false).
Proof.
  destruct mrs as [m r s]. cbn [shr_m shr_r shr_s]. intros H.
  destruct m as [|[p|p|]|p]; cbn [shr_1 shr_m shr_r shr_s]; try lia.
  - split; [reflexivity |]. intros -> ->. auto.
  - split; [apply (Z.div_unique _ _ _ 1); lia |].
    intros _ _ E. exfalso.
    rewrite Pos2Z.inj_xI in E. Z.div_mod_to_equations. lia.
  - split; [apply (Z.div_unique _ _ _ 0); lia |].
    intros -> ->. auto.
  - split; [reflexivity |]. intros _ _ E. discriminate E.
Qed.

Lemma div_pow2_succ (m k : Z) : 0 <= k -> m / 2 ^ k / 2 = m / 2 ^ (k + 1).
Proof.
  intros Hk. pose proof (pow2_pos k Hk).
  rewrite Z.pow_add_r by lia. change (2 ^ 1) with 2.
  rewrite Zdiv.Zdiv_Zdiv by lia. reflexivity.
Qed.

Lemma mod_pow2_succ (m k : Z) :
  0 <= k -> m mod 2 ^ (k + 1) = 0 ->
  m mod 2 ^ k = 0 /\ (m / 2 ^ k) mod 2 = 0.
Proof.
  intros Hk E. pose proof (pow2_pos k Hk) as P.
  rewrite Z.pow_add_r in E by lia. change (2 ^ 1) with 2 in E.
  apply Z.mod_divide in E; [| lia]. destruct E as [c Ec].
  assert (E1 : m = (c * 2) * 2 ^ k) by lia.
  split.
  - rewrite E1. apply Z.mod_mul. lia.
  - rewrite E1. rewrite Z.div_mul by lia. apply Z.mod_mul. lia.
Qed.

Lemma div_pow2_nonneg (m k : Z) : 0 <= m -> 0 <= k -> 0 <= m / 2 ^ k.
Proof.
  intros Hm Hk. apply Z.div_pos; [exact Hm | apply pow2_pos; exact Hk].
Qed.

(** [n] shifts to the right of a mantissa that starts exact: the quotient
    by [2^n], and no bit was lost when [2^n] divides the mantissa. *)
Lemma shr_spec (m e n : Z) :
  0 <= m ->
  exists mrs,
    shr (Build_shr_record m false false) e n = (mrs, e + Z.max 0 n)
    /\ shr_m mrs = m / 2 ^ Z.max 0 n
    /\ (m mod 2 ^ Z.max 0 n = 0 -> loc_of_shr_record mrs = loc_Exact).
Proof.
  intros Hm. destruct n as [|p|p]; cbn [shr].
  - eexists. split; [f_equal; lia |]. cbn. split; [| reflexivity].
    symmetry. apply Z.div_1_r.
  - eexists. split; [reflexivity |].
    assert (I : shr_m (SpecFloat.iter_pos shr_1 p
                         (Build_shr_record m false false))
                = m / 2 ^ (0 + Zpos p)
                /\ (m mod 2 ^ (0 + Zpos p) = 0 ->
                    shr_r (SpecFloat.iter_pos shr_1 p
                             (Build_shr_record m false false)) = false
                    /\ shr_s (SpecFloat.iter_pos shr_1 p
                                (Build_shr_record m false false)) = false)).
    { apply (iter_pos_count shr_1
               (fun k mrs =>
                  shr_m mrs = m / 2 ^ k
                  /\ (m mod 2 ^ k = 0 ->
                      shr_r mrs = false /\ shr_s mrs = false))).
      - intros k a Hk [Hq Hx].
        assert (Ha : 0 <= shr_m a)
          by (rewrite Hq; apply div_pow2_nonneg; assumption).
        destruct (shr_1_spec a Ha) as [S1 S2].
        split; [rewrite S1, Hq; apply div_pow2_succ; exact Hk |].
        intros E. apply mod_pow2_succ in E; [| exact Hk].
        destruct E as [E1 E2]. destruct (Hx E1) as [R S].
        apply S2; [exact R | exact S | rewrite Hq; exact E2].
      - lia.
      - cbn [shr_m shr_r shr_s]. split; [symmetry; apply Z.div_1_r | auto]. }
    change (0 + Zpos p) with (Zpos p) in I.
    change (Z.max 0 (Zpos p)) with (Zpos p).
    destruct I as [I1 I2]. split; [exact I1 |].
    intros E. destruct (I2 E) as [R S].
    destruct (SpecFloat.iter_pos shr_1 p _) as [m' r' s'].
    cbn in R, S. subst. reflexivity.
  - eexists. split; [f_equal; lia |]. cbn. split; [| reflexivity].
    symmetry. apply Z.div_1_r.
Qed.

(** Shifts keep a mantissa non-negative, whatever was lost before. *)
Lemma shr_nonneg (mrs : shr_record) (e n : Z) :
  0 <= shr_m mrs -> 0 <= shr_m (fst (shr mrs e n)).
Proof.
  intros H. destruct n as [|p|p]; cbn [shr fst]; try exact H.
  apply (iter_pos_count shr_1 (fun _ a => 0 <= shr_m a)) with (k := 0);
    [| lia | exact H].
  intros k a _ Ha. destruct (shr_1_spec a Ha) as [-> _].
  apply Z.div_pos; lia.
Qed.

Lemma round_nearest_even_bounds (m : Z) (l : location) :
  m <= round_nearest_even m l <= m + 1
  /\ (l = loc_Exact -> round_nearest_even m l = m).
Proof.
  destruct l as [|[| |]]; cbn [round_nearest_even];
    try destruct (Z.even m); split; try lia; try reflexivity;
    intros E; discriminate E.
Qed.

End Shifts.

Section Round.
Local Open Scope Z_scope.

Lemma fexp_eq (z : Z) : fexp prec emax z = Z.max (z - 53) (-1074).
Proof. reflexivity. Qed.

Lemma shr_record_of_loc_m (m : Z) (l : location) :
  shr_m (shr_record_of_loc m l) = m.
Proof. destruct l as [|[| |]]; reflexivity. Qed.

(** Rounding keeps the sign it is given and never gives NaN. *)
Lemma binary_round_aux_sign (s : bool) (m e : Z) (l : location) :
  0 <= m ->
  match binary_round_aux prec emax s m e l with
  | S754_zero s' | S754_infinity s' | S754_finite s' _ _ => s' = s
  | S754_nan => False
  end.
Proof.
  intros Hm. unfold binary_round_aux, shr_fexp.
  pose proof (shr_nonneg (shr_record_of_loc m l) e
                (fexp prec emax (Zdigits2 m + e) - e)) as N1.
  rewrite shr_record_of_loc_m in N1. specialize (N1 Hm).
  destruct (shr (shr_record_of_loc m l) e _) as [mrs1 e1].
  cbn [fst] in N1.
  set (m2 := round_nearest_even (shr_m mrs1) (loc_of_shr_record mrs1)).
  assert (H2 : 0 <= m2).
  { pose proof (round_nearest_even_bounds (shr_m mrs1)
                  (loc_of_shr_record mrs1)) as [B _].
    unfold m2. lia. }
  pose proof (shr_nonneg (shr_record_of_loc m2 loc_Exact) e1
                (fexp prec emax (Zdigits2 m2 + e1) - e1)) as N2.
  rewrite shr_record_of_loc_m in N2. specialize (N2 H2).
  destruct (shr (shr_record_of_loc m2 loc_Exact) e1 _) as [mrs2 e2].
  cbn [fst] in N2.
  destruct (shr_m mrs2) as [|p|p]; [reflexivity | | lia].
  destruct (e2 <=? emax - prec); reflexivity.
Qed.

Lemma binary_round_aux_exact (s : bool) (m e : Z) :
  0 <= m ->
  let e1 := Z.max e (fexp prec emax (bits m + e)) in
  let q := m / 2 ^ (e1 - e) in
  exists m2,
    q <= m2 <= q + 1 /\ (m mod 2 ^ (e1 - e) = 0 -> m2 = q)
    /\ q < 2 ^ 53
    /\ binary_round_aux prec emax s m e loc_Exact
       = match m2 with
         | Z0 => S754_zero s
         | Zpos p =>
             if m2 <? 2 ^ 53 then
               if e1 <=? 971 then S754_finite s p e1 else S754_infinity s
             else
               if e1 + 1 <=? 971
               then S754_finite s 4503599627370496 (e1 + 1)
               else S754_infinity s
         | Zneg _ => S754_nan
         end.
Proof.
  intros Hm e1 q.
  unfold binary_round_aux, shr_fexp.
  rewrite (Zdigits2_bits m Hm). cbn [shr_record_of_loc].
  destruct (shr_spec m e (fexp prec emax (bits m + e) - e) Hm)
    as [mrs1 [E1 [Q1 X1]]].
  rewrite E1.
  assert (He1 : e + Z.max 0 (fexp prec emax (bits m + e) - e) = e1)
    by (unfold e1; lia).
  assert (Hn1 : Z.max 0 (fexp prec emax (bits m + e) - e) = e1 - e)
    by (unfold e1; lia).
  rewrite He1. rewrite Hn1 in Q1, X1. fold q in Q1.
  set (m2 := round_nearest_even (shr_m mrs1) (loc_of_shr_record mrs1)).
  pose proof (round_nearest_even_bounds (shr_m mrs1)
                (loc_of_shr_record mrs1)) as [B2 X2].
  fold m2 in B2, X2. rewrite Q1 in B2, X2.
  assert (Hk : 0 <= e1 - e) by (unfold e1; lia).
  assert (Hq : 0 <= q) by (apply div_pow2_nonneg; assumption).
  assert (Hlow : -1074 <= e1) by (unfold e1; rewrite fexp_eq; lia).
  assert (Hq53 : q < 2 ^ 53).
  { apply Z.div_lt_upper_bound; [apply pow2_pos; exact Hk |].
    destruct (Z.eq_dec m 0) as [-> | Hne].
    - pose proof (pow2_pos (e1 - e) Hk). lia.
    - pose proof (bits_spec m ltac:(lia)) as [_ U].
      eapply Z.lt_le_trans; [exact U |].
      rewrite <- Z.pow_add_r by lia. apply pow2_le.
      split; [apply bits_nonneg |].
      unfold e1. rewrite fexp_eq. lia. }
  exists m2. split; [lia |].
  split; [intros E; rewrite (X2 (X1 E)); reflexivity |].
  split; [exact Hq53 |].
  assert (H2 : 0 <= m2) by lia.
  rewrite (Zdigits2_bits m2 H2).
  destruct (shr_spec m2 e1 (fexp prec emax (bits m2 + e1) - e1) H2)
    as [mrs2 [E2 [Q2 _]]].
  rewrite E2.
  destruct (Z.ltb_spec m2 (2 ^ 53)) as [L | L].
  - assert (Hb : bits m2 <= 53) by (apply bits_lt_pow; lia).
    assert (Hn2 : Z.max 0 (fexp prec emax (bits m2 + e1) - e1) = 0)
      by (rewrite fexp_eq; lia).
    rewrite Hn2 in Q2 |- *. rewrite Z.add_0_r.
    change (2 ^ 0) with 1 in Q2. rewrite Z.div_1_r in Q2. rewrite Q2.
    destruct m2 as [|p|p]; try reflexivity.
  - assert (E53 : m2 = 2 ^ 53) by lia.
    assert (Hb : bits m2 = 54) by (rewrite E53; reflexivity).
    assert (Hn2 : Z.max 0 (fexp prec emax (bits m2 + e1) - e1) = 1)
      by (rewrite fexp_eq; lia).
    rewrite Hn2 in Q2 |- *.
    rewrite Q2, E53. reflexivity.
Qed.


Lemma pos_iter_xO (m d : positive) :
  Zpos (Pos.iter xO m d) = Zpos m * 2 ^ Zpos d.
Proof.
  induction d as [|d IH] using Pos.peano_ind.
  - cbn [Pos.iter]. rewrite Pos2Z.inj_xO. change (2 ^ 1) with 2. lia.
  - rewrite Pos.iter_succ, Pos2Z.inj_xO, IH, Pos2Z.inj_succ.
    rewrite Z.pow_succ_r by lia. lia.
Qed.

Lemma shl_align_spec (mx : positive) (ex e' : Z) :
  snd (shl_align mx ex e') = Z.min ex e'
  /\ Zpos (fst (shl_align mx ex e')) = Zpos mx * 2 ^ (ex - Z.min ex e').
Proof.
  unfold shl_align. destruct (e' - ex) as [|d|d] eqn:E; cbn [fst snd].
  - replace (Z.min ex e') with ex by lia. rewrite Z.sub_diag. lia.
  - replace (Z.min ex e') with ex by lia. rewrite Z.sub_diag. lia.
  - replace (Z.min ex e') with e' by lia.
    replace (ex - e') with (Zpos d) by lia.
    split; [reflexivity | apply pos_iter_xO].
Qed.

(** [binary_round] on a mantissa and an exponent that is at least the
    least one, in units: the value [D] is brought to the grid of its 53
    leading digits and rounded there to a neighbour, exactly when it is on
    the grid; the result is finite unless it reaches [2^2098]. *)
Lemma binary_round_units (s : bool) (mx : positive) (ex : Z) :
  -1074 <= ex ->
  let D := Zpos mx * 2 ^ (ex + 1074) in
  let sh := grid D in
  exists m2,
    D / 2 ^ sh <= m2 <= D / 2 ^ sh + 1
    /\ (D mod 2 ^ sh = 0 -> m2 = D / 2 ^ sh)
    /\ ((binary_round prec emax s mx ex = S754_infinity s
         /\ 2 ^ 2098 <= m2 * 2 ^ sh)
        \/ exists m e,
            binary_round prec emax s mx ex = S754_finite s m e
            /\ Zpos m * 2 ^ (e + 1074) = m2 * 2 ^ sh).
Proof.
  intros Hex D sh. unfold binary_round.
  rewrite digits2_pos_log2.
  change (Z.log2 (Zpos mx) + 1) with (bits (Zpos mx)).
  set (F := fexp prec emax (bits (Zpos mx) + ex)).
  destruct (shl_align_spec mx ex F) as [Se Sm].
  destruct (shl_align mx ex F) as [mz ez]. cbn [fst snd] in Se, Sm.
  assert (HF : F = Z.max (bits (Zpos mx) + ex - 53) (-1074)) by reflexivity.
  pose proof (bits_nonneg (Zpos mx)) as Hbn.
  assert (Hez : -1074 <= ez <= F) by lia.
  assert (Hbz : bits (Zpos mz) = bits (Zpos mx) + (ex - ez)).
  { rewrite Sm, Se. apply bits_mul_pow2; lia. }
  destruct (binary_round_aux_exact s (Zpos mz) ez ltac:(lia))
    as [m2 [B [X [Q53 R]]]].
  replace (bits (Zpos mz) + ez) with (bits (Zpos mx) + ex) in B, X, Q53, R
    by lia.
  fold F in B, X, Q53, R.
  replace (Z.max ez F) with F in B, X, Q53, R by lia.
  assert (Pz : 0 < 2 ^ (ez + 1074)) by (apply pow2_pos; lia).
  assert (Pf : 0 < 2 ^ (F - ez)) by (apply pow2_pos; lia).
  assert (Hb1 : 0 < bits (Zpos mz))
    by (apply bits_ge_pow; [lia | change (2 ^ 0) with 1; lia]).
  assert (HD : D = Zpos mz * 2 ^ (ez + 1074)).
  { unfold D. rewrite Sm, Se.
    replace (ex + 1074) with ((ex - ez) + (ez + 1074)) by lia.
    rewrite Z.pow_add_r by lia. rewrite Se. lia. }
  assert (Hsh : sh = F + 1074).
  { unfold sh, grid, D. rewrite bits_mul_pow2 by lia. lia. }
  assert (Hpow : 2 ^ sh = 2 ^ (F - ez) * 2 ^ (ez + 1074)).
  { rewrite Hsh, <- Z.pow_add_r by lia. f_equal. lia. }
  assert (Hq : D / 2 ^ sh = Zpos mz / 2 ^ (F - ez)).
  { rewrite HD, Hpow. apply Z.div_mul_cancel_r; lia. }
  exists m2. rewrite Hq. split; [exact B |].
  split.
  { intros E. apply X. rewrite HD, Hpow in E.
    rewrite Z.mul_mod_distr_r in E by lia. nia. }
  assert (Hq1 : 1 <= Zpos mz / 2 ^ (F - ez)).
  { apply Z.div_le_lower_bound; [lia |]. rewrite Z.mul_1_r.
    pose proof (bits_spec (Zpos mz) ltac:(lia)) as [L _].
    eapply Z.le_trans; [| exact L]. apply pow2_le. lia. }
  destruct m2 as [|p|p]; try lia.
  rewrite R.
  destruct (Z.ltb_spec (Zpos p) (2 ^ 53)) as [L | L].
  - destruct (Z.leb_spec F 971) as [Le | Gt].
    + right. exists p, F. split; [reflexivity |]. rewrite Hsh. reflexivity.
    + left. split; [reflexivity |].
      assert (Hq52 : 2 ^ 52 <= Zpos mz / 2 ^ (F - ez)).
      { apply Z.div_le_lower_bound; [lia |].
        rewrite <- Z.pow_add_r by lia.
        pose proof (bits_spec (Zpos mz) ltac:(lia)) as [L' _].
        eapply Z.le_trans; [| exact L']. apply pow2_le. lia. }
      replace 2098 with (52 + 2046) by lia.
      rewrite Z.pow_add_r by lia.
      assert (P2046 : 2 ^ 2046 <= 2 ^ sh) by (apply pow2_le; lia).
      pose proof (pow2_pos 2046 ltac:(lia)).
      apply Z.mul_le_mono_nonneg; lia.
  - assert (E53 : Zpos p = 2 ^ 53) by lia.
    destruct (Z.leb_spec (F + 1) 971) as [Le | Gt].
    + right. exists 4503599627370496%positive, (F + 1).
      split; [reflexivity |]. rewrite E53, Hsh.
      replace (F + 1 + 1074) with (1 + (F + 1074)) by lia.
      rewrite (Z.pow_add_r 2 1) by lia.
      change (2 ^ 53) with (4503599627370496 * 2). change (2 ^ 1) with 2.
      ring.
    + left. split; [reflexivity |]. rewrite E53.
      replace 2098 with (53 + 2045) by lia.
      rewrite Z.pow_add_r by lia.
      assert (P2045 : 2 ^ 2045 <= 2 ^ sh) by (apply pow2_le; lia).
      pose proof (pow2_pos 2045 ltac:(lia)).
      apply Z.mul_le_mono_nonneg; lia.
Qed.

End Round.

Section Monotone.
Local Open Scope Z_scope.

Lemma grid_nonneg (z : Z) : 0 <= grid z.
Proof. unfold grid. lia. Qed.

Lemma grid_le (a b : Z) : 0 <= a <= b -> grid a <= grid b.
Proof. intros H. unfold grid. pose proof (bits_le a b H). lia. Qed.

Lemma mod_pow2_le (X a b : Z) :
  0 <= b <= a -> X mod 2 ^ a = 0 -> X mod 2 ^ b = 0.
Proof.
  intros H E. pose proof (pow2_pos a ltac:(lia)).
  pose proof (pow2_pos b ltac:(lia)).
  apply Z.mod_divide in E; [| lia]. destruct E as [c Ec].
  replace a with ((a - b) + b) in Ec by lia.
  rewrite Z.pow_add_r in Ec by lia.
  rewrite Ec, Z.mul_assoc. apply Z.mod_mul. lia.
Qed.

Lemma floor_grid (Y D sh : Z) :
  0 <= sh -> Y mod 2 ^ sh = 0 -> Y <= D -> Y <= D / 2 ^ sh * 2 ^ sh.
Proof.
  intros Hs E L. pose proof (pow2_pos sh Hs) as P.
  apply Z.mod_divide in E; [| lia]. destruct E as [c Ec]. subst Y.
  apply Z.mul_le_mono_nonneg_r; [lia |].
  apply Z.div_le_lower_bound; lia.
Qed.

Lemma ceil_grid (Y D sh m2 : Z) :
  0 <= sh -> Y mod 2 ^ sh = 0 -> D <= Y ->
  D / 2 ^ sh <= m2 <= D / 2 ^ sh + 1 ->
  (D mod 2 ^ sh = 0 -> m2 = D / 2 ^ sh) ->
  m2 * 2 ^ sh <= Y.
Proof.
  intros Hs E L B X. pose proof (pow2_pos sh Hs) as P.
  destruct (Z.eq_dec (D mod 2 ^ sh) 0) as [Z0 | NZ].
  - rewrite (X Z0).
    pose proof (Z.mul_div_le D (2 ^ sh) P). lia.
  - apply Z.mod_divide in E; [| lia]. destruct E as [c Ec]. subst Y.
    apply Z.mul_le_mono_nonneg_r; [lia |].
    assert (D <> c * 2 ^ sh).
    { intros ->. apply NZ. apply Z.mod_mul. lia. }
    assert (D / 2 ^ sh < c); [| lia].
    apply Z.div_lt_upper_bound; lia.
Qed.

Lemma valid_representable (s : bool) (m : positive) (e : Z) :
  bounded prec emax m e = true ->
  representable (sf_units (S754_finite s m e)).
Proof.
  intros V. pose proof (valid_units_bits s m e V) as [P [Hb [Hg [_ Hm]]]].
  pose proof (bounded_spec m e V) as [He [Hb53 _]].
  cbn [sf_units].
  assert (A : Z.abs (cond_Zopp s (Zpos m * 2 ^ (e + 1074)))
              = Zpos m * 2 ^ (e + 1074)).
  { destruct s; cbn [cond_Zopp]; lia. }
  unfold representable. rewrite A. split.
  - apply (mod_pow2_le _ (e + 1074)); [| exact Hm].
    split; [apply grid_nonneg | unfold grid; lia].
  - pose proof (bits_spec _ P) as [_ U].
    eapply Z.lt_le_trans; [exact U |]. apply pow2_le.
    split; [apply bits_nonneg | lia].
Qed.

Lemma representable_0 : representable 0.
Proof. split; reflexivity. Qed.

Lemma mag_upper (s : bool) (mx : positive) (ex X : Z) :
  -1074 <= ex -> representable X ->
  Zpos mx * 2 ^ (ex + 1074) <= X ->
  exists m e,
    binary_round prec emax s mx ex = S754_finite s m e
    /\ Zpos m * 2 ^ (e + 1074) <= X.
Proof.
  intros Hex [RX UX] L.
  assert (P : 0 < Zpos mx * 2 ^ (ex + 1074)).
  { pose proof (pow2_pos (ex + 1074) ltac:(lia)). lia. }
  rewrite Z.abs_eq in RX, UX by lia.
  destruct (binary_round_units s mx ex Hex) as [m2 [B [E R]]].
  cbv zeta in B, E, R.
  set (D := Zpos mx * 2 ^ (ex + 1074)) in *.
  assert (G : m2 * 2 ^ grid D <= X).
  { apply (ceil_grid X D); try assumption; [apply grid_nonneg |].
    apply (mod_pow2_le _ (grid X)); [| exact RX].
    split; [apply grid_nonneg | apply grid_le; lia]. }
  destruct R as [[_ O] | [m [e [R V]]]]; [lia |].
  exists m, e. split; [exact R | lia].
Qed.

Lemma mag_lower (s : bool) (mx : positive) (ex X : Z) :
  -1074 <= ex -> representable X ->
  0 <= X <= Zpos mx * 2 ^ (ex + 1074) ->
  binary_round prec emax s mx ex = S754_infinity s
  \/ exists m e,
      binary_round prec emax s mx ex = S754_finite s m e
      /\ X <= Zpos m * 2 ^ (e + 1074).
Proof.
  intros Hex [RX UX] L.
  rewrite Z.abs_eq in RX, UX by lia.
  destruct (binary_round_units s mx ex Hex) as [m2 [B [E R]]].
  cbv zeta in B, E, R.
  set (D := Zpos mx * 2 ^ (ex + 1074)) in *.
  destruct R as [[R _] | [m [e [R V]]]]; [left; exact R | right].
  exists m, e. split; [exact R |]. rewrite V.
  pose proof (pow2_pos (grid D) (grid_nonneg D)) as Pg.
  assert (F : D / 2 ^ grid D * 2 ^ grid D <= m2 * 2 ^ grid D)
    by (apply Z.mul_le_mono_nonneg_r; lia).
  eapply Z.le_trans; [| exact F].
  destruct (Z.eq_dec X 0) as [-> | NZ].
  { apply Z.mul_nonneg_nonneg; [apply Z.div_pos |]; lia. }
  destruct (Z.eq_dec (bits X) (bits D)) as [Eb | Nb].
  - apply floor_grid; [apply grid_nonneg | | lia].
    unfold grid. rewrite <- Eb. exact RX.
  - assert (Lb : bits X < bits D) by (pose proof (bits_le X D); lia).
    pose proof (bits_spec X ltac:(lia)) as [_ UX'].
    pose proof (bits_spec D ltac:(lia)) as [LD _].
    pose proof (bits_nonneg X).
    apply Z.le_trans with (2 ^ (bits D - 1)).
    + assert (2 ^ bits X <= 2 ^ (bits D - 1)) by (apply pow2_le; lia). lia.
    + apply floor_grid; [apply grid_nonneg | | exact LD].
      replace (bits D - 1) with ((bits D - 1 - grid D) + grid D) by lia.
      rewrite Z.pow_add_r by (unfold grid; lia).
      apply Z.mod_mul. lia.
Qed.

Lemma representable_opp (X : Z) : representable X -> representable (- X).
Proof. unfold representable. rewrite Z.abs_opp. auto. Qed.

Lemma neg_units_nonpos (m : positive) (e : Z) :
  sf_units (S754_finite true m e) <= 0.
Proof.
  cbn [sf_units cond_Zopp].
  pose proof (Z.pow_nonneg 2 (e + 1074) ltac:(lia)). nia.
Qed.

Lemma pos_units_nonneg (m : positive) (e : Z) :
  0 <= sf_units (S754_finite false m e).
Proof.
  cbn [sf_units cond_Zopp].
  pose proof (Z.pow_nonneg 2 (e + 1074) ltac:(lia)). nia.
Qed.

Lemma normalize_le (M ez X : Z) :
  -1074 <= ez -> representable X -> M * 2 ^ (ez + 1074) <= X ->
  sf_le_units (binary_normalize prec emax M ez false) X.
Proof.
  intros Hez RX L. pose proof (pow2_pos (ez + 1074) ltac:(lia)) as P.
  destruct M as [|p|p]; cbn [binary_normalize].
  - right. split; [reflexivity | cbn; lia].
  - destruct (mag_upper false p ez X Hez RX L) as [m [e [-> V]]].
    right. split; [reflexivity | exact V].
  - destruct (Z.le_gt_cases 0 X) as [Pos | Neg].
    + destruct (binary_round_units true p ez Hez) as [m2 [_ [_ R]]].
      destruct R as [[-> _] | [m [e [-> V]]]]; [left; reflexivity |].
      right. split; [reflexivity |].
      pose proof (neg_units_nonpos m e). lia.
    + destruct (mag_lower true p ez (- X) Hez (representable_opp X RX))
        as [-> | [m [e [-> V]]]]; [lia | left; reflexivity |].
      right. split; [reflexivity |]. cbn [sf_units cond_Zopp]. lia.
Qed.

Lemma normalize_ge (M ez X : Z) :
  -1074 <= ez -> representable X -> X <= M * 2 ^ (ez + 1074) ->
  sf_ge_units (binary_normalize prec emax M ez false) X.
Proof.
  intros Hez RX L. pose proof (pow2_pos (ez + 1074) ltac:(lia)) as P.
  destruct M as [|p|p]; cbn [binary_normalize].
  - right. split; [reflexivity | cbn; lia].
  - destruct (Z.le_gt_cases X 0) as [Neg | Pos].
    + destruct (binary_round_units false p ez Hez) as [m2 [_ [_ R]]].
      destruct R as [[-> _] | [m [e [-> V]]]]; [left; reflexivity |].
      right. split; [reflexivity |].
      pose proof (pos_units_nonneg m e). lia.
    + destruct (mag_lower false p ez X Hez RX)
        as [-> | [m [e [-> V]]]]; [lia | left; reflexivity |].
      right. split; [reflexivity |]. exact V.
  - assert (L' : Zpos p * 2 ^ (ez + 1074) <= - X) by lia.
    destruct (mag_upper true p ez (- X) Hez (representable_opp X RX) L')
      as [m [e [-> V]]].
    right. split; [reflexivity |]. cbn [sf_units cond_Zopp]. lia.
Qed.

End Monotone.

Section Arithmetic.
Local Open Scope Z_scope.

Lemma align_units (m : positive) (e ez : Z) :
  -1074 <= ez <= e ->
  Zpos (fst (shl_align m e ez)) * 2 ^ (ez + 1074) = Zpos m * 2 ^ (e + 1074).
Proof.
  intros H. destruct (shl_align_spec m e ez) as [_ ->].
  replace (Z.min e ez) with ez by lia.
  rewrite <- Z.mul_assoc, <- Z.pow_add_r by lia. f_equal. f_equal. lia.
Qed.

Lemma cond_Zopp_mul (s : bool) (a b : Z) :
  cond_Zopp s a * b = cond_Zopp s (a * b).
Proof. destruct s; cbn; lia. Qed.

(** The sum and the difference of two finite numbers: the exact result,
    an integer number of units, normalised. *)
Lemma SFadd_finite (sx sy : bool) (mx my : positive) (ex ey : Z) :
  bounded prec emax mx ex = true -> bounded prec emax my ey = true ->
  exists M ez,
    -1074 <= ez
    /\ SF64add (S754_finite sx mx ex) (S754_finite sy my ey)
       = binary_normalize prec emax M ez false
    /\ M * 2 ^ (ez + 1074)
       = sf_units (S754_finite sx mx ex) + sf_units (S754_finite sy my ey).
Proof.
  intros Vx Vy.
  pose proof (bounded_spec mx ex Vx) as [Hx _].
  pose proof (bounded_spec my ey Vy) as [Hy _].
  eexists _, (Z.min ex ey). split; [lia |]. split; [reflexivity |].
  cbn [sf_units].
  rewrite Z.mul_add_distr_r, !cond_Zopp_mul, !align_units by lia.
  reflexivity.
Qed.

Lemma SFsub_finite (sx sy : bool) (mx my : positive) (ex ey : Z) :
  bounded prec emax mx ex = true -> bounded prec emax my ey = true ->
  exists M ez,
    -1074 <= ez
    /\ SF64sub (S754_finite sx mx ex) (S754_finite sy my ey)
       = binary_normalize prec emax M ez false
    /\ M * 2 ^ (ez + 1074)
       = sf_units (S754_finite sx mx ex) - sf_units (S754_finite sy my ey).
Proof.
  intros Vx Vy.
  pose proof (bounded_spec mx ex Vx) as [Hx _].
  pose proof (bounded_spec my ey Vy) as [Hy _].
  eexists _, (Z.min ex ey). split; [lia |]. split; [reflexivity |].
  cbn [sf_units].
  rewrite Z.mul_sub_distr_r, !cond_Zopp_mul, !align_units by lia.
  reflexivity.
Qed.

Lemma sf_le_units_leb (r x : spec_float) :
  valid_binary r = true -> valid_binary x = true ->
  sf_is_finite x = true -> sf_le_units r (sf_units x) ->
  SFleb r x = true.
Proof.
  intros Vr Vx Fx [-> | [Fr L]].
  - destruct x; try discriminate; reflexivity.
  - unfold SFleb.
    rewrite (finite_or_zero_valid_compare r x Fr Fx Vr Vx).
    destruct (Z.compare_spec (sf_units r) (sf_units x)); try reflexivity.
    lia.
Qed.

Lemma sf_ge_units_leb (r x : spec_float) :
  valid_binary r = true -> valid_binary x = true ->
  sf_is_finite x = true -> sf_ge_units r (sf_units x) ->
  SFleb x r = true.
Proof.
  intros Vr Vx Fx [-> | [Fr L]].
  - destruct x; try discriminate; reflexivity.
  - unfold SFleb.
    rewrite (finite_or_zero_valid_compare x r Fx Fr Vx Vr).
    destruct (Z.compare_spec (sf_units x) (sf_units r)); try reflexivity.
    lia.
Qed.

Lemma sf_representable (x : spec_float) :
  valid_binary x = true -> representable (sf_units x).
Proof.
  destruct x as [s|s| |s m e]; intros V; try apply representable_0.
  apply valid_representable. exact V.
Qed.

Lemma SFleb_units (x y : spec_float) :
  valid_binary x = true -> valid_binary y = true ->
  sf_is_finite x = true -> sf_is_finite y = true ->
  SFleb x y = (sf_units x <=? sf_units y).
Proof.
  intros Vx Vy Fx Fy. unfold SFleb.
  rewrite (finite_or_zero_valid_compare x y Fx Fy Vx Vy).
  destruct (Z.compare_spec (sf_units x) (sf_units y));
    symmetry; [apply Z.leb_le | apply Z.leb_le | apply Z.leb_gt]; lia.
Qed.

Lemma SFleb_refl (x : spec_float) : x <> S754_nan -> SFleb x x = true.
Proof.
  intros H. unfold SFleb.
  destruct x as [s|s| |s m e]; try congruence; try (destruct s; reflexivity).
  unfold SFcompare. rewrite Z.compare_refl.
  change (Pos.compare_cont Eq m m) with (m ?= m)%positive.
  rewrite Pos.compare_refl. destruct s; reflexivity.
Qed.

Ltac sf_cases H :=
  try solve
    [ repeat match goal with s : bool |- _ => destruct s end;
      first [discriminate H | left; reflexivity | right; reflexivity] ].

(** Subtracting a number that is not negative does not increase a number:
    binary64 rounding is monotone. *)
Lemma SFsub_le_self (x p : spec_float) :
  valid_binary x = true -> valid_binary p = true ->
  valid_binary (SF64sub x p) = true ->
  SFleb (S754_zero false) p = true ->
  SF64sub x p = S754_nan \/ SFleb (SF64sub x p) x = true.
Proof.
  intros Vx Vp Vr Hp.
  destruct x as [sx|sx| |sx mx ex], p as [sp|sp| |sp mp ep]; sf_cases Hp.
  - right. change (SF64sub (S754_finite sx mx ex) (S754_zero sp))
      with (S754_finite sx mx ex).
    apply SFleb_refl. discriminate.
  - right. destruct sp; [discriminate Hp |].
    destruct (SFsub_finite sx false mx mp ex ep Vx Vp)
      as [M [ez [Hez [E U]]]].
    rewrite E in *.
    apply sf_le_units_leb; [exact Vr | exact Vx | reflexivity |].
    apply normalize_le; [exact Hez | apply sf_representable; exact Vx |].
    rewrite U. pose proof (pos_units_nonneg mp ep). lia.
Qed.

Lemma SFadd_ge_self (x p : spec_float) :
  valid_binary x = true -> valid_binary p = true ->
  valid_binary (SF64add x p) = true ->
  SFleb (S754_zero false) p = true ->
  SF64add x p = S754_nan \/ SFleb x (SF64add x p) = true.
Proof.
  intros Vx Vp Vr Hp.
  destruct x as [sx|sx| |sx mx ex], p as [sp|sp| |sp mp ep]; sf_cases Hp.
  - right. change (SF64add (S754_finite sx mx ex) (S754_zero sp))
      with (S754_finite sx mx ex).
    apply SFleb_refl. discriminate.
  - right. destruct sp; [discriminate Hp |].
    destruct (SFadd_finite sx false mx mp ex ep Vx Vp)
      as [M [ez [Hez [E U]]]].
    rewrite E in *.
    apply sf_ge_units_leb; [exact Vr | exact Vx | reflexivity |].
    apply normalize_ge; [exact Hez | apply sf_representable; exact Vx |].
    rewrite U. pose proof (pos_units_nonneg mp ep). lia.
Qed.

(** The difference of two numbers in their order is not positive. *)
Lemma SFsub_ordered (x y : spec_float) :
  valid_binary x = true -> valid_binary y = true ->
  valid_binary (SF64sub x y) = true ->
  SFleb x y = true ->
  SF64sub x y = S754_nan
  \/ SFleb (SF64sub x y) (S754_zero false) = true.
Proof.
  intros Vx Vy Vr H.
  destruct x as [sx|sx| |sx mx ex], y as [sy|sy| |sy my ey]; sf_cases H.
  right.
    rewrite SFleb_units in H by (try assumption; reflexivity).
    apply Z.leb_le in H.
    destruct (SFsub_finite sx sy mx my ex ey Vx Vy)
      as [M [ez [Hez [E U]]]].
    rewrite E in *.
    apply (sf_le_units_leb _ (S754_zero false));
      [exact Vr | reflexivity | reflexivity |].
    apply normalize_le; [exact Hez | apply representable_0 |].
    rewrite U. change (sf_units (S754_zero false)) with 0. lia.
Qed.

(** A number of at most 53 digits, scaled by a power of two within the
    range of the format, is held exactly. *)
Lemma representable_scaled (c j : Z) :
  0 <= c < 2 ^ 53 -> 0 <= j <= 2045 -> representable (c * 2 ^ j).
Proof.
  intros [Hc0 Hc] Hj.
  destruct (Z.eq_dec c 0) as [-> | Hne];
    [rewrite Z.mul_0_l; apply representable_0 |].
  pose proof (pow2_pos j ltac:(lia)) as Pj.
  assert (P : 0 <= c * 2 ^ j) by (apply Z.mul_nonneg_nonneg; lia).
  unfold representable. rewrite Z.abs_eq by exact P.
  split.
  - assert (G : grid (c * 2 ^ j) <= j).
    { unfold grid. rewrite bits_mul_pow2 by lia.
      pose proof (bits_lt_pow c 53 ltac:(lia) ltac:(lia) Hc). lia. }
    pose proof (grid_nonneg (c * 2 ^ j)) as G0.
    remember (grid (c * 2 ^ j)) as g eqn:Eg. clear Eg.
    replace (c * 2 ^ j) with (c * 2 ^ (j - g) * 2 ^ g).
    + apply Z.mod_mul. pose proof (pow2_pos g G0). lia.
    + rewrite <- Z.mul_assoc, <- Z.pow_add_r by lia.
      do 2 f_equal. lia.
  - apply Z.lt_le_trans with (2 ^ 53 * 2 ^ j).
    + apply Z.mul_lt_mono_pos_r; assumption.
    + replace 2098 with (53 + 2045) by lia.
      rewrite (Z.pow_add_r 2 53 2045) by lia.
      apply Z.mul_le_mono_nonneg_l; [lia |].
      apply pow2_le. lia.
Qed.

(** A sum that binary64 holds is computed exactly. *)
Lemma SFadd_exact (x y : spec_float) :
  valid_binary x = true -> valid_binary y = true ->
  sf_is_finite x = true -> sf_is_finite y = true ->
  representable (sf_units x + sf_units y) ->
  sf_is_finite (SF64add x y) = true
  /\ sf_units (SF64add x y) = sf_units x + sf_units y.
Proof.
  intros Vx Vy Fx Fy R.
  destruct x as [sx|sx| |sx mx ex], y as [sy|sy| |sy my ey];
    try discriminate Fx; try discriminate Fy.
  - destruct sx, sy; split; reflexivity.
  - change (SF64add (S754_zero sx) (S754_finite sy my ey))
      with (S754_finite sy my ey).
    split; [reflexivity | cbn [sf_units]; lia].
  - change (SF64add (S754_finite sx mx ex) (S754_zero sy))
      with (S754_finite sx mx ex).
    split; [reflexivity | cbn [sf_units]; lia].
  - destruct (SFadd_finite sx sy mx my ex ey Vx Vy)
      as [M [ez [Hez [E U]]]].
    rewrite E. rewrite <- U in R |- *.
    destruct (normalize_le M ez _ Hez R (Z.le_refl _)) as [L | [FL L]];
      destruct (normalize_ge M ez _ Hez R (Z.le_refl _)) as [G | [FG G]].
    + rewrite L in G. discriminate G.
    + rewrite L in FG. discriminate FG.
    + rewrite G in FL. discriminate FL.
    + split; [exact FL | lia].
Qed.

End Arithmetic.

Section Signs.
Local Open Scope Z_scope.

(** The product of two numbers that are not negative is not negative. *)
Lemma SFmul_nonneg (a b : spec_float) :
  SFleb (S754_zero false) a = true -> SFleb (S754_zero false) b = true ->
  SF64mul a b = S754_nan \/ SFleb (S754_zero false) (SF64mul a b) = true.
Proof.
  intros Ha Hb.
  destruct a as [sa|sa| |sa ma ea], b as [sb|sb| |sb mb eb];
    try discriminate Ha; try discriminate Hb;
    try solve
      [ repeat match goal with s : bool |- _ => destruct s end;
        first [discriminate Ha | discriminate Hb
              | left; reflexivity | right; reflexivity] ].
  destruct sa; [discriminate Ha |]. destruct sb; [discriminate Hb |].
  right. unfold SF64mul, SFmul. cbn [xorb].
  pose proof (binary_round_aux_sign false (Zpos (ma * mb)) (ea + eb)
                loc_Exact ltac:(lia)) as S.
  destruct (binary_round_aux prec emax false (Zpos (ma * mb)) (ea + eb)
              loc_Exact) as [s|s| |s m e]; try contradiction; subst;
    reflexivity.
Qed.

Lemma div_core_nonneg (m1 e1 m2 e2 : Z) :
  0 <= m1 -> 0 < m2 ->
  0 <= fst (fst (SFdiv_core_binary prec emax m1 e1 m2 e2)).
Proof.
  intros H1 H2. unfold SFdiv_core_binary.
  set (m' := match _ - _ - _ with
             | Z0 => m1 | Zpos _ => Z.shiftl m1 _ | Zneg _ => 0 end).
  assert (Hm : 0 <= m').
  { unfold m'. destruct (_ - _ - _); try lia.
    apply Z.shiftl_nonneg. exact H1. }
  destruct (Z.div_eucl m' m2) as [q r] eqn:E. cbn [fst].
  assert (Q : q = m' / m2) by (unfold Z.div; rewrite E; reflexivity).
  rewrite Q. apply Z.div_pos; lia.
Qed.

(** The quotient of a number that is not positive by a positive one is
    not positive. *)
Lemma SFdiv_nonpos (d s : spec_float) :
  SFleb d (S754_zero false) = true -> SFltb (S754_zero false) s = true ->
  SF64div d s = S754_nan \/ SFleb (SF64div d s) (S754_zero false) = true.
Proof.
  intros Hd Hs.
  destruct d as [sd|sd| |sd md ed], s as [ss|ss| |ss ms es];
    try discriminate Hd; try discriminate Hs;
    try solve
      [ repeat match goal with s : bool |- _ => destruct s end;
        first [discriminate Hd | discriminate Hs
              | left; reflexivity | right; reflexivity] ].
  destruct sd; [| discriminate Hd]. destruct ss; [discriminate Hs |].
  right. unfold SF64div, SFdiv. cbn [xorb].
  pose proof (div_core_nonneg (Zpos md) ed (Zpos ms) es
                ltac:(lia) ltac:(lia)) as N.
  destruct (SFdiv_core_binary prec emax (Zpos md) ed (Zpos ms) es)
    as [[mz ez] lz].
  cbn [fst] in N.
  pose proof (binary_round_aux_sign true mz ez lz N) as S.
  destruct (binary_round_aux prec emax true mz ez lz) as [s|s| |s m e];
    try contradiction; subst; reflexivity.
Qed.

Lemma ceil_sf_bounds (q : spec_float) (lo hi : Z) :
  valid_binary q = true -> sf_is_finite q = true ->
  lo * 2 ^ 1074 <= sf_units q <= hi * 2 ^ 1074 ->
  exists n, ceil_sf q = Some n /\ lo <= n <= hi.
Proof.
  intros V F B. destruct q as [s|s| |s m e]; try discriminate F.
  - exists 0. split; [reflexivity |]. cbn [sf_units] in B.
    pose proof (pow2_pos 1074 ltac:(lia)). nia.
  - cbn [valid_binary] in V. pose proof (bounded_spec m e V) as [He _].
    cbn [sf_units] in B. cbn [ceil_sf].
    pose proof (pow2_pos 1074 ltac:(lia)) as P.
    eexists. split; [reflexivity |].
    destruct (Z.leb_spec 0 e) as [Pe | Ne].
    + replace (e + 1074) with (e + 1074) in B by lia.
      rewrite Z.pow_add_r in B by lia.
      pose proof (pow2_pos e Pe).
      destruct s; cbn [cond_Zopp] in B; nia.
    + assert (Pn : 0 < 2 ^ (- e)) by (apply pow2_pos; lia).
      assert (E : 2 ^ 1074 = 2 ^ (e + 1074) * 2 ^ (- e)).
      { rewrite <- Z.pow_add_r by lia. f_equal. lia. }
      pose proof (pow2_pos (e + 1074) ltac:(lia)) as Pg.
      rewrite E in B.
      destruct s; cbn [cond_Zopp] in B.
      * assert (L1 : Zpos m / 2 ^ (- e) <= - lo).
        { apply Z.div_le_upper_bound; [lia |]. nia. }
        assert (L2 : - hi <= Zpos m / 2 ^ (- e)).
        { apply Z.div_le_lower_bound; [lia |]. nia. }
        lia.
      * assert (L1 : - hi <= - Zpos m / 2 ^ (- e)).
        { apply Z.div_le_lower_bound; [lia |]. nia. }
        assert (L2 : - Zpos m / 2 ^ (- e) <= - lo).
        { apply Z.div_le_upper_bound; [lia |]. nia. }
        lia.
Qed.

(** The quotient of a negative number by a positive one has the sign
    bit set, also when it is a zero. *)
Lemma SFdiv_sign (d s : spec_float) :
  SFltb d (S754_zero false) = true -> SFltb (S754_zero false) s = true ->
  SF64div d s = S754_nan \/ sf_sign (SF64div d s) = true.
Proof.
  intros Hd Hs.
  destruct d as [sd|sd| |sd md ed], s as [ss|ss| |ss ms es];
    try discriminate Hd; try discriminate Hs;
    try solve
      [ repeat match goal with s : bool |- _ => destruct s end;
        first [discriminate Hd | discriminate Hs
              | left; reflexivity | right; reflexivity] ].
  destruct sd; [| discriminate Hd]. destruct ss; [discriminate Hs |].
  right. unfold SF64div, SFdiv. cbn [xorb].
  pose proof (div_core_nonneg (Zpos md) ed (Zpos ms) es
                ltac:(lia) ltac:(lia)) as N.
  destruct (SFdiv_core_binary prec emax (Zpos md) ed (Zpos ms) es)
    as [[mz ez] lz].
  cbn [fst] in N.
  pose proof (binary_round_aux_sign true mz ez lz N) as S.
  destruct (binary_round_aux prec emax true mz ez lz) as [s|s| |s m e];
    try contradiction; subst; reflexivity.
Qed.

End Signs.

Section FloatArithmetic.

Lemma not_nan_sf (a : float) : is_nan a = false \/ Prim2SF a = S754_nan.
Proof.
  destruct (is_nan a) eqn:E; [right | left; reflexivity].
  destruct (Prim2SF a) eqn:S; try reflexivity;
    assert (N : is_nan a = false)
      by (apply is_nan_spec; rewrite S; discriminate);
    congruence.
Qed.

Lemma is_nan_true (a : float) : Prim2SF a = S754_nan -> is_nan a = true.
Proof.
  intros E. destruct (is_nan a) eqn:N; [reflexivity |].
  apply is_nan_spec in N. congruence.
Qed.

(** [x - p <= x] and [x <= x + p] for [p] that is not negative, unless
    the result is NaN (an infinity minus itself). *)
Lemma sub_le_self (x p : float) :
  (0 <=? p) = true -> is_nan (x - p) = true \/ (x - p <=? x) = true.
Proof.
  rewrite !FloatAxioms.leb_spec. intros Hp.
  destruct (SFsub_le_self (Prim2SF x) (Prim2SF p)) as [E | L].
  - apply FloatAxioms.Prim2SF_valid.
  - apply FloatAxioms.Prim2SF_valid.
  - rewrite <- FloatAxioms.sub_spec. apply FloatAxioms.Prim2SF_valid.
  - exact Hp.
  - left. apply is_nan_true. rewrite FloatAxioms.sub_spec. exact E.
  - right. rewrite FloatAxioms.sub_spec. exact L.
Qed.

Lemma add_ge_self (x p : float) :
  (0 <=? p) = true -> is_nan (x + p) = true \/ (x <=? x + p) = true.
Proof.
  rewrite !FloatAxioms.leb_spec. intros Hp.
  destruct (SFadd_ge_self (Prim2SF x) (Prim2SF p)) as [E | L].
  - apply FloatAxioms.Prim2SF_valid.
  - apply FloatAxioms.Prim2SF_valid.
  - rewrite <- FloatAxioms.add_spec. apply FloatAxioms.Prim2SF_valid.
  - exact Hp.
  - left. apply is_nan_true. rewrite FloatAxioms.add_spec. exact E.
  - right. rewrite FloatAxioms.add_spec. exact L.
Qed.

Lemma sub_ordered (x y : float) :
  (x <=? y) = true -> is_nan (x - y) = true \/ (x - y <=? 0) = true.
Proof.
  rewrite !FloatAxioms.leb_spec. intros H.
  destruct (SFsub_ordered (Prim2SF x) (Prim2SF y)) as [E | L].
  - apply FloatAxioms.Prim2SF_valid.
  - apply FloatAxioms.Prim2SF_valid.
  - rewrite <- FloatAxioms.sub_spec. apply FloatAxioms.Prim2SF_valid.
  - exact H.
  - left. apply is_nan_true. rewrite FloatAxioms.sub_spec. exact E.
  - right. rewrite FloatAxioms.sub_spec. exact L.
Qed.

Lemma mul_nonneg (a b : float) :
  (0 <=? a) = true -> (0 <=? b) = true ->
  is_nan (a * b) = true \/ (0 <=? a * b) = true.
Proof.
  rewrite !FloatAxioms.leb_spec. change (Prim2SF 0) with (S754_zero false).
  intros Ha Hb.
  destruct (SFmul_nonneg (Prim2SF a) (Prim2SF b) Ha Hb) as [E | L].
  - left. apply is_nan_true. rewrite FloatAxioms.mul_spec. exact E.
  - right. rewrite FloatAxioms.mul_spec. exact L.
Qed.

Lemma div_nonpos (d s : float) :
  (d <=? 0) = true -> (0 <? s) = true ->
  is_nan (d / s) = true \/ (d / s <=? 0) = true.
Proof.
  rewrite !FloatAxioms.leb_spec, FloatAxioms.ltb_spec.
  change (Prim2SF 0) with (S754_zero false).
  intros Hd Hs.
  destruct (SFdiv_nonpos (Prim2SF d) (Prim2SF s) Hd Hs) as [E | L].
  - left. apply is_nan_true. rewrite FloatAxioms.div_spec. exact E.
  - right. rewrite FloatAxioms.div_spec. exact L.
Qed.

Lemma div_sign (d s : float) :
  (d <? 0) = true -> (0 <? s) = true ->
  is_nan (d / s) = true \/ signbit (d / s) = true.
Proof.
  rewrite !FloatAxioms.ltb_spec.
  change (Prim2SF 0) with (S754_zero false).
  intros Hd Hs. unfold signbit.
  destruct (SFdiv_sign (Prim2SF d) (Prim2SF s) Hd Hs) as [E | L].
  - left. apply is_nan_true. rewrite FloatAxioms.div_spec. exact E.
  - right. rewrite FloatAxioms.div_spec. exact L.
Qed.

Lemma leb_neq_ltb (a : float) :
  (a <=? 0) = true -> (a =? 0) = false -> (a <? 0) = true.
Proof.
  rewrite FloatAxioms.leb_spec, FloatAxioms.eqb_spec, FloatAxioms.ltb_spec.
  change (Prim2SF 0) with (S754_zero false).
  destruct (Prim2SF a) as [s|s| |s m e]; try destruct s;
    cbn; congruence.
Qed.

Lemma positive_not_zero (s : float) : (0 <? s) = true -> (s =? 0) = false.
Proof.
  rewrite FloatAxioms.ltb_spec, FloatAxioms.eqb_spec.
  change (Prim2SF 0) with (S754_zero false).
  destruct (Prim2SF s) as [sg|sg| |sg m e]; try destruct sg;
    cbn; congruence.
Qed.

(** Comparisons of finite numbers are comparisons of their units. *)
Lemma leb_units (a b : float) :
  sf_is_finite (Prim2SF a) = true -> sf_is_finite (Prim2SF b) = true ->
  (a <=? b) = (sf_units (Prim2SF a) <=? sf_units (Prim2SF b))%Z.
Proof.
  intros Fa Fb. rewrite FloatAxioms.leb_spec.
  apply SFleb_units; try assumption; apply FloatAxioms.Prim2SF_valid.
Qed.

Lemma between_finite (lo q hi : float) :
  sf_is_finite (Prim2SF lo) = true -> sf_is_finite (Prim2SF hi) = true ->
  (lo <=? q) = true -> (q <=? hi) = true ->
  sf_is_finite (Prim2SF q) = true.
Proof.
  rewrite !FloatAxioms.leb_spec. intros Fl Fh.
  destruct (Prim2SF lo) as [sl|sl| |sl ml el]; try discriminate Fl;
    destruct (Prim2SF hi) as [sh|sh| |sh mh eh]; try discriminate Fh;
    destruct (Prim2SF q) as [sq|sq| |sq mq eq]; try reflexivity;
    try destruct sq; try destruct sl; try destruct sh;
    cbn; congruence.
Qed.

(** The sum of two finite numbers is exact when binary64 holds it. *)
Lemma add_exact (x y : float) :
  sf_is_finite (Prim2SF x) = true -> sf_is_finite (Prim2SF y) = true ->
  representable (sf_units (Prim2SF x) + sf_units (Prim2SF y))%Z ->
  sf_is_finite (Prim2SF (x + y)) = true
  /\ sf_units (Prim2SF (x + y))
     = (sf_units (Prim2SF x) + sf_units (Prim2SF y))%Z.
Proof.
  intros Fx Fy R. rewrite FloatAxioms.add_spec.
  apply SFadd_exact; try assumption; apply FloatAxioms.Prim2SF_valid.
Qed.

End FloatArithmetic.

(** * Indexing *)

Lemma getitem_index_only (l : list float) (i : nat) :
  index_only (getitem l i).
Proof.
  unfold index_only, getitem.
  destruct (nth_error l i); [left; eauto | right; reflexivity].
Qed.

Lemma setitem_index_only (l : list float) (i : nat) (v : float) :
  index_only (setitem l i v).
Proof.
  unfold index_only, setitem.
  destruct (i <? length l)%nat; [left; eauto | right; reflexivity].
Qed.

Lemma bind_index_error {A B : Type} (c : res A) (k : A -> res B) :
  index_only c -> (forall a, k a = Raise IndexError) ->
  bind c k = Raise IndexError.
Proof.
  intros [[a ->] | ->] Hk; cbn; auto.
Qed.

Lemma bind_index_only {A B : Type} (c : res A) (k : A -> res B) :
  index_only c -> (forall a, index_only (k a)) -> index_only (bind c k).
Proof.
  intros [[a ->] | ->] Hk; cbn; auto. right; reflexivity.
Qed.

Create HintDb pyindex.
#[local] Hint Resolve getitem_index_only setitem_index_only : pyindex.

Ltac index_steps :=
  repeat first
    [ reflexivity
    | apply bind_index_error; [auto with pyindex | intros ?] ].

(** * [dwa_3d.py]: the motion model and the two-element command *)

Section Dwa3dMotion.
Variable M : Libm.

(** Whatever the state, [motion] given a command of two elements raises:
    [ValueError] when the state has a heading field and the new heading is
    infinite, [IndexError] otherwise, at the latest where it reads [u[2]]
    on its last line. *)
Lemma dwa3d_motion_two_element_command (x : list float) (v y dt : float) :
  Dwa3d.motion M x [v; y] dt =
  match nth_error x 3 with
  | Some x3 =>
      if math_ok (x3 + y * dt) then Raise IndexError else Raise ValueError
  | None => Raise IndexError
  end.
Proof.
  unfold Dwa3d.motion, math_cos, math_sin.
  destruct x as [|a0 [|a1 [|a2 [|a3 [|a4 [|a5 [|a6 r]]]]]]]; cbn;
    try reflexivity;
    destruct (math_ok (a3 + y * dt)); reflexivity.
Qed.

Lemma dwa3d_motion_never_returns (x : list float) (v y dt : float) :
  Dwa3d.motion M x [v; y] dt = Raise IndexError
  \/ Dwa3d.motion M x [v; y] dt = Raise ValueError.
Proof.
  rewrite dwa3d_motion_two_element_command.
  destruct (nth_error x 3) as [x3|]; [| left; reflexivity].
  destruct (math_ok (x3 + y * dt)); [left | right]; reflexivity.
Qed.

(** On a state of seven fields and a command of three (it returns on no
    shorter ones), [motion] writes the heading to index 3, the velocities
    to indices 4 and 5, and the constant 1 to index 2, unless the new
    heading is infinite. *)
Lemma dwa3d_motion_seven_fields (x0 x1 x2 x3 x4 x5 x6 v w vz dt : float) :
  Dwa3d.motion M [x0; x1; x2; x3; x4; x5; x6] [v; w; vz] dt =
  if math_ok (x3 + w * dt)
  then Ok [x0 + v * cos M (x3 + w * dt) * dt;
           x1 + v * sin M (x3 + w * dt) * dt;
           1; x3 + w * dt; v; w; vz]
  else Raise ValueError.
Proof.
  unfold Dwa3d.motion, math_cos, math_sin. cbn.
  destruct (math_ok (x3 + w * dt)); reflexivity.
Qed.

(** The simulator never completes a tick. *)
Lemma dwa3d_predict_loop_raises (fuel : nat) (config : Config)
  (v y : float) (x : list float) (trajectory : ndarray) (time : float) :
  (time <=? predict_time config) = true ->
  Dwa3d.predict_loop M (S fuel) config v y x trajectory time
  = Raise IndexError
  \/ Dwa3d.predict_loop M (S fuel) config v y x trajectory time
     = Raise ValueError.
Proof.
  intros H. cbn [Dwa3d.predict_loop]. rewrite H.
  destruct (dwa3d_motion_never_returns x v y (dt config)) as [-> | ->];
    [left | right]; reflexivity.
Qed.

End Dwa3dMotion.

(** C2 (fails on the code).  One control step of [dwa_3d.py] does not
    complete: the motion model reads [u[2]] of the two-element command
    [[v, y]] it is given by the simulator and by [main], so every call with
    such a command raises whatever the state, [IndexError] or, where the
    new heading is infinite and [math.cos] refuses it first, [ValueError];
    and the window computation reads [x[5]] of the five-element state
    [main] starts from, so [main] raises [IndexError] in its first step. *)
Theorem C2_control_step_raises_index_error :
  forall (M : Libm),
    (forall (x : list float) (v y dt : float),
        Dwa3d.motion M x [v; y] dt = Raise IndexError
        \/ (Dwa3d.motion M x [v; y] dt = Raise ValueError
            /\ exists x3, nth_error x 3 = Some x3
                          /\ math_ok (x3 + y * dt) = false))
    /\ (forall (x : list float) (v y dt : float),
           (forall x3, nth_error x 3 = Some x3 ->
                       math_ok (x3 + y * dt) = true) ->
           Dwa3d.motion M x [v; y] dt = Raise IndexError)
    /\ (forall a b c d e : float,
           Dwa3d.calc_dynamic_window [a; b; c; d; e] Dwa3d.config
           = Raise IndexError)
    /\ (forall (steps fuel : nat) (gx gy : float),
           Dwa3d.main M (S steps) fuel gx gy = Raise IndexError).
Proof.
  intros M. split; [| split; [| split]].
  - intros x v y t. rewrite dwa3d_motion_two_element_command.
    destruct (nth_error x 3) as [x3|]; [| left; reflexivity].
    destruct (math_ok (x3 + y * t)) eqn:E; [left; reflexivity |].
    right. split; [reflexivity | eauto].
  - intros x v y t H. rewrite dwa3d_motion_two_element_command.
    destruct (nth_error x 3) as [x3|]; [| reflexivity].
    rewrite (H x3 eq_refl). reflexivity.
  - reflexivity.
  - reflexivity.
Qed.

(** C1 (fails on the code).  In [dwa_3d.py] the fields the cost evaluators
    read are not the fields the motion model wrote: after a tick from a
    seven-field state the heading is at index 3 and the linear velocity at
    index 4, while the goal cost reads index 2 of the last row (the
    constant 1 the tick stored there) as the heading, and the speed cost
    reads index 3 (the heading) as the velocity: the cost of the candidate
    has the speed term [speed_cost_gain * (max_speed - heading)].  (The
    tick and the goal cost raise [ValueError] where the angle they give to
    [math.cos] is infinite.) *)
Theorem C1_dwa3d_costs_read_other_fields :
  forall (M : Libm) (config : Config) (obs : ndarray)
         (x0 x1 x2 x3 x4 x5 x6 v w vz dt gx gy : float),
    let heading := x3 + w * dt in
    let px := x0 + v * cos M heading * dt in
    let py := x1 + v * sin M heading * dt in
    let angle := atan2 M (gy - py) (gx - px) - 1 in
    let goal_cost := abs (atan2 M (sin M angle) (cos M angle)) in
    let x' := [px; py; 1; heading; v; w; vz] in
    Dwa3d.motion M [x0; x1; x2; x3; x4; x5; x6] [v; w; vz] dt
    = (if math_ok heading then Ok x' else Raise ValueError)
    /\ getitem x' 3 = Ok heading
    /\ getitem x' 4 = Ok v
    /\ getitem x' 5 = Ok w
    /\ getitem_last (Arr2 [x']) 2 = Ok 1
    /\ getitem_last (Arr2 [x']) 3 = Ok heading
    /\ calc_to_goal_cost M (Arr2 [x']) [gx; gy]
       = (if math_ok angle then Ok goal_cost else Raise ValueError)
    /\ final_cost M config (Arr2 [x']) [gx; gy] obs
       = (if math_ok angle
          then o <- calc_obstacle_cost M (Arr2 [x']) obs config ;;
               Ok (to_goal_cost_gain config * goal_cost
                   + speed_cost_gain config * (max_speed config - heading)
                   + obstacle_cost_gain config * o)
          else Raise ValueError).
Proof.
  intros. split; [apply dwa3d_motion_seven_fields |].
  do 5 (split; [reflexivity |]).
  assert (G : calc_to_goal_cost M (Arr2 [x']) [gx; gy]
              = (if math_ok angle then Ok goal_cost else Raise ValueError)).
  { subst x' goal_cost angle py px heading.
    unfold calc_to_goal_cost, math_sin, math_cos. cbn.
    match goal with
    | |- context [math_ok ?a] => destruct (math_ok a)
    end; reflexivity. }
  split; [exact G |].
  unfold final_cost. rewrite G.
  destruct (math_ok angle); reflexivity.
Qed.

(** * Computations without loops *)

Lemma settled_Ok {A : Type} (a : A) : settled (Ok a).
Proof. left; eauto. Qed.

Lemma settled_Raise {A : Type} (e : exn) : settled (@Raise A e).
Proof. right; eauto. Qed.

Lemma settled_bind {A B : Type} (c : res A) (k : A -> res B) :
  settled c -> (forall a, settled (k a)) -> settled (bind c k).
Proof.
  intros [[a ->] | [e ->]] Hk; cbn; [apply Hk | apply settled_Raise].
Qed.

Lemma index_only_settled {A : Type} (c : res A) : index_only c -> settled c.
Proof. intros [H | ->]; [left; exact H | apply settled_Raise]. Qed.

Lemma settled_getitem (l : list float) (i : nat) : settled (getitem l i).
Proof. apply index_only_settled, getitem_index_only. Qed.

Lemma settled_column_of (rows : list (list float)) (j : nat) :
  settled (column_of rows j).
Proof.
  induction rows as [|r t IH]; cbn; [apply settled_Ok |].
  apply settled_bind; [apply settled_getitem | intros v].
  apply settled_bind; [exact IH | intros c; apply settled_Ok].
Qed.

Lemma settled_column (a : ndarray) (j : nat) : settled (column a j).
Proof.
  destruct a; cbn;
    [apply settled_Raise | apply settled_column_of | apply settled_Raise].
Qed.

Lemma settled_getitem_last (a : ndarray) (j : nat) :
  settled (getitem_last a j).
Proof.
  destruct a as [d|rows|p]; cbn; try apply settled_Raise.
  destruct rows; [apply settled_Raise | apply settled_getitem].
Qed.

Lemma settled_math_cos (M : Libm) (a : float) : settled (math_cos M a).
Proof.
  unfold math_cos. destruct (math_ok a); [apply settled_Ok |].
  apply settled_Raise.
Qed.

Lemma settled_math_sin (M : Libm) (a : float) : settled (math_sin M a).
Proof.
  unfold math_sin. destruct (math_ok a); [apply settled_Ok |].
  apply settled_Raise.
Qed.

Create HintDb settle.
#[local] Hint Resolve settled_Ok settled_Raise settled_getitem
  settled_column settled_getitem_last settled_math_cos settled_math_sin
  : settle.

Ltac settle :=
  repeat first
    [ solve [auto with settle]
    | apply settled_bind; [| intros ?] ].

Lemma settled_calc_to_goal_cost (M : Libm) (trajectory : ndarray)
  (goal : list float) : settled (calc_to_goal_cost M trajectory goal).
Proof. unfold calc_to_goal_cost. settle. Qed.

Lemma column_of_wide (rows : list (list float)) (j w : nat) :
  (j < w)%nat -> (forall r, In r rows -> (w <= length r)%nat) ->
  exists c, column_of rows j = Ok c /\ length c = length rows.
Proof.
  intros Hj. induction rows as [|r t IH]; intros Hrows; cbn; [eauto |].
  assert (Hr : (w <= length r)%nat) by (apply Hrows; left; reflexivity).
  unfold getitem.
  destruct (nth_error r j) eqn:En; [| apply nth_error_None in En; lia].
  destruct IH as [c [-> Hc]];
    [intros r' Hr'; apply Hrows; right; exact Hr' |].
  cbn. eexists; split; [reflexivity | cbn; lia].
Qed.

(** * The obstacle cost on an empty obstacle set *)

Lemma obstacle_cost_no_obstacle (M : Libm) (trajectory : ndarray)
  (config : Config) :
  exists e, calc_obstacle_cost M trajectory (Arr2 []) config = Raise e.
Proof.
  unfold calc_obstacle_cost. cbn.
  destruct (settled_column trajectory 0) as [[tx ->] | [e ->]];
    cbn; [| eauto].
  destruct (settled_column trajectory 1) as [[ty ->] | [e ->]];
    cbn; eauto.
Qed.

(** C10 (fails on the code).  With no obstacle the obstacle cost is not
    zero: the evaluation raises.  On the array of shape (0, 2) both columns
    are empty, the distance matrix has size zero and [np.min] refuses it
    with [ValueError] (unless the trajectory itself cannot be indexed, an
    error too); on [np.array([])], which is what [Config] builds from an
    empty list, the index [ob[:, 0]] raises [IndexError].  The cost of the
    candidate, which adds the obstacle term last, raises as well. *)
Theorem C10_empty_obstacle_set_raises :
  forall (M : Libm) (trajectory : ndarray) (config : Config)
         (goal : list float),
    (exists e, calc_obstacle_cost M trajectory (Arr2 []) config = Raise e)
    /\ (forall rows,
           (forall r, In r rows -> (2 <= length r)%nat) ->
           calc_obstacle_cost M (Arr2 rows) (Arr2 []) config
           = Raise ValueError)
    /\ calc_obstacle_cost M trajectory (np_array_of_points []) config
       = Raise IndexError
    /\ (exists e, final_cost M config trajectory goal (Arr2 []) = Raise e).
Proof.
  intros M trajectory config goal.
  split; [apply obstacle_cost_no_obstacle | split; [| split]].
  - intros rows Hrows. unfold calc_obstacle_cost. cbn.
    destruct (column_of_wide rows 0 2) as [tx [-> _]]; [lia | exact Hrows |].
    destruct (column_of_wide rows 1 2) as [ty [-> _]]; [lia | exact Hrows |].
    reflexivity.
  - reflexivity.
  - unfold final_cost.
    destruct (settled_calc_to_goal_cost M trajectory goal)
      as [[g ->] | [e ->]]; cbn [bind]; [| eauto].
    destruct (settled_getitem_last trajectory 3) as [[vl ->] | [e ->]];
      cbn [bind]; [| eauto].
    destruct (obstacle_cost_no_obstacle M trajectory config) as [e ->].
    cbn [bind]. eauto.
Qed.

(** * [dwa_flocking.py]: the first loop of [main] *)

Lemma flocking_goal1_loop_not_left (M : Libm) (steps fuel : nat)
  (config : Config) (goal : list float) (obs : ndarray) :
  forall s : Flocking.loop_state,
    Flocking.goal1_loop M steps fuel config goal obs s = OutOfFuel
    \/ exists e,
        Flocking.goal1_loop M steps fuel config goal obs s = Raise e.
Proof.
  induction steps as [|steps IH]; intros s; cbn [Flocking.goal1_loop].
  - left; reflexivity.
  - destruct (Flocking.goal1_step M fuel config goal obs s) as [s'|e|];
      cbn [bind].
    + apply IH.
    + right. exists e. reflexivity.
    + left; reflexivity.
Qed.

(** C6 (fails on the code).  The first [while True] loop of the
    multi-agent [main] is never left in the normal way: whatever the
    number of steps it is given, it is still running or it has raised.  The
    [break] of the goal check leaves the scan of the agents, not the
    loop, so the second and third goals are never made active.  With
    agent 0 at 0.2 m from the first goal, one pass prints [Goal!!] and the
    loop goes on. *)
Theorem C6_flocking_first_loop_never_left :
  (forall (M : Libm) (steps fuel : nat) (config : Config)
          (goal : list float) (obs : ndarray) (s : Flocking.loop_state),
      Flocking.goal1_loop M steps fuel config goal obs s = OutOfFuel
      \/ exists e,
          Flocking.goal1_loop M steps fuel config goal obs s = Raise e)
  /\ (exists s' : Flocking.loop_state,
         Flocking.goal1_step example_libm 100 Flocking.config
           Flocking.goal1 (ob Flocking.config) near_goal_state = Ok s'
         /\ Flocking.goal_scan example_libm Flocking.agents
              (Flocking.agents_x s') Flocking.goal1 Flocking.config
            = Ok true
         /\ Flocking.goals_printed s' = 1%nat)
  /\ Flocking.goal1_loop example_libm 3 100 Flocking.config Flocking.goal1
       (ob Flocking.config) near_goal_state = OutOfFuel.
Proof.
  split; [| split].
  - intros. apply flocking_goal1_loop_not_left.
  - eexists. split; [vm_compute; reflexivity |].
    split; vm_compute; reflexivity.
  - vm_compute. reflexivity.
Qed.

(** * The dynamic window *)

Lemma opp_leb_self (m : float) : (0 <=? m) = true -> (- m <=? m) = true.
Proof.
  rewrite !FloatAxioms.leb_spec, FloatAxioms.opp_spec.
  change (Prim2SF 0) with (S754_zero false).
  destruct (Prim2SF m) as [s|s| |s mm e]; try destruct s;
    cbn; congruence.
Qed.

Lemma ltb_not_nan (a b : float) :
  (a <? b) = true -> is_nan a = false /\ is_nan b = false.
Proof. intros H. apply leb_not_nan, ltb_leb, H. Qed.

Lemma sub_nan_r (x p : float) : is_nan p = true -> is_nan (x - p) = true.
Proof.
  intros H. destruct (not_nan_sf p) as [N | N]; [congruence |].
  apply is_nan_true. rewrite FloatAxioms.sub_spec, N.
  destruct (Prim2SF x); reflexivity.
Qed.

Lemma add_nan_r (x p : float) : is_nan p = true -> is_nan (x + p) = true.
Proof.
  intros H. destruct (not_nan_sf p) as [N | N]; [congruence |].
  apply is_nan_true. rewrite FloatAxioms.add_spec, N.
  destruct (Prim2SF x); reflexivity.
Qed.

(** The two bounds of one dimension of the window enclose the current
    velocity [x], when [x] lies within the static bounds and the reach [p]
    is the product of an acceleration limit and a time step that are not
    negative: Python's [max] and [min] keep the static bound where the
    reachable one is NaN. *)
Lemma window_encloses (lo hi x a t : float) :
  (0 <=? a) = true -> (0 <=? t) = true ->
  (lo <=? x) = true -> (x <=? hi) = true ->
  (value (py_max (PyFloat lo) (NpFloat (x - a * t))) <=? x) = true
  /\ (x <=? value (py_min (PyFloat hi) (NpFloat (x + a * t)))) = true.
Proof.
  intros Ha Ht Hlo Hhi. unfold py_max, py_min. cbn [value].
  destruct (mul_nonneg a t Ha Ht) as [N | P]; split.
  - destruct (lo <? x - a * t) eqn:E; [| exact Hlo].
    apply ltb_not_nan in E. rewrite (sub_nan_r x _ N) in E.
    destruct E; discriminate.
  - destruct (x + a * t <? hi) eqn:E; [| exact Hhi].
    apply ltb_not_nan in E. rewrite (add_nan_r x _ N) in E.
    destruct E; discriminate.
  - destruct (lo <? x - a * t) eqn:E; [| exact Hlo]. cbn [value].
    apply ltb_not_nan in E.
    destruct (sub_le_self x _ P) as [N | L]; [| exact L].
    destruct E; congruence.
  - destruct (x + a * t <? hi) eqn:E; [| exact Hhi]. cbn [value].
    apply ltb_not_nan in E.
    destruct (add_ge_self x _ P) as [N | L]; [| exact L].
    destruct E; congruence.
Qed.

(** C8 (amended).  For a state that has the two velocity fields, with
    velocities within the static bounds, and a Config whose static bounds
    are consistent and whose acceleration limits and time step are not
    negative, the window of [dwa_3d.py] is the component-wise intersection
    (Python's [max] of the lower bounds, [min] of the upper ones) of the
    static rectangle with the rectangle reachable from the current
    velocities; its bounds enclose the current velocities, so
    [v_min <= v_max] and [yaw_min <= yaw_max]. *)
Theorem C8_dynamic_window_ordered :
  forall (config : Config) (x : list float) (x4 x5 : float),
    let a := max_accel config * dt config in
    let b := max_delta_yaw_rate config * dt config in
    getitem x 4 = Ok x4 ->
    getitem x 5 = Ok x5 ->
    (min_speed config <=? max_speed config) = true ->
    (0 <=? max_yaw_rate config) = true ->
    (0 <=? max_accel config) = true ->
    (0 <=? max_delta_yaw_rate config) = true ->
    (0 <=? dt config) = true ->
    (min_speed config <=? x4) = true ->
    (x4 <=? max_speed config) = true ->
    (- max_yaw_rate config <=? x5) = true ->
    (x5 <=? max_yaw_rate config) = true ->
    exists v_min v_max yaw_min yaw_max : scalar,
      Dwa3d.calc_dynamic_window x config
      = Ok [v_min; v_max; yaw_min; yaw_max]
      /\ v_min = py_max (PyFloat (min_speed config)) (NpFloat (x4 - a))
      /\ v_max = py_min (PyFloat (max_speed config)) (NpFloat (x4 + a))
      /\ yaw_min = py_max (PyFloat (- max_yaw_rate config)) (NpFloat (x5 - b))
      /\ yaw_max = py_min (PyFloat (max_yaw_rate config)) (NpFloat (x5 + b))
      /\ (value v_min <=? x4) = true
      /\ (x4 <=? value v_max) = true
      /\ (value yaw_min <=? x5) = true
      /\ (x5 <=? value yaw_max) = true
      /\ (value v_min <=? value v_max) = true
      /\ (value yaw_min <=? value yaw_max) = true.
Proof.
  intros config x x4 x5 a b H4 H5 _ _ Ha Hb Ht Hlo Hhi Hylo Hyhi.
  unfold Dwa3d.calc_dynamic_window. rewrite H4, H5. cbn [bind].
  do 4 eexists. split; [reflexivity |].
  do 4 (split; [reflexivity |]).
  destruct (window_encloses _ _ x4 _ _ Ha Ht Hlo Hhi) as [V1 V2].
  destruct (window_encloses _ _ x5 _ _ Hb Ht Hylo Hyhi) as [Y1 Y2].
  fold a in V1, V2. fold b in Y1, Y2.
  repeat split; try assumption.
  - exact (leb_trans _ _ _ V1 V2).
  - exact (leb_trans _ _ _ Y1 Y2).
Qed.

(** The window at rest, all seven fields zero, under the Config of the
    file. *)
Lemma C8_dynamic_window_ordered_witness :
  exists v_min v_max yaw_min yaw_max : scalar,
    Dwa3d.calc_dynamic_window [0; 0; 0; 0; 0; 0; 0] Dwa3d.config
    = Ok [v_min; v_max; yaw_min; yaw_max]
    /\ v_min = py_max (PyFloat (min_speed Dwa3d.config))
                 (NpFloat (0 - max_accel Dwa3d.config * dt Dwa3d.config))
    /\ v_max = py_min (PyFloat (max_speed Dwa3d.config))
                 (NpFloat (0 + max_accel Dwa3d.config * dt Dwa3d.config))
    /\ yaw_min
       = py_max (PyFloat (- max_yaw_rate Dwa3d.config))
           (NpFloat (0 - max_delta_yaw_rate Dwa3d.config * dt Dwa3d.config))
    /\ yaw_max
       = py_min (PyFloat (max_yaw_rate Dwa3d.config))
           (NpFloat (0 + max_delta_yaw_rate Dwa3d.config * dt Dwa3d.config))
    /\ (value v_min <=? 0) = true
    /\ (0 <=? value v_max) = true
    /\ (value yaw_min <=? 0) = true
    /\ (0 <=? value yaw_max) = true
    /\ (value v_min <=? value v_max) = true
    /\ (value yaw_min <=? value yaw_max) = true.
Proof.
  apply (C8_dynamic_window_ordered Dwa3d.config [0; 0; 0; 0; 0; 0; 0] 0 0);
    reflexivity.
Defined.

(** C8 as stated fails: under the Config of the file (static bounds
    consistent, acceleration limits positive) a state whose linear velocity
    is 10 m/s has the window [9.98, 0.8] in velocity, whose lower bound is
    above its upper bound; and with a time step of -0.1 the window of the
    state at rest is [0.02, -0.02] in velocity. *)
Lemma C8_counterexample :
  (min_speed Dwa3d.config <=? max_speed Dwa3d.config) = true
  /\ (0 <=? max_yaw_rate Dwa3d.config) = true
  /\ (0 <=? max_accel Dwa3d.config) = true
  /\ (0 <=? max_delta_yaw_rate Dwa3d.config) = true
  /\ Dwa3d.calc_dynamic_window [0; 0; 0; 0; 10; 0; 0] Dwa3d.config
     = Ok [NpFloat 9.98; PyFloat 0.8;
           NpFloat (-0.069813170079773182); NpFloat 0.069813170079773182]
  /\ (9.98 <=? 0.8) = false
  /\ Dwa3d.calc_dynamic_window [0; 0; 0; 0; 0; 0; 0]
       (with_horizon Dwa3d.config (-0.1) 1.5)
     = Ok [NpFloat 0.020000000000000004; NpFloat (-0.020000000000000004);
           NpFloat 0.069813170079773182; NpFloat (-0.069813170079773182)]
  /\ (0.020000000000000004 <=? -0.020000000000000004) = false.
Proof. repeat split. Qed.

(** * The search of [dwa_3d.py] *)

Lemma for_each_invariant {A S : Type} (P : S -> Prop)
  (body : S -> A -> res S) (l : list A) :
  (forall s a s', P s -> body s a = Ok s' -> P s') ->
  forall s s', P s -> for_each l body s = Ok s' -> P s'.
Proof.
  intros Hbody. induction l as [|a l IH]; intros s s' Hs; cbn.
  - intros E. injection E as <-. exact Hs.
  - destruct (body s a) as [s1| |] eqn:E1; cbn; try discriminate.
    apply IH. eapply Hbody; eassumption.
Qed.

Lemma for_each_no_inner {A B S : Type} (l : list A)
  (inner : S -> A -> res (list B)) (body : S -> A -> B -> res S) (s : S) :
  (forall s a, inner s a = Ok []) ->
  for_each l
    (fun s a => ys <- inner s a ;; for_each ys (fun s y => body s a y) s) s
  = Ok s.
Proof.
  intros H. induction l as [|a l IH]; cbn; [reflexivity |].
  rewrite H. cbn. exact IH.
Qed.

Section Dwa3dSearch.
Variable M : Libm.

(** The block that takes a candidate: it leaves the variables as they
    are when the cost is not at most [min_cost]; otherwise it stores the
    cost, the trajectory and the command, whose yaw rate it replaces by
    the anti-stall rate exactly when the sampled velocity and the current
    velocity [x[4]] are both below the threshold. *)
Lemma dwa3d_accept_candidate_spec (x : list float) (config : Config)
  (st st' : Dwa3d.search_state) (trajectory : ndarray) (cost v y : float) :
  Dwa3d.accept_candidate x config st trajectory cost v y = Ok st' ->
  ((cost <=? Dwa3d.min_cost st) = false /\ st' = st)
  \/ ((cost <=? Dwa3d.min_cost st) = true
      /\ Dwa3d.min_cost st' = cost
      /\ Dwa3d.best_trajectory st' = trajectory
      /\ exists w,
          Dwa3d.best_u st' = [v; w]
          /\ ((abs v <? robot_stuck_flag_cons config) = true ->
              forall x4, getitem x 4 = Ok x4 ->
                         (abs x4 <? robot_stuck_flag_cons config) = true ->
                         w = - max_delta_yaw_rate config)
          /\ (w = y \/ w = - max_delta_yaw_rate config)).
Proof.
  unfold Dwa3d.accept_candidate.
  destruct (cost <=? Dwa3d.min_cost st).
  2:{ intros E. injection E as <-. left. split; reflexivity. }
  cbn [getitem nth_error bind].
  destruct (abs v <? robot_stuck_flag_cons config) eqn:Ev.
  - destruct (getitem x 4) as [x4| |] eqn:E4; cbn [bind]; try discriminate.
    destruct (abs x4 <? robot_stuck_flag_cons config) eqn:Ex.
    + cbn. intros E. injection E as <-. right. cbn.
      repeat split. exists (- max_delta_yaw_rate config).
      split; [reflexivity | split; [reflexivity | right; reflexivity]].
    + intros E. injection E as <-. right. cbn.
      repeat split. exists y. split; [reflexivity |].
      split; [| left; reflexivity].
      intros _ x4' E4' Ex'. congruence.
  - intros E. injection E as <-. right. cbn.
    repeat split. exists y. split; [reflexivity |].
    split; [congruence | left; reflexivity].
Qed.

Lemma dwa3d_search_body_inv (fuel : nat) (x : list float) (config : Config)
  (goal : list float) (obs : ndarray) (st st' : Dwa3d.search_state)
  (v y : float) :
  dwa3d_search_inv config x st ->
  Dwa3d.search_body M fuel x config goal obs st v y = Ok st' ->
  dwa3d_search_inv config x st'.
Proof.
  intros Hst. unfold Dwa3d.search_body, Dwa3d.accept_candidate.
  destruct (Dwa3d.predict_trajectory M fuel x v y config) as [tr| |];
    cbn [bind]; try discriminate.
  destruct (final_cost M config tr goal obs) as [c| |];
    cbn [bind]; try discriminate.
  intros E. apply dwa3d_accept_candidate_spec in E.
  destruct E as [[_ ->] | [_ [_ [_ [w [Hu [Hw _]]]]]]]; [exact Hst |].
  right. exists v, w. split; assumption.
Qed.

Lemma dwa3d_search_result (fuel : nat) (x : list float)
  (dw : list scalar) (config : Config) (goal : list float) (obs : ndarray)
  (u : list float) (trajectory : ndarray) :
  Dwa3d.calc_control_and_trajectory M fuel x dw config goal obs
  = Ok (u, trajectory) ->
  exists st, dwa3d_search_inv config x st
             /\ u = Dwa3d.best_u st
             /\ trajectory = Dwa3d.best_trajectory st.
Proof.
  unfold Dwa3d.calc_control_and_trajectory.
  destruct (getitem dw 0) as [d0| |]; cbn [bind]; try discriminate.
  destruct (getitem dw 1) as [d1| |]; cbn [bind]; try discriminate.
  destruct (arange d0 d1 (v_resolution config)) as [vs| |];
    cbn [bind]; try discriminate.
  match goal with
  | |- (st <- for_each vs ?body ?init ;; _) = _ -> _ =>
      destruct (for_each vs body init) as [st| |] eqn:E
  end; cbn [bind]; try discriminate.
  intros R. injection R as <- <-. exists st. split; [| split; reflexivity].
  revert E. apply for_each_invariant; [| left; reflexivity].
  intros s v s' Hs.
  destruct (getitem dw 2) as [d2| |]; cbn [bind]; try discriminate.
  destruct (getitem dw 3) as [d3| |]; cbn [bind]; try discriminate.
  destruct (arange d2 d3 (yaw_rate_resolution config)) as [ys| |];
    cbn [bind]; try discriminate.
  revert s s' Hs. apply for_each_invariant.
  intros s y s'. apply dwa3d_search_body_inv.
Qed.

End Dwa3dSearch.

(** X3.  In [dwa_3d.py] no goal loop is left in the normal way either: the
    command the search returns has two elements, and the motion model
    that is to advance the robot raises on it. *)
Lemma dwa3d_goal_loop_not_left (M : Libm) (steps fuel : nat)
  (config : Config) (goal : list float) (obs : ndarray) (x : list float)
  (trajectory : ndarray) :
  Dwa3d.goal_loop M steps fuel config goal obs x trajectory = OutOfFuel
  \/ exists e,
      Dwa3d.goal_loop M steps fuel config goal obs x trajectory = Raise e.
Proof.
  destruct steps as [|steps]; cbn [Dwa3d.goal_loop]; [left; reflexivity |].
  destruct (Dwa3d.dwa_control M fuel x config goal obs) as [[u tr]|e|] eqn:E;
    cbn [bind fst]; [| right; eauto | left; reflexivity].
  unfold Dwa3d.dwa_control in E.
  destruct (Dwa3d.calc_dynamic_window x config) as [dw| |];
    cbn [bind] in E; try discriminate.
  apply dwa3d_search_result in E.
  destruct E as [st [[-> | [v [w [Hu _]]]] [-> _]]].
  - cbn [dwa3d_init Dwa3d.best_u].
    destruct (dwa3d_motion_never_returns M x 0.0 0.0 (dt config))
      as [-> | ->]; right; eexists; reflexivity.
  - rewrite Hu.
    destruct (dwa3d_motion_never_returns M x v w (dt config))
      as [-> | ->]; right; eexists; reflexivity.
Qed.

(** * Writing one row of the state array *)

Lemma length_replace_nth {A : Type} (l : list A) (i : nat) (v : A) :
  length (replace_nth l i v) = length l.
Proof.
  revert i. induction l as [|h t IH]; intros [|i]; cbn; auto.
Qed.

Lemma nth_error_replace_nth_eq {A : Type} (l : list A) (i : nat) (v w : A) :
  nth_error l i = Some w -> nth_error (replace_nth l i v) i = Some v.
Proof.
  revert i. induction l as [|h t IH]; intros [|i]; cbn;
    try discriminate; auto.
Qed.

Lemma nth_error_replace_nth_neq {A : Type} (l : list A) (i j : nat) (v : A) :
  i <> j -> nth_error (replace_nth l i v) j = nth_error l j.
Proof.
  revert i j. induction l as [|h t IH]; intros [|i] [|j] H; cbn;
    try reflexivity; try congruence.
  apply IH. congruence.
Qed.

Lemma replace_nth_twice {A : Type} (l : list A) (i : nat) (v w : A) :
  replace_nth (replace_nth l i v) i w = replace_nth l i w.
Proof.
  revert i. induction l as [|h t IH]; intros [|i]; cbn; auto.
  rewrite IH. reflexivity.
Qed.

Lemma replace_nth_same {A : Type} (l : list A) (i : nat) (v : A) :
  nth_error l i = Some v -> replace_nth l i v = l.
Proof.
  revert i. induction l as [|h t IH]; intros [|i]; cbn;
    try discriminate; auto.
  - congruence.
  - intros H. rewrite IH; auto.
Qed.

Section FlockingMotion.
Variable M : Libm.

Lemma flocking_motion_row (x : list (list float)) (n : nat)
  (row : list float) (v w dt : float) :
  nth_error x n = Some row -> (5 <= length row)%nat ->
  Flocking.motion M x n [v; w] dt
  = if math_ok (nth 2 row 0 + w * dt)
    then Ok (replace_nth x n (flocking_tick M row v w dt))
    else Raise ValueError.
Proof.
  intros Hn Hlen.
  destruct row as [|a [|b [|c [|d [|e rest]]]]]; cbn in Hlen; try lia.
  unfold Flocking.motion, getitem2, setitem2, math_cos, math_sin.
  rewrite Hn. cbn [nth].
  destruct (math_ok (c + w * dt)) eqn:E; cbn;
    repeat (first [ rewrite replace_nth_twice
                  | rewrite E
                  | erewrite nth_error_replace_nth_eq by eassumption ];
            cbn);
    reflexivity.
Qed.

Lemma flocking_tick_length (row : list float) (v w dt : float) :
  length (flocking_tick M row v w dt) = length row.
Proof.
  destruct row as [|a [|b [|c [|d [|e rest]]]]]; reflexivity.
Qed.

End FlockingMotion.

(** * The trajectory simulator of [dwa_flocking.py] *)

Section FlockingTrajectory.
Variable M : Libm.

Lemma flocking_snapshots_replace (x : list (list float)) (n : nat)
  (r row : list float) (v w dt : float) (k : nat) :
  flocking_snapshots M (replace_nth x n r) n row v w dt k
  = flocking_snapshots M x n row v w dt k.
Proof.
  revert row. induction k as [|k IH]; intros row; cbn; [reflexivity |].
  rewrite replace_nth_twice, IH. reflexivity.
Qed.

Lemma flocking_snapshots_length (x : list (list float)) (n : nat)
  (row : list float) (v w dt : float) (k : nat) :
  length (flocking_snapshots M x n row v w dt k) = (k * length x)%nat.
Proof.
  revert row. induction k as [|k IH]; intros row; cbn; [reflexivity |].
  rewrite length_app, length_replace_nth, IH. reflexivity.
Qed.

Lemma runs_for_step (config : Config) (time : float) (k : nat) :
  runs_for config time (S k) ->
  (time <=? predict_time config) = true
  /\ runs_for config (time + dt config) k.
Proof.
  intros [Hlt Hk]. split; [apply (Hlt 0%nat); lia |].
  split; [| exact Hk].
  intros i Hi. apply (Hlt (S i)). lia.
Qed.

Lemma flocking_tick_heading (row : list float) (v w dt : float) :
  (5 <= length row)%nat ->
  nth 2 (flocking_tick M row v w dt) 0 = nth 2 row 0 + w * dt.
Proof.
  destruct row as [|a [|b [|c [|d [|e rest]]]]]; cbn; try lia.
  reflexivity.
Qed.

(** [k] passes of the loop: the state arrays of the ticks are stacked
    under the trajectory, unless [math.cos] refuses a heading. *)
Lemma flocking_predict_loop_runs (k : nat) :
  forall (fuel : nat) (config : Config) (n : nat) (v y : float)
         (x : list (list float)) (row : list float)
         (stacked : list (list float)) (time : float),
    nth_error x n = Some row -> (5 <= length row)%nat ->
    runs_for config time k -> (k < fuel)%nat ->
    Flocking.predict_loop M fuel config n v y x (Arr2 stacked) time
    = if headings_ok (nth 2 row 0) y (dt config) k
      then Ok (Arr2 (stacked
                       ++ flocking_snapshots M x n row v y (dt config) k))
      else Raise ValueError.
Proof.
  induction k as [|k IH];
    intros fuel config n v y x row stacked time Hn Hlen Hrun Hfuel;
    destruct fuel as [|fuel]; try lia; cbn [Flocking.predict_loop].
  - destruct Hrun as [_ Hk]. cbn in Hk. rewrite Hk.
    cbn. rewrite app_nil_r. reflexivity.
  - apply runs_for_step in Hrun. destruct Hrun as [H0 Hrun].
    rewrite H0. rewrite (flocking_motion_row M x n row) by assumption.
    cbn [headings_ok].
    destruct (math_ok (nth 2 row 0 + y * dt config)); [| reflexivity].
    cbn [bind vstack atleast_2d andb].
    rewrite (IH fuel config n v y _ (flocking_tick M row v y (dt config)));
      try assumption; try lia.
    + rewrite flocking_tick_heading by assumption.
      rewrite flocking_snapshots_replace, <- app_assoc. reflexivity.
    + eapply nth_error_replace_nth_eq; eassumption.
    + rewrite flocking_tick_length. assumption.
Qed.

(** With enough fuel the simulator returns the initial state array followed
    by one state array per tick. *)
Lemma flocking_predict_trajectory_runs (fuel k : nat) (config : Config)
  (n : nat) (v y : float) (x : list (list float)) (row : list float) :
  nth_error x n = Some row -> (5 <= length row)%nat ->
  runs_for config 0 k -> (k < fuel)%nat ->
  Flocking.predict_trajectory M fuel x n v y config
  = if headings_ok (nth 2 row 0) y (dt config) k
    then Ok (Arr2 (x ++ flocking_snapshots M x n row v y (dt config) k))
    else Raise ValueError.
Proof.
  intros. unfold Flocking.predict_trajectory.
  apply flocking_predict_loop_runs; assumption.
Qed.

End FlockingTrajectory.

(** * The clock of the simulation loop *)

Section Clock.
Variable config : Config.
Variables a j : Z.
Hypothesis dt_finite : sf_is_finite (Prim2SF (dt config)) = true.
Hypothesis dt_units : sf_units (Prim2SF (dt config)) = (a * 2 ^ j)%Z.
Hypothesis a_positive : (0 < a)%Z.
Hypothesis j_range : (0 <= j <= 2045)%Z.

(** While the multiples of the time step have at most 53 digits, the
    clock holds them exactly. *)
Lemma clock_exact (i : nat) :
  forall (time : float) (m : Z),
    (0 <= m)%Z -> ((m + Z.of_nat i) * a < 2 ^ 53)%Z ->
    sf_is_finite (Prim2SF time) = true ->
    sf_units (Prim2SF time) = (m * (a * 2 ^ j))%Z ->
    sf_is_finite (Prim2SF (time_after config time i)) = true
    /\ sf_units (Prim2SF (time_after config time i))
       = ((m + Z.of_nat i) * (a * 2 ^ j))%Z.
Proof.
  induction i as [|i IH]; intros time m Hm Hb Ft Ut; cbn [time_after].
  - split; [exact Ft |]. rewrite Ut. f_equal. lia.
  - assert (R : representable
                  (sf_units (Prim2SF time)
                   + sf_units (Prim2SF (dt config)))%Z).
    { rewrite Ut, dt_units.
      replace (m * (a * 2 ^ j) + a * 2 ^ j)%Z
        with ((m + 1) * a * 2 ^ j)%Z by ring.
      apply representable_scaled; [| exact j_range]. nia. }
    destruct (add_exact time (dt config) Ft dt_finite R) as [F U].
    destruct (IH (time + dt config) (m + 1)%Z) as [F' U'];
      [lia | | exact F | |].
    + replace (m + 1 + Z.of_nat i)%Z with (m + Z.of_nat (S i))%Z by lia.
      exact Hb.
    + rewrite U, Ut, dt_units. ring.
    + split; [exact F' |]. rewrite U'. f_equal. lia.
Qed.

Variable horizon_units : Z.
Hypothesis horizon_finite :
  sf_is_finite (Prim2SF (predict_time config)) = true.
Hypothesis horizon_eq :
  sf_units (Prim2SF (predict_time config)) = horizon_units.
Hypothesis horizon_nonneg : (0 <= horizon_units)%Z.

(** With an exact clock the loop runs [floor(T / dt) + 1] times. *)
Lemma clock_runs_for (k : nat) :
  Z.of_nat k = (horizon_units / (a * 2 ^ j) + 1)%Z ->
  (Z.of_nat k * a < 2 ^ 53)%Z ->
  runs_for config 0 k.
Proof.
  intros Hk Hb.
  assert (Pj : (0 < 2 ^ j)%Z) by (apply pow2_pos; lia).
  assert (Pd : (0 < a * 2 ^ j)%Z) by (apply Z.mul_pos_pos; assumption).
  pose proof (Z.mul_div_le horizon_units _ Pd) as Lo.
  pose proof (Z.mul_succ_div_gt horizon_units _ Pd) as Hi.
  assert (At : forall i : nat,
             (i <= k)%nat ->
             (time_after config 0 i <=? predict_time config)
             = (Z.of_nat i * (a * 2 ^ j) <=? horizon_units)%Z).
  { intros i Hi'.
    destruct (clock_exact i 0 0%Z) as [F U];
      [lia | nia | reflexivity | reflexivity |].
    rewrite leb_units by assumption.
    rewrite U, horizon_eq. reflexivity. }
  split.
  - intros i Hi'. rewrite At by lia. apply Z.leb_le. nia.
  - rewrite At by lia. apply Z.leb_gt. rewrite Hk.
    unfold Z.succ in Hi. lia.
Qed.

End Clock.

(** C9 (amended).  For every state array in which agent [n] has its five
    fields, every command and every Config, the simulator of
    [dwa_flocking.py], given enough fuel and headings that [math.cos]
    accepts, returns [k + 1] samples, each one a copy of the whole state
    array, the first of which is the initial state, where [k] is the
    number of passes of its loop: the clock ([0], then [dt] added once per
    pass, in binary64) is at most [predict_time] before each of the first
    [k] passes and not after them.  Where the clock is exact ([dt] positive
    and [T] not negative, both finite, the multiples of [dt] up to the
    first one above [T] of at most 53 binary digits), [k] is
    [floor(T / dt) + 1], so the trajectory holds [floor(T / dt) + 2]
    samples. *)
Theorem C9_flocking_trajectory_samples :
  forall (M : Libm) (fuel k : nat) (config : Config) (n : nat)
         (v y : float) (x : list (list float)) (row : list float),
    nth_error x n = Some row -> (5 <= length row)%nat ->
    headings_ok (nth 2 row 0) y (dt config) k = true ->
    (k < fuel)%nat ->
    ((forall i, (i < k)%nat ->
                (time_after config 0 i <=? predict_time config) = true)
     /\ (time_after config 0 k <=? predict_time config) = false)
    \/ (exists a j : Z,
           sf_is_finite (Prim2SF (dt config)) = true
           /\ sf_is_finite (Prim2SF (predict_time config)) = true
           /\ sf_units (Prim2SF (dt config)) = (a * 2 ^ j)%Z
           /\ (0 < a)%Z /\ (0 <= j <= 2045)%Z
           /\ (0 <= sf_units (Prim2SF (predict_time config)))%Z
           /\ Z.of_nat k
              = (sf_units (Prim2SF (predict_time config))
                 / sf_units (Prim2SF (dt config)) + 1)%Z
           /\ (Z.of_nat k * a < 2 ^ 53)%Z) ->
    exists rows : list (list float),
      Flocking.predict_trajectory M fuel x n v y config = Ok (Arr2 rows)
      /\ length rows = ((k + 1) * length x)%nat
      /\ firstn (length x) rows = x.
Proof.
  intros M fuel k config n v y x row Hn Hlen Hh Hfuel Hrun.
  assert (R : runs_for config 0 k).
  { destruct Hrun as [[Hlt Hk] | [a [j H]]]; [split; assumption |].
    destruct H as [Fd [Ft [Ud [Ha [Hj [Hb [Hk Hs]]]]]]].
    apply (clock_runs_for config a j Fd Ud Ha Hj
             (sf_units (Prim2SF (predict_time config))) Ft eq_refl Hb);
      [| exact Hs].
    rewrite Hk, Ud. reflexivity. }
  eexists. split; [| split].
  - rewrite (flocking_predict_trajectory_runs M fuel k config n v y x row)
      by assumption.
    rewrite Hh. reflexivity.
  - rewrite length_app, flocking_snapshots_length. lia.
  - rewrite firstn_app, Nat.sub_diag, firstn_all. cbn.
    apply app_nil_r.
Qed.

(** The Config of [dwa_flocking.py]: the clock passes 0.1, 0.2, ... and
    after fifteen additions reaches 1.5000000000000002, above
    [predict_time = 1.5], so the loop runs fifteen times and the trajectory
    holds sixteen samples.  With [dt = 0.5] and [predict_time = 1.0] the
    clock is exact: [floor(1.0 / 0.5) + 1] is three passes, four
    samples. *)
Lemma C9_flocking_trajectory_samples_witness :
  (exists rows : list (list float),
      Flocking.predict_trajectory example_libm 100 Flocking.x_start 0
        0.02 0 Flocking.config = Ok (Arr2 rows)
      /\ length rows = ((15 + 1) * length Flocking.x_start)%nat
      /\ firstn (length Flocking.x_start) rows = Flocking.x_start)
  /\ (exists rows : list (list float),
         Flocking.predict_trajectory example_libm 100 Flocking.x_start 0
           0.02 0 (with_horizon Flocking.config 0.5 1.0) = Ok (Arr2 rows)
         /\ length rows = ((3 + 1) * length Flocking.x_start)%nat
         /\ firstn (length Flocking.x_start) rows = Flocking.x_start).
Proof.
  split.
  - apply (C9_flocking_trajectory_samples example_libm 100 15
             Flocking.config 0 0.02 0 Flocking.x_start
             [1.0; -1.0; 0.0; 0.0; 0.0]).
    + reflexivity.
    + simpl. lia.
    + reflexivity.
    + lia.
    + left. split; [| reflexivity].
      intros i Hi.
      do 15 (destruct i as [|i]; [reflexivity |]). lia.
  - apply (C9_flocking_trajectory_samples example_libm 100 3
             (with_horizon Flocking.config 0.5 1.0) 0 0.02 0
             Flocking.x_start [1.0; -1.0; 0.0; 0.0; 0.0]).
    + reflexivity.
    + simpl. lia.
    + reflexivity.
    + lia.
    + right. exists 1%Z, 1073%Z.
      repeat split; try reflexivity; try lia.
      apply Z.leb_le. reflexivity.
Defined.

(** C9 as stated fails: with [dt = 0.5] and [predict_time = 1.0], both
    positive, [ceil(T / dt) + 1] is 3, and the simulator returns four
    samples (twenty-four rows, six per sample): the loop also runs at
    [time = 1.0], since its test is [time <= predict_time]. *)
Lemma C9_counterexample :
  (0 <? dt (with_horizon Flocking.config 0.5 1.0)) = true
  /\ ceil (predict_time (with_horizon Flocking.config 0.5 1.0)
           / dt (with_horizon Flocking.config 0.5 1.0)) = Some 2%Z
  /\ exists rows : list (list float),
      Flocking.predict_trajectory example_libm 100 Flocking.x_start 0
        0.02 0 (with_horizon Flocking.config 0.5 1.0) = Ok (Arr2 rows)
      /\ length rows = (4 * length Flocking.x_start)%nat
      /\ length Flocking.x_start = 6%nat.
Proof.
  split; [reflexivity | split; [reflexivity |]].
  eexists. split; [vm_compute; reflexivity | split; reflexivity].
Qed.

(** In the Config of the file the count agrees with the spec's formula:
    [ceil(1.5 / 0.1) + 1] is 16. *)
Lemma default_horizon_ceil :
  ceil (predict_time Flocking.config / dt Flocking.config) = Some 15%Z.
Proof. reflexivity. Qed.

(** * The obstacle cost *)

Lemma fold_np_minimum_in (t : list float) (a : float) :
  In (fold_left np_minimum t a) (a :: t).
Proof.
  revert a. induction t as [|b t IH]; intros a; cbn; [left; reflexivity |].
  destruct (IH (np_minimum a b)) as [H | H].
  - unfold np_minimum in H at 1.
    destruct (is_nan a); [left; exact H |].
    destruct (a <? b); [left; exact H | right; left; exact H].
  - right; right; exact H.
Qed.

Lemma np_minimum_le (a b : float) :
  is_nan a = false -> is_nan b = false ->
  is_nan (np_minimum a b) = false
  /\ (np_minimum a b <=? a) = true /\ (np_minimum a b <=? b) = true.
Proof.
  intros Ha Hb. unfold np_minimum. rewrite Ha.
  destruct (a <? b) eqn:E.
  - split; [exact Ha | split; [apply leb_refl; exact Ha |]].
    apply ltb_leb; exact E.
  - split; [exact Hb | split; [| apply leb_refl; exact Hb]].
    apply not_ltb_leb; assumption.
Qed.

Lemma fold_np_minimum_le (t : list float) (a : float) :
  (forall d, In d (a :: t) -> is_nan d = false) ->
  forall d, In d (a :: t) -> (fold_left np_minimum t a <=? d) = true.
Proof.
  revert a. induction t as [|b t IH]; intros a Hnan d Hd; cbn.
  - destruct Hd as [<- | []]. apply leb_refl. apply Hnan. left; reflexivity.
  - destruct (np_minimum_le a b) as [Hn [Hla Hlb]];
      [apply Hnan; left; reflexivity
      | apply Hnan; right; left; reflexivity |].
    assert (Hnan' : forall d, In d (np_minimum a b :: t) -> is_nan d = false).
    { intros d' [<- | Hd']; [exact Hn |]. apply Hnan. right; right; exact Hd'. }
    destruct Hd as [<- | [<- | Hd]].
    + eapply leb_trans; [| exact Hla]. apply IH; [exact Hnan' |].
      left; reflexivity.
    + eapply leb_trans; [| exact Hlb]. apply IH; [exact Hnan' |].
      left; reflexivity.
    + apply IH; [exact Hnan' | right; exact Hd].
Qed.

Lemma any_le_exists (r : list (list float)) (c : float) :
  any_le r c = true <-> exists d, In d (concat r) /\ (d <=? c) = true.
Proof.
  unfold any_le. rewrite existsb_exists. split.
  - intros [row [Hrow H]]. apply existsb_exists in H.
    destruct H as [d [Hd Hle]]. exists d. split; [| exact Hle].
    apply in_concat. exists row. split; assumption.
  - intros [d [Hd Hle]]. apply in_concat in Hd.
    destruct Hd as [row [Hrow Hd]]. exists row. split; [exact Hrow |].
    apply existsb_exists. exists d. split; assumption.
Qed.

Lemma column_of_map (rows : list (list float)) (j : nat) :
  (forall r, In r rows -> (j < length r)%nat) ->
  column_of rows j = Ok (map (fun r => nth j r 0) rows).
Proof.
  induction rows as [|r t IH]; intros H; cbn; [reflexivity |].
  assert (Hr : (j < length r)%nat) by (apply H; left; reflexivity).
  unfold getitem.
  destruct (nth_error r j) eqn:E; [| apply nth_error_None in E; lia].
  rewrite (nth_error_nth _ _ 0 E). cbn.
  rewrite IH by (intros r' Hr'; apply H; right; exact Hr').
  reflexivity.
Qed.

Lemma combine_map_same {A B C : Type} (f : A -> B) (g : A -> C)
  (l : list A) :
  combine (map f l) (map g l) = map (fun a => (f a, g a)) l.
Proof.
  induction l as [|a l IH]; cbn; [reflexivity | rewrite IH; reflexivity].
Qed.

Section ObstacleCost.
Variable M : Libm.

Lemma in_distance_matrix (rows obstacles : list (list float)) (d : float) :
  In d (concat (distance_matrix M rows obstacles))
  <-> sample_obstacle_distance M rows obstacles d.
Proof.
  unfold distance_matrix, distances, sample_obstacle_distance.
  rewrite !combine_map_same, in_concat. split.
  - intros [row [Hrow Hd]]. apply in_map_iff in Hrow.
    destruct Hrow as [[ox oy] [<- Ho]]. apply in_map_iff in Ho.
    destruct Ho as [o [Eo Ho]]. apply in_map_iff in Hd.
    destruct Hd as [[tx ty] [<- Ht]]. apply in_map_iff in Ht.
    destruct Ht as [r [Er Hr]]. injection Eo as <- <-.
    injection Er as <- <-. exists r, o. cbn. auto.
  - intros [r [o [Hr [Ho ->]]]].
    eexists. split.
    + apply in_map_iff. exists (nth 0 o 0, nth 1 o 0). split; [reflexivity |].
      apply in_map_iff. exists o. split; [reflexivity | exact Ho].
    + apply in_map_iff. exists (nth 0 r 0, nth 1 r 0). split; [reflexivity |].
      apply in_map_iff. exists r. split; [reflexivity | exact Hr].
Qed.

Lemma calc_obstacle_cost_unfold (rows obstacles : list (list float))
  (config : Config) :
  (forall r, In r rows -> (2 <= length r)%nat) ->
  (forall o, In o obstacles -> (2 <= length o)%nat) ->
  calc_obstacle_cost M (Arr2 rows) (Arr2 obstacles) config
  = if any_le (distance_matrix M rows obstacles) (robot_radius config)
    then Ok infinity
    else min_r <- np_min (distance_matrix M rows obstacles) ;;
         Ok (1.0 / min_r).
Proof.
  intros Hr Ho. unfold calc_obstacle_cost, column.
  rewrite !column_of_map;
    try (intros r' Hr'; specialize (Hr r' Hr'); lia);
    try (intros o' Ho'; specialize (Ho o' Ho'); lia).
  reflexivity.
Qed.

Lemma distance_matrix_nonempty (rows obstacles : list (list float)) :
  rows <> [] -> obstacles <> [] ->
  concat (distance_matrix M rows obstacles) <> [].
Proof.
  intros Hr Ho E.
  destruct rows as [|r rows]; [congruence |].
  destruct obstacles as [|o obstacles]; [congruence |].
  assert (H : In (hypot M (nth 0 r 0 - nth 0 o 0) (nth 1 r 0 - nth 1 o 0))
                (concat (distance_matrix M (r :: rows) (o :: obstacles)))).
  { apply in_distance_matrix. exists r, o.
    split; [left; reflexivity | split; [left; reflexivity | reflexivity]]. }
  rewrite E in H. exact H.
Qed.

End ObstacleCost.

(** C3 (amended).  For every trajectory with at least one sample and every
    non-empty obstacle set (rows of at least two columns): if some sample
    lies at a distance that is [<=] the robot's radius from some obstacle
    point, boundary included, the obstacle cost is [+infinity]; if none
    does, the cost is [1.0 / m] for a sample-to-obstacle distance [m] which
    is the least of them all (when none of them is NaN).  So the cost is
    [+infinity] only for a collision or when the division [1.0 / m] itself
    gives [+infinity]. *)
Theorem C3_obstacle_cost :
  forall (M : Libm) (config : Config) (rows obstacles : list (list float)),
    rows <> [] -> obstacles <> [] ->
    (forall r, In r rows -> (2 <= length r)%nat) ->
    (forall o, In o obstacles -> (2 <= length o)%nat) ->
    ((exists d, sample_obstacle_distance M rows obstacles d
                /\ (d <=? robot_radius config) = true) ->
     calc_obstacle_cost M (Arr2 rows) (Arr2 obstacles) config = Ok infinity)
    /\ ((forall d, sample_obstacle_distance M rows obstacles d ->
                   (d <=? robot_radius config) = false) ->
        exists m : float,
          calc_obstacle_cost M (Arr2 rows) (Arr2 obstacles) config
          = Ok (1.0 / m)
          /\ sample_obstacle_distance M rows obstacles m
          /\ ((forall d, sample_obstacle_distance M rows obstacles d ->
                         is_nan d = false) ->
              forall d, sample_obstacle_distance M rows obstacles d ->
                        (m <=? d) = true))
    /\ (calc_obstacle_cost M (Arr2 rows) (Arr2 obstacles) config
        = Ok infinity ->
        (exists d, sample_obstacle_distance M rows obstacles d
                   /\ (d <=? robot_radius config) = true)
        \/ (exists m, sample_obstacle_distance M rows obstacles m
                      /\ 1.0 / m = infinity)).
Proof.
  intros M config rows obstacles Hrows Hobs Hr Ho.
  rewrite (calc_obstacle_cost_unfold M rows obstacles config Hr Ho).
  pose proof (distance_matrix_nonempty M rows obstacles Hrows Hobs) as Hne.
  assert (Hmin : exists a t,
             concat (distance_matrix M rows obstacles) = a :: t
             /\ np_min (distance_matrix M rows obstacles)
                = Ok (fold_left np_minimum t a)).
  { unfold np_min.
    destruct (concat (distance_matrix M rows obstacles)) as [|a t];
      [congruence | eauto]. }
  destruct Hmin as [a [t [Ec Emin]]].
  assert (Hin : sample_obstacle_distance M rows obstacles
                  (fold_left np_minimum t a)).
  { apply in_distance_matrix. rewrite Ec. apply fold_np_minimum_in. }
  split; [| split].
  - intros [d [Hd Hle]].
    assert (A : any_le (distance_matrix M rows obstacles)
                  (robot_radius config) = true).
    { apply any_le_exists. exists d. split; [| exact Hle].
      apply in_distance_matrix; exact Hd. }
    rewrite A. reflexivity.
  - intros Hfree.
    destruct (any_le (distance_matrix M rows obstacles)
                (robot_radius config)) eqn:A.
    + apply any_le_exists in A. destruct A as [d [Hd Hle]].
      apply in_distance_matrix in Hd. rewrite (Hfree d Hd) in Hle.
      discriminate.
    + rewrite Emin. cbn [bind].
      exists (fold_left np_minimum t a).
      split; [reflexivity | split; [exact Hin |]].
      intros Hnan d Hd. apply fold_np_minimum_le.
      * intros d' Hd'. apply Hnan. apply in_distance_matrix.
        rewrite Ec. exact Hd'.
      * rewrite <- Ec. apply in_distance_matrix. exact Hd.
  - destruct (any_le (distance_matrix M rows obstacles)
                (robot_radius config)) eqn:A.
    + intros _. left. apply any_le_exists in A.
      destruct A as [d [Hd Hle]]. exists d. split; [| exact Hle].
      apply in_distance_matrix; exact Hd.
    + rewrite Emin. cbn [bind]. intros E. injection E as E.
      right. exists (fold_left np_minimum t a). split; assumption.
Qed.

Ltac each_member H :=
  repeat (destruct H as [<- | H]; [simpl; lia |]); destruct H.

(** The six agents of [dwa_flocking.py] at their start, as a trajectory of
    six samples, against the eight obstacle points of its Config. *)
Lemma C3_obstacle_cost_witness :
  ((exists d, sample_obstacle_distance example_libm Flocking.x_start
                Flocking.objarry d
              /\ (d <=? robot_radius Flocking.config) = true) ->
   calc_obstacle_cost example_libm (Arr2 Flocking.x_start)
     (Arr2 Flocking.objarry) Flocking.config = Ok infinity)
  /\ ((forall d, sample_obstacle_distance example_libm Flocking.x_start
                   Flocking.objarry d ->
                 (d <=? robot_radius Flocking.config) = false) ->
      exists m : float,
        calc_obstacle_cost example_libm (Arr2 Flocking.x_start)
          (Arr2 Flocking.objarry) Flocking.config
        = Ok (1.0 / m)
        /\ sample_obstacle_distance example_libm Flocking.x_start
             Flocking.objarry m
        /\ ((forall d, sample_obstacle_distance example_libm
                         Flocking.x_start Flocking.objarry d ->
                       is_nan d = false) ->
            forall d, sample_obstacle_distance example_libm
                        Flocking.x_start Flocking.objarry d ->
                      (m <=? d) = true))
  /\ (calc_obstacle_cost example_libm (Arr2 Flocking.x_start)
        (Arr2 Flocking.objarry) Flocking.config
      = Ok infinity ->
      (exists d, sample_obstacle_distance example_libm Flocking.x_start
                   Flocking.objarry d
                 /\ (d <=? robot_radius Flocking.config) = true)
      \/ (exists m, sample_obstacle_distance example_libm Flocking.x_start
                      Flocking.objarry m
                    /\ 1.0 / m = infinity)).
Proof.
  apply (C3_obstacle_cost example_libm Flocking.config Flocking.x_start
           Flocking.objarry).
  - discriminate.
  - discriminate.
  - intros r H. each_member H.
  - intros o H. each_member H.
Defined.

(** C3 as stated fails: for a robot of the (positive) radius 1e-320, a
    sample at 1e-310 of the only obstacle point is not within the radius,
    and the cost [1.0 / 1e-310] is [+infinity] all the same, the quotient
    being above the largest binary64 number. *)
Lemma C3_counterexample :
  (0 <? robot_radius (with_radius Flocking.config 1e-320)) = true
  /\ hypot example_libm (1e-310 - 0) (0 - 0) = 1e-310
  /\ (1e-310 <=? robot_radius (with_radius Flocking.config 1e-320)) = false
  /\ calc_obstacle_cost example_libm (Arr2 [[1e-310; 0; 0; 0; 0]])
       (Arr2 [[0; 0]]) (with_radius Flocking.config 1e-320)
     = Ok infinity.
Proof. repeat split. Qed.

(** Three runs of the obstacle cost under the Config of
    [dwa_flocking.py]: the agents at their start are 9 m from the nearest
    obstacle point; a sample at exactly the radius, 0.5 m, is a collision;
    a sample just beyond it is not. *)
Example obstacle_cost_at_start :
  calc_obstacle_cost example_libm (Arr2 Flocking.x_start)
    (Arr2 Flocking.objarry) Flocking.config = Ok 0.1111111111111111.
Proof. vm_compute. reflexivity. Qed.

Example obstacle_cost_boundary_inclusive :
  hypot example_libm (12.5 - 12) (-3 - -3) = 0.5
  /\ calc_obstacle_cost example_libm (Arr2 [[12.5; -3; 0; 0; 0]])
       (Arr2 Flocking.objarry) Flocking.config = Ok infinity.
Proof. split; vm_compute; reflexivity. Qed.

Example obstacle_cost_beyond_radius :
  hypot example_libm (12.75 - 12) (-3 - -3) = 0.75
  /\ calc_obstacle_cost example_libm (Arr2 [[12.75; -3; 0; 0; 0]])
       (Arr2 Flocking.objarry) Flocking.config = Ok (1.0 / 0.75).
Proof. split; vm_compute; reflexivity. Qed.

(** * [np.arange] *)

Section Arange.

Lemma div_nan_l (d s : float) : is_nan d = true -> is_nan (d / s) = true.
Proof.
  intros H. destruct (not_nan_sf d) as [N | N]; [congruence |].
  apply is_nan_true. rewrite FloatAxioms.div_spec, N. reflexivity.
Qed.

(** The ceiling of a quotient that lies between two integers held by
    binary64 lies between them. *)
Lemma ceil_between (lo hi q : float) (zl zh : Z) :
  sf_is_finite (Prim2SF lo) = true -> sf_is_finite (Prim2SF hi) = true ->
  sf_units (Prim2SF lo) = (zl * 2 ^ 1074)%Z ->
  sf_units (Prim2SF hi) = (zh * 2 ^ 1074)%Z ->
  (lo <=? q) = true -> (q <=? hi) = true ->
  exists n, ceil q = Some n /\ (zl <= n <= zh)%Z.
Proof.
  intros Fl Fh Ul Uh Hl Hh.
  pose proof (between_finite lo q hi Fl Fh Hl Hh) as Fq.
  rewrite leb_units in Hl, Hh by assumption.
  apply Z.leb_le in Hl. apply Z.leb_le in Hh.
  rewrite Ul in Hl. rewrite Uh in Hh.
  apply ceil_sf_bounds; [apply FloatAxioms.Prim2SF_valid | exact Fq |].
  split; assumption.
Qed.

Lemma two63f_units :
  sf_units (Prim2SF two63f) = (two63 * 2 ^ 1074)%Z
  /\ sf_units (Prim2SF (- two63f)) = (- two63 * 2 ^ 1074)%Z
  /\ sf_units (Prim2SF below_two60f) = ((two60 - 128) * 2 ^ 1074)%Z.
Proof. repeat split; vm_compute; reflexivity. Qed.

(** The array over a range that holds no number is empty. *)
Lemma arange_empty (start stop : scalar) (step : float) :
  empty_range start stop step = true -> arange start stop step = Ok [].
Proof.
  unfold empty_range, length_quotient. intros H.
  apply andb_prop in H. destruct H as [H Hq].
  apply andb_prop in H. destruct H as [Hs He].
  unfold arange. rewrite (positive_not_zero _ Hs), andb_false_r.
  cbv zeta.
  destruct (leb_not_nan _ _ Hq) as [_ Nq].
  assert (Hd : (value stop - value start <=? 0) = true).
  { destruct (sub_ordered _ _ He) as [N | L]; [| exact L].
    rewrite (div_nan_l _ step N) in Nq. discriminate Nq. }
  destruct (((value stop - value start) / step =? 0)
            && negb (value stop - value start =? 0)) eqn:U.
  - apply andb_prop in U. destruct U as [_ U].
    apply negb_true_iff in U.
    destruct (div_sign _ _ (leb_neq_ltb _ Hd U) Hs) as [N | ->];
      [congruence | reflexivity].
  - rewrite Nq.
    assert (Q0 : ((value stop - value start) / step <=? 0) = true).
    { destruct (div_nonpos _ _ Hd Hs) as [N | L']; [congruence | exact L']. }
    destruct (ceil_between (- two63f) 0 _ (- two63) 0
                eq_refl eq_refl (proj1 (proj2 two63f_units)) eq_refl Hq Q0)
      as [n [-> Hn]].
    destruct (Z.ltb_spec n (- two63)); [lia |].
    destruct (Z.ltb_spec two63 n); [unfold two63 in *; lia |].
    destruct (Z.eqb_spec n two63); [unfold two63 in *; lia |].
    destruct (Z.leb_spec two60 n); [unfold two60 in *; lia |].
    cbn [orb]. replace (Z.to_nat n) with 0%nat by lia. reflexivity.
Qed.

(** [np.arange] returns an array when the step is positive and the
    quotient it takes the length from is within [-2^63] and
    [2^60 - 128]. *)
Lemma arange_returns (start stop : scalar) (step : float) :
  countable_range start stop step = true ->
  exists l, arange start stop step = Ok l.
Proof.
  unfold countable_range, length_quotient. intros H.
  apply andb_prop in H. destruct H as [H Hh].
  apply andb_prop in H. destruct H as [Hs Hl].
  unfold arange. rewrite (positive_not_zero _ Hs), andb_false_r.
  cbv zeta.
  destruct (_ && negb _); [destruct (signbit _); eauto |].
  destruct (leb_not_nan _ _ Hl) as [_ Nq]. rewrite Nq.
  destruct (ceil_between (- two63f) below_two60f _ (- two63) (two60 - 128)
              eq_refl eq_refl (proj1 (proj2 two63f_units))
              (proj2 (proj2 two63f_units)) Hl Hh)
    as [n [-> Hn]].
  destruct (Z.ltb_spec n (- two63)); [lia |].
  destruct (Z.ltb_spec two63 n); [unfold two63, two60 in *; lia |].
  destruct (Z.eqb_spec n two63); [unfold two63, two60 in *; lia |].
  destruct (Z.leb_spec two60 n); [lia |].
  cbn [orb]. eauto.
Qed.

(** [np.arange] returns, or it raises [ValueError] or
    [ZeroDivisionError]. *)
Lemma arange_cases (start stop : scalar) (step : float) :
  (exists l, arange start stop step = Ok l)
  \/ arange_refused (arange start stop step).
Proof.
  unfold arange, arange_refused.
  destruct (is_python start && is_python stop && (step =? 0));
    [right; right; reflexivity |].
  cbv zeta.
  destruct (_ && negb _); [destruct (signbit _); left; eauto |].
  destruct (is_nan ((value stop - value start) / step));
    [right; left; reflexivity |].
  destruct (ceil ((value stop - value start) / step)) as [n|];
    [| right; left; reflexivity].
  destruct ((n <? - two63) || (two63 <? n))%Z;
    [right; left; reflexivity |].
  destruct (n =? two63)%Z; [left; eauto |].
  destruct (two60 <=? n)%Z; [right; left; reflexivity | left; eauto].
Qed.

End Arange.

(** * The search without candidates *)

Lemma for_each_unchanged {A S : Type} (body : S -> A -> res S)
  (l : list A) (s : S) :
  (forall a, In a l -> body s a = Ok s) -> for_each l body s = Ok s.
Proof.
  induction l as [|a l IH]; intros H; cbn; [reflexivity |].
  rewrite (H a) by (left; reflexivity). cbn.
  apply IH. intros b Hb. apply H. right; exact Hb.
Qed.

Lemma empty_window_cases (config : Config) (dw : list scalar) :
  empty_window config dw = true ->
  exists lo hi ylo yhi rest,
    dw = lo :: hi :: ylo :: yhi :: rest
    /\ (arange lo hi (v_resolution config) = Ok []
        \/ ((exists vs, arange lo hi (v_resolution config) = Ok vs)
            /\ arange ylo yhi (yaw_rate_resolution config) = Ok [])).
Proof.
  destruct dw as [|lo [|hi [|ylo [|yhi rest]]]]; try discriminate.
  cbn [empty_window]. intros H.
  exists lo, hi, ylo, yhi, rest. split; [reflexivity |].
  apply orb_prop in H. destruct H as [H | H].
  - left. apply arange_empty. exact H.
  - apply andb_prop in H. destruct H as [Hv Hy]. right.
    split; [apply arange_returns; exact Hv | apply arange_empty; exact Hy].
Qed.

Lemma dwa3d_no_candidate (M : Libm) (fuel : nat) (x : list float)
  (dw : list scalar) (config : Config) (goal : list float)
  (obs : ndarray) :
  empty_window config dw = true ->
  Dwa3d.calc_control_and_trajectory M fuel x dw config goal obs
  = Ok ([0.0; 0.0], Arr2 [x]).
Proof.
  intros H. apply empty_window_cases in H.
  destruct H as [lo [hi [ylo [yhi [rest [-> [Hv | [[vs Hv] Hy]]]]]]]];
    unfold Dwa3d.calc_control_and_trajectory; cbn [getitem nth_error bind];
    rewrite Hv; cbn [bind for_each].
  - reflexivity.
  - rewrite Hy.
    rewrite (for_each_no_inner vs (fun _ _ => Ok [])
               (fun st v y =>
                  Dwa3d.search_body M fuel x config goal obs st v y));
      reflexivity.
Qed.

Lemma flocking_no_candidate_agent (M : Libm) (fuel : nat)
  (x : list (list float)) (dw : list (list scalar)) (config : Config)
  (goal : list float) (obs : ndarray) (st : Flocking.search_state)
  (n : nat) (row : list scalar) :
  nth_error dw n = Some row ->
  empty_window config row = true ->
  Flocking.search_agent M fuel x dw config goal obs st n = Ok st.
Proof.
  intros Hn H. apply empty_window_cases in H.
  destruct H as [lo [hi [ylo [yhi [rest [-> [Hv | [[vs Hv] Hy]]]]]]]];
    unfold Flocking.search_agent, getitem2; rewrite Hn;
    cbn [getitem nth_error bind]; rewrite Hv; cbn [bind for_each].
  - reflexivity.
  - rewrite Hy.
    rewrite (for_each_no_inner vs (fun _ _ => Ok [])
               (fun st v y =>
                  Flocking.search_body M fuel x config goal obs st n v y));
      reflexivity.
Qed.

(** C4 (amended).  In both files, whenever the window (of the robot, or of
    every one of the six agents) is empty in a dimension, the search
    returns the zero command ([[0.0, 0.0]], one per agent in
    [dwa_flocking.py]) and the trajectory that consists of the current
    state alone.  The window is empty in velocity when [v_max <= v_min],
    in yaw rate when [yaw_max <= yaw_min]; the resolution of the empty
    dimension is positive and the quotient [(stop - start) / step], from
    which [np.arange] takes its length, is not below [-2^63]; where it is
    the yaw-rate range that is empty, the velocity range is one that
    [np.arange] enumerates (step positive, quotient within [-2^63] and
    [2^60 - 128], that is, below [2^60]). *)
Theorem C4_no_candidate_default_command :
  forall (M : Libm) (fuel : nat) (config : Config) (goal : list float)
         (obs : ndarray),
    (forall (x : list float) (dw : list scalar),
        empty_window config dw = true ->
        Dwa3d.calc_control_and_trajectory M fuel x dw config goal obs
        = Ok ([0.0; 0.0], Arr2 [x]))
    /\ (forall (x : list (list float)) (dw : list (list scalar)),
           (forall n, In n Flocking.agents ->
              exists row, nth_error dw n = Some row
                          /\ empty_window config row = true) ->
           Flocking.calc_control_and_trajectory M fuel x dw config goal obs
           = Ok (repeat [0.0; 0.0] 6, Arr3 [x])).
Proof.
  intros M fuel config goal obs. split.
  - intros x dw H. apply dwa3d_no_candidate. exact H.
  - intros x dw H. unfold Flocking.calc_control_and_trajectory.
    rewrite for_each_unchanged; [reflexivity |].
    intros n Hn. destruct (H n Hn) as [row [Hdw Hempty]].
    eapply flocking_no_candidate_agent; eassumption.
Qed.

(** The window of the state that turns at 10 rad/s, five velocities and
    no yaw rate; and the six agents of [main] at 10 m/s, whose windows are
    empty in velocity. *)
Lemma C4_no_candidate_default_command_witness :
  Dwa3d.calc_dynamic_window [0; 0; 1; 0; 0; 10; 0] Dwa3d.config
  = Ok [NpFloat (-0.020000000000000004); NpFloat 0.020000000000000004;
        NpFloat 9.9301868299202276; PyFloat 1.0471975511965976]
  /\ Dwa3d.calc_control_and_trajectory example_libm 100
       [0; 0; 1; 0; 0; 10; 0]
       [NpFloat (-0.020000000000000004); NpFloat 0.020000000000000004;
        NpFloat 9.9301868299202276; PyFloat 1.0471975511965976]
       Dwa3d.config [26.5; -5] (ob Dwa3d.config)
     = Ok ([0.0; 0.0], Arr2 [[0; 0; 1; 0; 0; 10; 0]])
  /\ Flocking.calc_dynamic_window
       (map (fun row => replace_nth row 3 10) Flocking.x_start)
       Flocking.config
     = Ok (repeat [NpFloat 9.98; PyFloat 0.8;
                   NpFloat (-0.069813170079773182);
                   NpFloat 0.069813170079773182] 6)
  /\ Flocking.calc_control_and_trajectory example_libm 100
       (map (fun row => replace_nth row 3 10) Flocking.x_start)
       (repeat [NpFloat 9.98; PyFloat 0.8;
                NpFloat (-0.069813170079773182);
                NpFloat 0.069813170079773182] 6)
       Flocking.config Flocking.goal1 (ob Flocking.config)
     = Ok (repeat [0.0; 0.0] 6,
           Arr3 [map (fun row => replace_nth row 3 10) Flocking.x_start]).
Proof.
  split; [reflexivity |].
  split;
    [apply (proj1 (C4_no_candidate_default_command example_libm 100
                     Dwa3d.config [26.5; -5] (ob Dwa3d.config)));
     reflexivity |].
  split; [reflexivity |].
  apply (proj2 (C4_no_candidate_default_command example_libm 100
                  Flocking.config Flocking.goal1 (ob Flocking.config))).
  intros n Hn.
  repeat (destruct Hn as [<- | Hn]; [eexists; split; reflexivity |]).
  destruct Hn.
Defined.

(** C4 as stated fails on an all-collision candidate set.  With an agent on
    an obstacle point every one of the 240 candidates of the multi-agent
    search has the cost [+infinity]; the test [min_cost >= final_cost]
    holds for [inf >= inf], so each candidate is accepted in turn and the
    search returns, for every agent, the last command sampled (0.02 m/s,
    0.052 rad/s) and the trajectory of the last candidate (96 rows), not
    the zero command and the single current state.  In [dwa_3d.py] itself
    no candidate can be scored at all: with a non-empty window the search
    raises [IndexError].  An empty window alone does not give the zero
    command either: the window [9.98, 0.8] of a robot at 10 m/s, sampled
    with a velocity resolution of zero, and the window [1e300, 0.8] of a
    robot at 1e300 m/s under the Config of the file, whose quotient
    [-1e302] is no length, make [np.arange] raise [ValueError]. *)
Lemma C4_counterexample :
  (exists (dw : list (list scalar)) (costs : list float),
      Flocking.calc_dynamic_window x_on_obstacle Flocking.config = Ok dw
      /\ flocking_candidate_costs example_libm 100 x_on_obstacle dw
           Flocking.config Flocking.goal1 (ob Flocking.config) = Ok costs
      /\ length costs = 240%nat
      /\ forallb (fun c => c =? infinity) costs = true)
  /\ (exists rows : list (list float),
         Flocking.dwa_control example_libm 100 x_on_obstacle Flocking.config
           Flocking.goal1 (ob Flocking.config)
         = Ok (repeat [0.019999999999999997; 0.052359877559829862] 6,
               Arr2 rows)
         /\ length rows = 96%nat)
  /\ Dwa3d.dwa_control example_libm 100 [12; -3; 1; 0; 0; 0; 0]
       Dwa3d.config [26.5; -5] (ob Dwa3d.config)
     = Raise IndexError
  /\ Dwa3d.calc_dynamic_window [0; 0; 0; 0; 10; 0; 0]
       (with_resolution Dwa3d.config 0 0.017453292519943295)
     = Ok [NpFloat 9.98; PyFloat 0.8;
           NpFloat (-0.069813170079773182); NpFloat 0.069813170079773182]
  /\ Dwa3d.dwa_control example_libm 100 [0; 0; 0; 0; 10; 0; 0]
       (with_resolution Dwa3d.config 0 0.017453292519943295)
       [26.5; -5] (ob Dwa3d.config)
     = Raise ValueError
  /\ Dwa3d.calc_dynamic_window [0; 0; 0; 0; 1e300; 0; 0] Dwa3d.config
     = Ok [NpFloat 1e300; PyFloat 0.8;
           NpFloat (-0.069813170079773182); NpFloat 0.069813170079773182]
  /\ Dwa3d.dwa_control example_libm 100 [0; 0; 0; 0; 1e300; 0; 0]
       Dwa3d.config [26.5; -5] (ob Dwa3d.config)
     = Raise ValueError.
Proof.
  split; [| split; [| split]].
  - do 2 eexists.
    split; [vm_compute; reflexivity |].
    split; [vm_compute; reflexivity |].
    split; vm_compute; reflexivity.
  - eexists. split; vm_compute; reflexivity.
  - vm_compute. reflexivity.
  - repeat split; vm_compute; reflexivity.
Qed.

(** C5 (fails on the code).  From the state [main] starts with, the
    command the multi-agent search selects for agent 0 is not the one the
    same window, search and score select on agent 0's own state alone: the
    search of the six agents returns a left turn (+0.052 rad/s), the search
    of agent 0 alone the sharpest right turn (-0.070 rad/s) towards the
    goal.  All forty candidates of agent 0 get one and the same cost in the
    multi-agent search, whatever trajectory they give agent 0: the goal
    and speed terms read the last row of the stacked trajectory, which is
    the row of agent 5, and [min_cost] is carried from one agent to the
    next. *)
Theorem C5_flocking_command_not_single_agent :
  (exists trajectory : ndarray,
      Flocking.dwa_control example_libm 100 Flocking.x_start
        Flocking.config Flocking.goal1 (ob Flocking.config)
      = Ok ([[0.019999999999999997; 0.052359877559829862];
             [0.019999999999999997; 0.052359877559829862];
             [0.019999999999999997; 0.052359877559829862];
             [0.019999999999999997; 0.052359877559829862];
             [-3.4694469519536142e-18; -0.69813170079773179];
             [0.019999999999999997; -1.3877787807814457e-17]],
            trajectory))
  /\ nth_error Flocking.x_start 0 = Some [1.0; -1.0; 0.0; 0.0; 0.0]
  /\ single_agent_control example_libm 100 [1.0; -1.0; 0.0; 0.0; 0.0]
       Flocking.config Flocking.goal1 (ob Flocking.config)
     = Ok [0.019999999999999997; -0.069813170079773182]
  /\ (exists (dw : list (list scalar)) (costs : list float),
         Flocking.calc_dynamic_window Flocking.x_start Flocking.config
         = Ok dw
         /\ flocking_candidate_costs example_libm 100 Flocking.x_start dw
              Flocking.config Flocking.goal1 (ob Flocking.config)
            = Ok costs
         /\ firstn 40 costs = repeat 0.9111111111111112 40).
Proof.
  split; [| split; [| split]].
  - eexists. vm_compute. reflexivity.
  - reflexivity.
  - vm_compute. reflexivity.
  - do 2 eexists.
    split; [vm_compute; reflexivity |].
    split; vm_compute; reflexivity.
Qed.

(** * What the costs of the multi-agent search read *)

Lemma last_cons_default {A : Type} (r : A) (t : list A) (d : A) :
  last (r :: t) d = last t r.
Proof.
  revert r d. induction t as [|a t IH]; intros r d; [reflexivity |].
  change (last (r :: a :: t) d) with (last (a :: t) d).
  rewrite (IH a d), (IH a r). reflexivity.
Qed.

Lemma last_app_nonempty {A : Type} (l l' : list A) (d : A) :
  l' <> [] -> last (l ++ l') d = last l' d.
Proof.
  intros H. induction l as [|a l IH]; [reflexivity |].
  cbn [app]. destruct (l ++ l') eqn:E.
  - destruct l; [cbn in E; congruence | discriminate].
  - rewrite <- E, <- IH. cbn. rewrite E. reflexivity.
Qed.

Lemma last_replace_nth {A : Type} (l : list A) (n : nat) (r d : A) :
  (S n < length l)%nat -> last (replace_nth l n r) d = last l d.
Proof.
  revert n. induction l as [|h t IH]; intros n H; cbn in H; [lia |].
  destruct n as [|n]; cbn [replace_nth].
  - destruct t; [cbn in H; lia | reflexivity].
  - assert (Ht : (S n < length t)%nat) by lia.
    specialize (IH n Ht).
    destruct t as [|a t]; [cbn in Ht; lia |].
    destruct n; cbn [replace_nth] in *; exact IH.
Qed.

Lemma getitem_last_rows (rows : list (list float)) (j : nat) :
  rows <> [] -> getitem_last (Arr2 rows) j = getitem (last rows []) j.
Proof.
  destruct rows as [|r t]; [congruence |]. intros _. cbn [getitem_last].
  rewrite last_cons_default. reflexivity.
Qed.

Section FlockingCostReads.
Variable M : Libm.

Lemma flocking_snapshots_last (x : list (list float)) (n : nat)
  (row : list float) (v w dt : float) (k : nat) :
  (S n < length x)%nat ->
  last (x ++ flocking_snapshots M x n row v w dt k) [] = last x [].
Proof.
  intros Hn. revert row. induction k as [|k IH]; intros row; cbn.
  - rewrite app_nil_r. reflexivity.
  - assert (Hx : x <> []) by (destruct x; [cbn in Hn; lia | discriminate]).
    rewrite last_app_nonempty.
    + specialize (IH (flocking_tick M row v w dt)).
      destruct k as [|k].
      * cbn. rewrite app_nil_r. apply last_replace_nth. exact Hn.
      * rewrite last_app_nonempty.
        -- rewrite last_app_nonempty in IH; [exact IH |].
           cbn. destruct (replace_nth x n _) eqn:E; [| discriminate].
           apply (f_equal (@length _)) in E.
           rewrite length_replace_nth in E. destruct x; cbn in *; congruence.
        -- cbn. destruct (replace_nth x n _) eqn:E; [| discriminate].
           apply (f_equal (@length _)) in E.
           rewrite length_replace_nth in E. destruct x; cbn in *; congruence.
    + destruct (replace_nth x n _) eqn:E; [| discriminate].
      apply (f_equal (@length _)) in E.
      rewrite length_replace_nth in E. destruct x; cbn in *; congruence.
Qed.

(** X2.  For every agent but the last one, the last row of a simulated
    trajectory is the row of the last agent, which the simulation of agent
    [n] does not move: it is that row the goal cost and the speed cost of
    the candidate are computed from.  (The headings of the ticks are
    accepted by [math.cos] and [math.sin].) *)
Lemma flocking_costs_read_last_agent (fuel k : nat) (config : Config)
  (n : nat) (v y : float) (x : list (list float)) (row : list float)
  (goal : list float) :
  nth_error x n = Some row -> (5 <= length row)%nat ->
  runs_for config 0 k -> (k < fuel)%nat -> (S n < length x)%nat ->
  headings_ok (nth 2 row 0) y (dt config) k = true ->
  exists rows : list (list float),
    Flocking.predict_trajectory M fuel x n v y config = Ok (Arr2 rows)
    /\ (forall j, getitem_last (Arr2 rows) j = getitem (last x []) j)
    /\ calc_to_goal_cost M (Arr2 rows) goal
       = calc_to_goal_cost M (Arr2 [last x []]) goal.
Proof.
  intros Hn Hlen Hrun Hfuel Hlast Hh.
  eexists. split.
  { rewrite (flocking_predict_trajectory_runs M fuel k config n v y x row)
      by assumption.
    rewrite Hh. reflexivity. }
  assert (L : forall j,
             getitem_last
               (Arr2 (x ++ flocking_snapshots M x n row v y (dt config) k)) j
             = getitem (last x []) j).
  { intros j. rewrite getitem_last_rows.
    - rewrite flocking_snapshots_last by assumption. reflexivity.
    - destruct x; [cbn in Hlast; lia | discriminate]. }
  split; [exact L |].
  unfold calc_to_goal_cost. rewrite !L. reflexivity.
Qed.

End FlockingCostReads.

(** * The anti-stall branch *)

Lemma for_each_identity {A S : Type} (body : S -> A -> res S) (l : list A) :
  (forall s a s', body s a = Ok s' -> s' = s) ->
  forall s s', for_each l body s = Ok s' -> s' = s.
Proof.
  intros H s s'.
  apply (for_each_invariant (fun t => t = s)); [| reflexivity].
  intros t a t' -> E. eapply H; exact E.
Qed.

Lemma for_each_invariant_in {A S : Type} (P : S -> Prop)
  (body : S -> A -> res S) (l : list A) :
  (forall s a s', In a l -> P s -> body s a = Ok s' -> P s') ->
  forall s s', P s -> for_each l body s = Ok s' -> P s'.
Proof.
  induction l as [|a l IH]; intros Hbody s s' Hs; cbn.
  - intros E. injection E as <-. exact Hs.
  - destruct (body s a) as [s1| |] eqn:E1; cbn; try discriminate.
    apply IH.
    + intros t b t' Hb. apply Hbody. right; exact Hb.
    + eapply Hbody; [left; reflexivity | exact Hs | exact E1].
Qed.

(** Two loops over the same list that keep a relation between their
    states. *)
Lemma for_each_simulation {A S T : Type} (R : S -> T -> Prop)
  (f : S -> A -> res S) (g : T -> A -> res T) (l : list A) :
  (forall s t a s', R s t -> f s a = Ok s' ->
                    exists t', g t a = Ok t' /\ R s' t') ->
  forall s t s', R s t -> for_each l f s = Ok s' ->
                 exists t', for_each l g t = Ok t' /\ R s' t'.
Proof.
  intros H. induction l as [|a l IH]; intros s t s' Hst; cbn.
  - intros E. injection E as <-. eauto.
  - destruct (f s a) as [s1| |] eqn:E1; cbn [bind]; try discriminate.
    destruct (H s t a s1 Hst E1) as [t1 [-> Hst1]]. cbn [bind].
    apply IH. exact Hst1.
Qed.

(** A loop that returns has run its passes before element [n], its pass
    on that element and its passes after it. *)
Lemma for_each_split_at {A T : Type} (body : T -> A -> res T) (l : list A) :
  forall (n : nat) (a : A) (s s' : T),
    nth_error l n = Some a -> for_each l body s = Ok s' ->
    exists s1 s2,
      for_each (firstn n l) body s = Ok s1
      /\ body s1 a = Ok s2
      /\ for_each (skipn (S n) l) body s2 = Ok s'.
Proof.
  induction l as [|b l IH]; intros [|n] a s s' Hn E; cbn in Hn;
    try discriminate.
  - injection Hn as ->. cbn in E.
    destruct (body s a) as [s2| |] eqn:E2; cbn in E; try discriminate.
    exists s, s2. cbn. auto.
  - cbn in E.
    destruct (body s b) as [s1| |] eqn:E1; cbn [bind] in E;
      try discriminate.
    destruct (IH n a s1 s' Hn E) as [t1 [t2 [H1 [H2 H3]]]].
    exists t1, t2. cbn [firstn for_each]. rewrite E1. cbn [bind]. auto.
Qed.

Lemma in_firstn_seq (k n s m : nat) :
  In m (firstn n (seq s k)) -> (m < s + n)%nat.
Proof.
  revert n s. induction k as [|k IH]; intros [|n] s; cbn; try tauto.
  intros [<- | H]; [lia |]. apply IH in H. lia.
Qed.

Lemma in_skipn_seq (k n s m : nat) :
  In m (skipn n (seq s k)) -> (s + n <= m)%nat.
Proof. rewrite skipn_seq. intros H. apply in_seq in H. lia. Qed.

Lemma dwa3d_search_body_not_ok (M : Libm) (fuel : nat) (x : list float)
  (config : Config) (goal : list float) (obs : ndarray)
  (st st' : Dwa3d.search_state) (v y : float) :
  Dwa3d.search_body M fuel x config goal obs st v y <> Ok st'.
Proof.
  unfold Dwa3d.search_body, Dwa3d.predict_trajectory.
  destruct fuel as [|fuel]; [discriminate |].
  destruct (0 <=? predict_time config) eqn:E.
  - destruct (dwa3d_predict_loop_raises M fuel config v y x (Arr1 x) 0 E)
      as [-> | ->]; discriminate.
  - cbn [Dwa3d.predict_loop]. rewrite E. cbn [bind].
    unfold final_cost, calc_to_goal_cost.
    destruct (getitem goal 0); discriminate.
Qed.

(** The search of [dwa_3d.py] takes no candidate: where it returns, it
    returns what it started from. *)
Lemma dwa3d_search_default (M : Libm) (fuel : nat) (x : list float)
  (dw : list scalar) (config : Config) (goal : list float) (obs : ndarray)
  (u : list float) (trajectory : ndarray) :
  Dwa3d.calc_control_and_trajectory M fuel x dw config goal obs
  = Ok (u, trajectory) ->
  u = [0.0; 0.0] /\ trajectory = Arr2 [x].
Proof.
  unfold Dwa3d.calc_control_and_trajectory.
  destruct (getitem dw 0) as [d0| |]; cbn [bind]; try discriminate.
  destruct (getitem dw 1) as [d1| |]; cbn [bind]; try discriminate.
  destruct (arange d0 d1 (v_resolution config)) as [vs| |];
    cbn [bind]; try discriminate.
  match goal with
  | |- (st <- for_each vs ?body ?init ;; _) = _ -> _ =>
      destruct (for_each vs body init) as [st| |] eqn:E
  end; cbn [bind]; try discriminate.
  apply for_each_identity in E.
  - subst st. intros R. injection R as <- <-. split; reflexivity.
  - intros s v s'.
    destruct (getitem dw 2) as [d2| |]; cbn [bind]; try discriminate.
    destruct (getitem dw 3) as [d3| |]; cbn [bind]; try discriminate.
    destruct (arange d2 d3 (yaw_rate_resolution config)) as [ys| |];
      cbn [bind]; try discriminate.
    apply for_each_identity.
    intros t y t' Ht. exfalso.
    exact (dwa3d_search_body_not_ok M fuel x config goal obs t t' v y Ht).
Qed.

Lemma nth_error_replace_nth_inv {A : Type} (l : list A) (n m : nat)
  (v u : A) :
  nth_error (replace_nth l n v) m = Some u ->
  (m = n /\ u = v) \/ (m <> n /\ nth_error l m = Some u).
Proof.
  destruct (Nat.eq_dec m n) as [-> | Hne].
  - intros H. left. split; [reflexivity |].
    revert n H. induction l as [|h t IH]; intros [|n]; cbn;
      try discriminate; try congruence. apply IH.
  - intros H. right. split; [exact Hne |].
    rewrite nth_error_replace_nth_neq in H by congruence. exact H.
Qed.

Lemma nth_error_replace_nth_here {A : Type} (l : list A) (n : nat) (v : A) :
  (n < length l)%nat -> nth_error (replace_nth l n v) n = Some v.
Proof.
  intros H. apply nth_error_Some in H.
  destruct (nth_error l n) as [w|] eqn:E; [| congruence].
  eapply nth_error_replace_nth_eq. exact E.
Qed.

(** The block that takes a candidate of agent [n]: it leaves the
    variables as they are when the cost is not at most [min_cost];
    otherwise it stores the cost and the trajectory, and in [best_u[n]]
    the command, whose yaw rate it replaces by the anti-stall rate exactly
    when the sampled velocity and the current velocity [x[n, 3]] are both
    below the threshold. *)
Lemma flocking_accept_candidate_spec (x : list (list float))
  (config : Config) (st st' : Flocking.search_state) (trajectory : ndarray)
  (n : nat) (cost v y : float) :
  Flocking.accept_candidate x config st trajectory n cost v y = Ok st' ->
  ((cost <=? Flocking.min_cost st) = false /\ st' = st)
  \/ ((cost <=? Flocking.min_cost st) = true
      /\ Flocking.min_cost st' = cost
      /\ Flocking.best_trajectory st' = trajectory
      /\ (n < length (Flocking.best_u st))%nat
      /\ exists w,
          Flocking.best_u st' = replace_nth (Flocking.best_u st) n [v; w]
          /\ flocking_stall_rule config x n v w
          /\ (w = y \/ w = - max_delta_yaw_rate config)).
Proof.
  unfold Flocking.accept_candidate, flocking_stall_rule.
  destruct (cost <=? Flocking.min_cost st).
  2:{ intros E. injection E as <-. left. split; reflexivity. }
  unfold getitem2 at 1.
  destruct (nth_error (replace_nth (Flocking.best_u st) n [v; y]) n)
    as [r|] eqn:En; [| discriminate].
  destruct (nth_error_replace_nth_inv _ _ _ _ _ En) as [[_ ->] | [Hc _]];
    [| congruence].
  assert (Hlt : (n < length (Flocking.best_u st))%nat).
  { rewrite <- (length_replace_nth _ n [v; y]).
    apply nth_error_Some. congruence. }
  cbn [getitem nth_error bind].
  destruct (abs v <? robot_stuck_flag_cons config) eqn:Ev.
  - destruct (getitem2 x n 3) as [xv| |] eqn:E3; cbn [bind];
      try discriminate.
    destruct (abs xv <? robot_stuck_flag_cons config) eqn:Ex.
    + unfold setitem2. rewrite En. cbn. rewrite replace_nth_twice.
      intros E. injection E as <-. right. cbn.
      repeat split; try assumption.
      exists (- max_delta_yaw_rate config).
      split; [reflexivity | split; [reflexivity | right; reflexivity]].
    + intros E. injection E as <-. right. cbn.
      repeat split; try assumption.
      exists y. split; [reflexivity | split; [| left; reflexivity]].
      intros _ xv' Hx' Hxv'. congruence.
  - intros E. injection E as <-. right. cbn.
    repeat split; try assumption.
    exists y. split; [reflexivity | split; [| left; reflexivity]].
    intros Hv'. congruence.
Qed.

Section FlockingSearch.
Variable M : Libm.
Variables (fuel : nat) (x : list (list float)) (dw : list (list scalar))
  (config : Config) (goal : list float) (obs : ndarray).

Lemma flocking_search_body_spec (st st' : Flocking.search_state) (n : nat)
  (v y : float) :
  Flocking.search_body M fuel x config goal obs st n v y = Ok st' ->
  exists trajectory cost,
    Flocking.predict_trajectory M fuel x n v y config = Ok trajectory
    /\ final_cost M config trajectory goal obs = Ok cost
    /\ Flocking.accept_candidate x config st trajectory n cost v y = Ok st'.
Proof.
  unfold Flocking.search_body.
  destruct (Flocking.predict_trajectory M fuel x n v y config)
    as [tr| |] eqn:Et; cbn [bind]; try discriminate.
  destruct (final_cost M config tr goal obs) as [c| |] eqn:Ec;
    cbn [bind]; try discriminate.
  intros E. exists tr, c.
  split; [reflexivity | split; [exact Ec | exact E]].
Qed.

(** The loops of an agent leave the commands of the other agents as they
    are, and the number of commands. *)
Lemma flocking_search_body_other (st st' : Flocking.search_state)
  (n m : nat) (v y : float) :
  Flocking.search_body M fuel x config goal obs st m v y = Ok st' ->
  length (Flocking.best_u st') = length (Flocking.best_u st)
  /\ (m <> n ->
      nth_error (Flocking.best_u st') n = nth_error (Flocking.best_u st) n).
Proof.
  intros E. apply flocking_search_body_spec in E.
  destruct E as [tr [c [_ [_ E]]]].
  apply flocking_accept_candidate_spec in E.
  destruct E as [[_ ->] | [_ [_ [_ [_ [w [-> _]]]]]]]; [auto |].
  split; [apply length_replace_nth |].
  intros Hne. apply nth_error_replace_nth_neq. exact Hne.
Qed.

Lemma flocking_search_agent_other (st st' : Flocking.search_state)
  (n m : nat) :
  Flocking.search_agent M fuel x dw config goal obs st m = Ok st' ->
  length (Flocking.best_u st') = length (Flocking.best_u st)
  /\ (m <> n ->
      nth_error (Flocking.best_u st') n = nth_error (Flocking.best_u st) n).
Proof.
  unfold Flocking.search_agent.
  destruct (getitem2 dw m 0) as [lo| |]; cbn [bind]; try discriminate.
  destruct (getitem2 dw m 1) as [hi| |]; cbn [bind]; try discriminate.
  destruct (arange lo hi (v_resolution config)) as [vs| |];
    cbn [bind]; try discriminate.
  apply (for_each_invariant
           (fun s => length (Flocking.best_u s) = length (Flocking.best_u st)
                     /\ (m <> n ->
                         nth_error (Flocking.best_u s) n
                         = nth_error (Flocking.best_u st) n)));
    [| split; reflexivity].
  intros s v s' Hs.
  destruct (getitem2 dw m 2) as [ylo| |]; cbn [bind]; try discriminate.
  destruct (getitem2 dw m 3) as [yhi| |]; cbn [bind]; try discriminate.
  destruct (arange ylo yhi (yaw_rate_resolution config)) as [ys| |];
    cbn [bind]; try discriminate.
  revert s s' Hs.
  apply (for_each_invariant
           (fun s => length (Flocking.best_u s) = length (Flocking.best_u st)
                     /\ (m <> n ->
                         nth_error (Flocking.best_u s) n
                         = nth_error (Flocking.best_u st) n))).
  intros s y s' [Hl Hn] E.
  destruct (flocking_search_body_other s s' n m v y E) as [Hl' Hn'].
  split; [congruence |]. intros Hne. rewrite Hn', Hn by exact Hne.
  reflexivity.
Qed.

Lemma flocking_search_body_agent (st0 st st' : Flocking.search_state)
  (costs : list float) (n : nat) (v y : float) :
  flocking_agent_inv config x n st0 st costs ->
  Flocking.search_body M fuel x config goal obs st n v y = Ok st' ->
  exists costs',
    (trajectory <- Flocking.predict_trajectory M fuel x n v y config ;;
     c <- final_cost M config trajectory goal obs ;;
     Ok (costs ++ [c])) = Ok costs'
    /\ flocking_agent_inv config x n st0 st' costs'.
Proof.
  intros Hinv E. apply flocking_search_body_spec in E.
  destruct E as [tr [c [Et [Ec E]]]].
  rewrite Et. cbn [bind]. rewrite Ec. cbn [bind].
  eexists. split; [reflexivity |].
  apply flocking_accept_candidate_spec in E.
  destruct E as [[Hc ->] | [Hc [_ [_ [Hlt [w [Hu [Hw _]]]]]]]].
  - destruct Hinv as [[-> Hall] | [[c0 [Hin Hc0]] Hbest]].
    + left. split; [reflexivity |].
      intros c' Hc'. apply in_app_or in Hc'.
      destruct Hc' as [Hc' | [<- | []]]; [apply Hall; exact Hc' | exact Hc].
    + right. split; [| exact Hbest].
      exists c0. split; [apply in_or_app; left; exact Hin | exact Hc0].
  - right. split.
    + destruct Hinv as [[-> Hall] | [[c0 [Hin Hc0]] _]].
      * exists c. split; [apply in_or_app; right; left; reflexivity |].
        exact Hc.
      * exists c0. split; [apply in_or_app; left; exact Hin | exact Hc0].
    + exists v, w. split; [| exact Hw].
      rewrite Hu. apply nth_error_replace_nth_here. exact Hlt.
Qed.

Lemma flocking_search_agent_agent (st0 st' : Flocking.search_state)
  (n : nat) :
  Flocking.search_agent M fuel x dw config goal obs st0 n = Ok st' ->
  exists costs,
    flocking_agent_costs M fuel x dw config goal obs [] n = Ok costs
    /\ flocking_agent_inv config x n st0 st' costs.
Proof.
  unfold Flocking.search_agent, flocking_agent_costs.
  destruct (getitem2 dw n 0) as [lo| |]; cbn [bind]; try discriminate.
  destruct (getitem2 dw n 1) as [hi| |]; cbn [bind]; try discriminate.
  destruct (arange lo hi (v_resolution config)) as [vs| |];
    cbn [bind]; try discriminate.
  apply (for_each_simulation (flocking_agent_inv config x n st0));
    [| left; split; [reflexivity | intros c []]].
  intros s t v s' Hst.
  destruct (getitem2 dw n 2) as [ylo| |]; cbn [bind]; try discriminate.
  destruct (getitem2 dw n 3) as [yhi| |]; cbn [bind]; try discriminate.
  destruct (arange ylo yhi (yaw_rate_resolution config)) as [ys| |];
    cbn [bind]; try discriminate.
  revert s t s' Hst.
  apply (for_each_simulation (flocking_agent_inv config x n st0)).
  intros s t y s' Hst. apply flocking_search_body_agent. exact Hst.
Qed.

(** Whenever the search of [dwa_flocking.py] returns, the command of
    agent [n] is the [[0.0, 0.0]] it started from, no candidate of the
    agent having been taken, or a command that has gone through the
    anti-stall rule. *)
Lemma flocking_anti_stall (us : list (list float)) (trajectory : ndarray) :
  Flocking.calc_control_and_trajectory M fuel x dw config goal obs
  = Ok (us, trajectory) ->
  forall n u,
    nth_error us n = Some u ->
    exists (st : Flocking.search_state) (costs : list float),
      for_each (firstn n Flocking.agents)
        (Flocking.search_agent M fuel x dw config goal obs)
        (flocking_init x) = Ok st
      /\ flocking_agent_costs M fuel x dw config goal obs [] n = Ok costs
      /\ ((u = [0.0; 0.0]
           /\ forall c, In c costs -> (c <=? Flocking.min_cost st) = false)
          \/ ((exists c, In c costs
                         /\ (c <=? Flocking.min_cost st) = true)
              /\ exists v w : float,
                  u = [v; w] /\ flocking_stall_rule config x n v w)).
Proof.
  unfold Flocking.calc_control_and_trajectory.
  change {| Flocking.min_cost := infinity;
            Flocking.best_u := map (fun _ => [0.0; 0.0]) Flocking.agents;
            Flocking.best_trajectory := Arr3 [x] |}
    with (flocking_init x).
  destruct (for_each Flocking.agents
              (Flocking.search_agent M fuel x dw config goal obs)
              (flocking_init x)) as [stf| |] eqn:E;
    cbn [bind]; try discriminate.
  intros R. injection R as <- <-. intros n u Hu.
  assert (L : length (Flocking.best_u stf) = 6%nat).
  { revert E.
    apply (for_each_invariant
             (fun s => length (Flocking.best_u s) = 6%nat));
      [| reflexivity].
    intros s m s' Hs Em.
    destruct (flocking_search_agent_other s s' 0 m Em) as [Hl _].
    congruence. }
  assert (Hn : (n < 6)%nat).
  { rewrite <- L. apply nth_error_Some. congruence. }
  assert (Ha : nth_error Flocking.agents n = Some n).
  { unfold Flocking.agents. rewrite nth_error_seq.
    destruct (Nat.ltb_spec n 6); [reflexivity | lia]. }
  destruct (for_each_split_at _ _ n n _ _ Ha E) as [s1 [s2 [E1 [E2 E3]]]].
  assert (U1 : nth_error (Flocking.best_u s1) n = Some [0.0; 0.0]).
  { revert E1.
    apply (for_each_invariant_in
             (fun s => nth_error (Flocking.best_u s) n = Some [0.0; 0.0])).
    - intros s m s' Hm Hs Em. apply in_firstn_seq in Hm.
      destruct (flocking_search_agent_other s s' n m Em) as [_ Hk].
      rewrite Hk by lia. exact Hs.
    - cbn [flocking_init Flocking.best_u]. rewrite nth_error_map, Ha.
      reflexivity. }
  assert (U3 : nth_error (Flocking.best_u stf) n
               = nth_error (Flocking.best_u s2) n).
  { revert E3.
    apply (for_each_invariant_in
             (fun s => nth_error (Flocking.best_u s) n
                       = nth_error (Flocking.best_u s2) n));
      [| reflexivity].
    intros s m s' Hm Hs Em. apply in_skipn_seq in Hm.
    destruct (flocking_search_agent_other s s' n m Em) as [_ Hk].
    rewrite Hk by lia. exact Hs. }
  destruct (flocking_search_agent_agent s1 s2 n E2) as [costs [Ec Hinv]].
  exists s1, costs. split; [exact E1 | split; [exact Ec |]].
  rewrite U3 in Hu.
  destruct Hinv as [[-> Hall] | [Hsome [v [w [Hvw Hrule]]]]].
  - left. split; [congruence | exact Hall].
  - right. split; [exact Hsome |]. exists v, w.
    split; [congruence | exact Hrule].
Qed.

End FlockingSearch.

(** C7 (amended).  The anti-stall rule is applied to a candidate when it
    is taken as the best one so far, not to the command the search
    returns.  In both files the block that takes a candidate [(v, y)]
    stores the command [[v, w]] where [w] is [- max_delta_yaw_rate] if
    [abs v] and the absolute value of the robot's current linear velocity
    ([x[4]] in [dwa_3d.py], [x[n, 3]] for agent [n] in [dwa_flocking.py])
    are both below [robot_stuck_flag_cons], and the sampled [y] otherwise.
    So whenever the search of [dwa_flocking.py] returns, the command of
    agent [n] is either the [[0.0, 0.0]] the search started from, no
    candidate of the agent having been taken (no cost of the agent was at
    most the [min_cost] its loops started with), or a taken candidate
    [[v, w]] under the rule.  The search of [dwa_3d.py] returns only when
    it has taken no candidate, with [[0.0, 0.0]]. *)
Theorem C7_anti_stall_on_accepted_candidate :
  forall (M : Libm) (fuel : nat) (config : Config) (goal : list float)
         (obs : ndarray),
    (forall (x : list float) (st st' : Dwa3d.search_state)
            (trajectory : ndarray) (cost v y : float),
        Dwa3d.accept_candidate x config st trajectory cost v y = Ok st' ->
        ((cost <=? Dwa3d.min_cost st) = false /\ st' = st)
        \/ ((cost <=? Dwa3d.min_cost st) = true
            /\ exists w,
                Dwa3d.best_u st' = [v; w]
                /\ ((abs v <? robot_stuck_flag_cons config) = true ->
                    forall x4,
                      getitem x 4 = Ok x4 ->
                      (abs x4 <? robot_stuck_flag_cons config) = true ->
                      w = - max_delta_yaw_rate config)
                /\ (w = y \/ w = - max_delta_yaw_rate config)))
    /\ (forall (x : list float) (dw : list scalar) (u : list float)
               (trajectory : ndarray),
           Dwa3d.calc_control_and_trajectory M fuel x dw config goal obs
           = Ok (u, trajectory) ->
           u = [0.0; 0.0] /\ trajectory = Arr2 [x])
    /\ (forall (x : list (list float)) (dw : list (list scalar))
               (us : list (list float)) (trajectory : ndarray),
           Flocking.calc_control_and_trajectory M fuel x dw config goal obs
           = Ok (us, trajectory) ->
           forall (n : nat) (u : list float),
             nth_error us n = Some u ->
             exists (st : Flocking.search_state) (costs : list float),
               for_each (firstn n Flocking.agents)
                 (Flocking.search_agent M fuel x dw config goal obs)
                 (flocking_init x) = Ok st
               /\ flocking_agent_costs M fuel x dw config goal obs [] n
                  = Ok costs
               /\ ((u = [0.0; 0.0]
                    /\ forall c, In c costs ->
                                 (c <=? Flocking.min_cost st) = false)
                   \/ ((exists c, In c costs
                                  /\ (c <=? Flocking.min_cost st) = true)
                       /\ exists v w : float,
                           u = [v; w]
                           /\ ((abs v <? robot_stuck_flag_cons config)
                               = true ->
                               forall xv,
                                 getitem2 x n 3 = Ok xv ->
                                 (abs xv <? robot_stuck_flag_cons config)
                                 = true ->
                                 w = - max_delta_yaw_rate config)))).
Proof.
  intros M fuel config goal obs. split; [| split].
  - intros x st st' trajectory cost v y H.
    apply dwa3d_accept_candidate_spec in H.
    destruct H as [H | [Hc [_ [_ H]]]]; [left; exact H |].
    right. split; assumption.
  - intros x dw u trajectory. apply dwa3d_search_default.
  - intros x dw us trajectory H n u Hn.
    exact (flocking_anti_stall M fuel x dw config goal obs us trajectory
             H n u Hn).
Qed.

(** From the state the multi-agent [main] starts with, the search takes
    for agent 4 a candidate of linear velocity -3.5e-18 m/s; the agent is
    at rest, and the yaw rate returned is [- max_delta_yaw_rate],
    -0.698 rad/s.  In [dwa_3d.py] the block, given a candidate of
    velocity 0 for a robot at rest, stores the same yaw rate. *)
Lemma C7_anti_stall_on_accepted_candidate_witness :
  (exists (st : Flocking.search_state) (costs : list float),
      for_each (firstn 4 Flocking.agents)
        (Flocking.search_agent example_libm 100 Flocking.x_start
           (repeat window_at_rest 6)
           Flocking.config Flocking.goal1 (ob Flocking.config))
        (flocking_init Flocking.x_start) = Ok st
      /\ flocking_agent_costs example_libm 100 Flocking.x_start
           (repeat window_at_rest 6)
           Flocking.config Flocking.goal1 (ob Flocking.config) [] 4
         = Ok costs
      /\ (([-3.4694469519536142e-18; -0.69813170079773179] = [0.0; 0.0]
           /\ forall c, In c costs -> (c <=? Flocking.min_cost st) = false)
          \/ ((exists c, In c costs
                         /\ (c <=? Flocking.min_cost st) = true)
              /\ exists v w : float,
                  [-3.4694469519536142e-18; -0.69813170079773179] = [v; w]
                  /\ ((abs v <? robot_stuck_flag_cons Flocking.config)
                      = true ->
                      forall xv,
                        getitem2 Flocking.x_start 4 3 = Ok xv ->
                        (abs xv <? robot_stuck_flag_cons Flocking.config)
                        = true ->
                        w = - max_delta_yaw_rate Flocking.config))))
  /\ (((1 <=? infinity) = false
       /\ {| Dwa3d.min_cost := 1; Dwa3d.best_u := [0; -0.69813170079773179];
             Dwa3d.best_trajectory := Arr2 [] |}
          = dwa3d_init [0; 0; 0; 0; 0; 0; 0])
      \/ ((1 <=? infinity) = true
          /\ exists w,
              [0; -0.69813170079773179] = [0; w]
              /\ ((abs 0 <? robot_stuck_flag_cons Dwa3d.config) = true ->
                  forall x4,
                    getitem [0; 0; 0; 0; 0; 0; 0] 4 = Ok x4 ->
                    (abs x4 <? robot_stuck_flag_cons Dwa3d.config) = true ->
                    w = - max_delta_yaw_rate Dwa3d.config)
              /\ (w = 0.05 \/ w = - max_delta_yaw_rate Dwa3d.config))).
Proof.
  split.
  - refine (proj2 (proj2 (C7_anti_stall_on_accepted_candidate example_libm
                            100 Flocking.config Flocking.goal1
                            (ob Flocking.config)))
              Flocking.x_start _
              [[0.019999999999999997; 0.052359877559829862];
               [0.019999999999999997; 0.052359877559829862];
               [0.019999999999999997; 0.052359877559829862];
               [0.019999999999999997; 0.052359877559829862];
               [-3.4694469519536142e-18; -0.69813170079773179];
               [0.019999999999999997; -1.3877787807814457e-17]]
              _ _ 4%nat _ eq_refl).
    vm_compute. reflexivity.
  - exact (proj1 (C7_anti_stall_on_accepted_candidate example_libm 100
                    Dwa3d.config [26.5; -5] (ob Dwa3d.config))
             [0; 0; 0; 0; 0; 0; 0] (dwa3d_init [0; 0; 0; 0; 0; 0; 0])
             {| Dwa3d.min_cost := 1;
                Dwa3d.best_u := [0; -0.69813170079773179];
                Dwa3d.best_trajectory := Arr2 [] |}
             (Arr2 []) 1 0 0.05 eq_refl).
Defined.

(** C7 as stated fails: for the state at rest but turning at 10 rad/s the
    window is empty in yaw rate, no candidate is enumerated, and
    [dwa_control] returns the command [[0.0, 0.0]]: the returned linear
    velocity and the current one are both below the threshold, and the
    returned yaw rate is 0, not [- max_delta_yaw_rate]. *)
Lemma C7_counterexample :
  Dwa3d.calc_dynamic_window [0; 0; 1; 0; 0; 10; 0] Dwa3d.config
  = Ok [NpFloat (-0.020000000000000004); NpFloat 0.020000000000000004;
        NpFloat 9.9301868299202276; PyFloat 1.0471975511965976]
  /\ Dwa3d.dwa_control example_libm 100 [0; 0; 1; 0; 0; 10; 0] Dwa3d.config
       [26.5; -5] (ob Dwa3d.config)
     = Ok ([0.0; 0.0], Arr2 [[0; 0; 1; 0; 0; 10; 0]])
  /\ (abs 0.0 <? robot_stuck_flag_cons Dwa3d.config) = true
  /\ getitem [0; 0; 1; 0; 0; 10; 0] 4 = Ok 0
  /\ (abs 0 <? robot_stuck_flag_cons Dwa3d.config) = true
  /\ (0.0 =? - max_delta_yaw_rate Dwa3d.config) = false.
Proof. repeat split. Qed.

(** * Further properties of the two files *)

(** X1.  One tick of the motion model of [dwa_flocking.py] on agent [n]:
    [heading += w * dt], then [x += v * cos(heading) * dt] and
    [y += v * sin(heading) * dt] with the new heading, and the two
    velocity fields overwritten with [(v, w)]; any further column and every
    other row are kept.  (The new heading is one that [math.cos] and
    [math.sin] accept.) *)
Theorem flocking_motion_updates_fields :
  forall (M : Libm) (x : list (list float)) (n : nat)
         (px py heading v0 w0 : float) (rest : list float)
         (v w dt : float),
    nth_error x n = Some (px :: py :: heading :: v0 :: w0 :: rest) ->
    math_ok (heading + w * dt) = true ->
    Flocking.motion M x n [v; w] dt
    = Ok (replace_nth x n
            ((px + v * cos M (heading + w * dt) * dt)
               :: (py + v * sin M (heading + w * dt) * dt)
               :: (heading + w * dt) :: v :: w :: rest)).
Proof.
  intros M x n px py heading v0 w0 rest v w t Hn Hm.
  rewrite (flocking_motion_row M x n _ v w t Hn) by (cbn; lia).
  cbn [nth]. rewrite Hm. reflexivity.
Qed.

Lemma flocking_motion_updates_fields_witness :
  Flocking.motion example_libm Flocking.x_start 1 [0.5; 0] 0.1
  = Ok (replace_nth Flocking.x_start 1
          [1.0 + 0.5 * cos example_libm (0.0 + 0 * 0.1) * 0.1;
           -3.0 + 0.5 * sin example_libm (0.0 + 0 * 0.1) * 0.1;
           0.0 + 0 * 0.1; 0.5; 0]).
Proof.
  apply (flocking_motion_updates_fields example_libm Flocking.x_start 1
           1.0 (-3.0) 0.0 0.0 0.0 [] 0.5 0 0.1).
  - reflexivity.
  - reflexivity.
Defined.

Lemma flocking_costs_read_last_agent_witness :
  exists rows : list (list float),
    Flocking.predict_trajectory example_libm 100 Flocking.x_start 0
      0.02 0.05 Flocking.config = Ok (Arr2 rows)
    /\ (forall j, getitem_last (Arr2 rows) j
                  = getitem (last Flocking.x_start []) j)
    /\ calc_to_goal_cost example_libm (Arr2 rows) Flocking.goal1
       = calc_to_goal_cost example_libm
           (Arr2 [last Flocking.x_start []]) Flocking.goal1.
Proof.
  apply (flocking_costs_read_last_agent example_libm 100 15 Flocking.config
           0 0.02 0.05 Flocking.x_start [1.0; -1.0; 0.0; 0.0; 0.0]).
  - reflexivity.
  - simpl. lia.
  - split.
    + intros i Hi.
      do 15 (destruct i as [|i]; [reflexivity |]). lia.
    + reflexivity.
  - lia.
  - simpl. lia.
  - reflexivity.
Defined.

(** X4.  In [dwa_3d.py] the search returns only when it has scored no
    candidate, and then with the command and the trajectory it started
    from: every candidate it simulates raises in the motion model, or, when
    the loop of the simulator is not entered, in the goal cost, which
    indexes the one-dimensional trajectory with two indices. *)
Theorem dwa3d_search_returns_only_default :
  forall (M : Libm) (fuel : nat) (x : list float) (dw : list scalar)
         (config : Config) (goal : list float) (obs : ndarray)
         (u : list float) (trajectory : ndarray),
    Dwa3d.calc_control_and_trajectory M fuel x dw config goal obs
    = Ok (u, trajectory) ->
    u = [0.0; 0.0] /\ trajectory = Arr2 [x].
Proof.
  intros M fuel x dw config goal obs u trajectory.
  apply dwa3d_search_default.
Qed.

Lemma dwa3d_search_returns_only_default_witness :
  [0.0; 0.0] = [0.0; 0.0]
  /\ Arr2 [[0; 0; 1; 0; 0; 10; 0]] = Arr2 [[0; 0; 1; 0; 0; 10; 0]].
Proof.
  apply (dwa3d_search_returns_only_default example_libm 100
           [0; 0; 1; 0; 0; 10; 0]
           [NpFloat (-0.020000000000000004); NpFloat 0.020000000000000004;
            NpFloat 9.9301868299202276; PyFloat 1.0471975511965976]
           Dwa3d.config [26.5; -5] (ob Dwa3d.config)).
  reflexivity.
Defined.

(** * The shapes the functions need *)

Lemma getitem_ok_length (l : list float) (i : nat) (v : float) :
  getitem l i = Ok v -> (i < length l)%nat.
Proof.
  unfold getitem. destruct (nth_error l i) eqn:E; [| discriminate].
  intros _. apply nth_error_Some. congruence.
Qed.

Lemma getitem_long (l : list float) (i : nat) :
  (i < length l)%nat -> exists v, getitem l i = Ok v.
Proof.
  intros H. unfold getitem. destruct (nth_error l i) eqn:E; [eauto |].
  apply nth_error_None in E. lia.
Qed.

Lemma getitem_nth (l : list float) (j : nat) :
  (j < length l)%nat -> getitem l j = Ok (nth j l 0).
Proof.
  intros H. unfold getitem.
  destruct (nth_error l j) eqn:E; [| apply nth_error_None in E; lia].
  rewrite (nth_error_nth _ _ 0 E). reflexivity.
Qed.

Lemma getitem_ok_nth (l : list float) (j : nat) (v : float) :
  getitem l j = Ok v -> v = nth j l 0.
Proof.
  intros H. pose proof (getitem_ok_length l j v H) as Hj.
  rewrite (getitem_nth l j Hj) in H. congruence.
Qed.

Lemma setitem_ok (l l' : list float) (i : nat) (v : float) :
  setitem l i v = Ok l' -> (i < length l)%nat /\ length l' = length l.
Proof.
  unfold setitem. destruct (i <? length l)%nat eqn:E; [| discriminate].
  intros H. injection H as <-. apply Nat.ltb_lt in E.
  split; [exact E | apply length_replace_nth].
Qed.

Lemma getitem2_ok (x : list (list float)) (n j : nat) (v : float) :
  getitem2 x n j = Ok v ->
  exists row, nth_error x n = Some row /\ (j < length row)%nat.
Proof.
  unfold getitem2. destruct (nth_error x n) as [row|]; [| discriminate].
  intros H. apply getitem_ok_length in H. eauto.
Qed.

Lemma getitem2_index_only (x : list (list float)) (n j : nat) :
  index_only (getitem2 x n j).
Proof.
  unfold getitem2. destruct (nth_error x n);
    [apply getitem_index_only | right; reflexivity].
Qed.

Lemma setitem2_index_only (x : list (list float)) (n j : nat) (v : float) :
  index_only (setitem2 x n j v).
Proof.
  unfold setitem2. destruct (nth_error x n); [| right; reflexivity].
  apply bind_index_only; [apply setitem_index_only | intros; left; eauto].
Qed.

Lemma setitem2_ok (x x' : list (list float)) (n j : nat) (v : float) :
  setitem2 x n j v = Ok x' ->
  exists row, nth_error x n = Some row /\ (j < length row)%nat
              /\ x' = replace_nth x n (replace_nth row j v).
Proof.
  unfold setitem2. destruct (nth_error x n) as [row|]; [| discriminate].
  destruct (setitem row j v) as [row'| |] eqn:E; cbn [bind];
    try discriminate.
  intros H. injection H as <-.
  unfold setitem in E. destruct (j <? length row)%nat eqn:L; [| discriminate].
  injection E as <-. apply Nat.ltb_lt in L. eauto.
Qed.

Lemma in_replace_nth {A : Type} (l : list A) (n : nat) (v r : A) :
  In r (replace_nth l n v) -> r = v \/ In r l.
Proof.
  revert n. induction l as [|h t IH]; intros [|n]; cbn; try tauto.
  - intros [<- | H]; auto.
  - intros [<- | H]; auto. destruct (IH n H); auto.
Qed.

Lemma last_in {A : Type} (l : list A) (d : A) : l <> [] -> In (last l d) l.
Proof.
  induction l as [|a l IH]; [congruence |]. intros _.
  destruct l as [|b l]; [left; reflexivity |].
  right. apply IH. discriminate.
Qed.

(** On a state of fewer than seven fields or a command of fewer than
    three entries the motion model of [dwa_3d.py] raises [IndexError]. *)
Lemma dwa3d_motion_short (M : Libm) (x u : list float) (t : float) :
  math_ok (nth 3 x 0 + nth 1 u 0 * t) = true ->
  (length x < 7)%nat \/ (length u < 3)%nat ->
  Dwa3d.motion M x u t = Raise IndexError.
Proof.
  intros H Hs. unfold Dwa3d.motion, math_cos, math_sin.
  destruct x as [|x0 [|x1 [|x2 [|x3 [|x4 [|x5 [|x6 rest]]]]]]];
    destruct u as [|u0 [|u1 [|u2 ur]]];
    cbn in Hs; try lia; cbn [nth] in H; cbn;
    repeat (rewrite H; cbn); reflexivity.
Qed.

(** X5.  The shapes [dwa_3d.py] needs.  The window computation returns
    exactly on a state of at least six fields, and the motion model (for
    a new heading that [math.cos] and [math.sin] accept) exactly on a
    state of at least seven fields with a command of at least three
    entries: then the tick keeps the length of the state, stores the
    constant 1 at index 2 whatever the altitude velocity [u[2]], the
    command at indices 4, 5 and 6, and keeps the fields from index 7 on.
    On anything shorter both raise [IndexError]. *)
Theorem dwa3d_shapes_required :
  forall (M : Libm) (config : Config) (x u : list float) (dt : float),
    math_ok (nth 3 x 0 + nth 1 u 0 * dt) = true ->
    ((6 <= length x)%nat ->
     exists dw, Dwa3d.calc_dynamic_window x config = Ok dw
                /\ length dw = 4%nat)
    /\ ((length x < 6)%nat ->
        Dwa3d.calc_dynamic_window x config = Raise IndexError)
    /\ ((7 <= length x)%nat /\ (3 <= length u)%nat ->
        exists x', Dwa3d.motion M x u dt = Ok x'
                   /\ length x' = length x
                   /\ getitem x' 2 = Ok 1
                   /\ getitem x' 4 = getitem u 0
                   /\ getitem x' 5 = getitem u 1
                   /\ getitem x' 6 = getitem u 2
                   /\ forall i, (7 <= i)%nat ->
                                nth_error x' i = nth_error x i)
    /\ ((length x < 7)%nat \/ (length u < 3)%nat ->
        Dwa3d.motion M x u dt = Raise IndexError).
Proof.
  intros M config x u t Hm. split; [| split; [| split]].
  - intros Hx. unfold Dwa3d.calc_dynamic_window.
    rewrite !getitem_nth by lia. cbn [bind].
    eexists. split; reflexivity.
  - intros Hx. unfold Dwa3d.calc_dynamic_window.
    apply bind_index_error; [apply getitem_index_only | intros a].
    apply bind_index_error; [apply getitem_index_only | intros b].
    destruct (getitem_index_only x 5) as [[c E] | E]; rewrite E;
      [| reflexivity].
    apply getitem_ok_length in E. lia.
  - intros [Hx Hu].
    destruct x as [|x0 [|x1 [|x2 [|x3 [|x4 [|x5 [|x6 rest]]]]]]];
      cbn in Hx; try lia.
    destruct u as [|u0 [|u1 [|u2 urest]]]; cbn in Hu; try lia.
    cbn [nth] in Hm.
    unfold Dwa3d.motion, math_cos, math_sin. cbn.
    repeat (rewrite Hm; cbn).
    eexists. split; [reflexivity |].
    repeat split.
    intros i Hi. do 7 (destruct i as [|i]; [lia |]). reflexivity.
  - intros Hshort. apply dwa3d_motion_short; assumption.
Qed.

Lemma flocking_tick_fields (M : Libm) (row : list float) (v w dt : float) :
  (5 <= length row)%nat ->
  getitem (flocking_tick M row v w dt) 3 = Ok v
  /\ getitem (flocking_tick M row v w dt) 4 = Ok w.
Proof.
  destruct row as [|a [|b [|c [|d [|e rest]]]]]; cbn; try lia.
  intros _. split; reflexivity.
Qed.

(** A command of more than two entries: the further ones are not read. *)
Lemma flocking_motion_long_command (M : Libm) (x : list (list float))
  (n : nat) (row : list float) (v w : float) (more : list float)
  (t : float) :
  nth_error x n = Some row -> (5 <= length row)%nat ->
  Flocking.motion M x n (v :: w :: more) t
  = if math_ok (nth 2 row 0 + w * t)
    then Ok (replace_nth x n (flocking_tick M row v w t))
    else Raise ValueError.
Proof.
  intros Hn Hlen.
  destruct row as [|a [|b [|c [|d [|e rest]]]]]; cbn in Hlen; try lia.
  unfold Flocking.motion, getitem2, setitem2, math_cos, math_sin.
  rewrite Hn. cbn [nth].
  destruct (math_ok (c + w * t)) eqn:E; cbn;
    repeat (first [ rewrite replace_nth_twice
                  | rewrite E
                  | erewrite nth_error_replace_nth_eq by eassumption ];
            cbn);
    reflexivity.
Qed.

(** With no row [n], a row of fewer than five fields or a command of
    fewer than two entries the motion model of [dwa_flocking.py] raises
    [IndexError]. *)
Lemma flocking_motion_short (M : Libm) (x : list (list float)) (n : nat)
  (u : list float) (t : float) :
  (forall row, nth_error x n = Some row ->
               math_ok (nth 2 row 0 + nth 1 u 0 * t) = true) ->
  nth_error x n = None
  \/ (exists row, nth_error x n = Some row /\ (length row < 5)%nat)
  \/ (length u < 2)%nat ->
  Flocking.motion M x n u t = Raise IndexError.
Proof.
  intros Hm Hs.
  unfold Flocking.motion, getitem2, setitem2, math_cos, math_sin.
  destruct (nth_error x n) as [row|] eqn:Hn; [| reflexivity].
  specialize (Hm row eq_refl).
  assert (Hs' : (length row < 5)%nat \/ (length u < 2)%nat).
  { destruct Hs as [Hs | [[r [Hr Hs]] | Hs]];
      [discriminate | left; congruence | right; exact Hs]. }
  clear Hs.
  destruct row as [|a [|b [|c [|d [|e rest]]]]];
    destruct u as [|u0 [|u1 ur]];
    cbn in Hs'; try lia; cbn [nth] in Hm; cbn;
    repeat (first [ rewrite replace_nth_twice
                  | rewrite Hm
                  | erewrite nth_error_replace_nth_eq by eassumption ];
            cbn);
    reflexivity.
Qed.

(** X6.  The shapes the motion model of [dwa_flocking.py] needs.  It
    returns exactly when agent [n] has a row of at least five fields and
    the command at least two entries: then it keeps the number of rows and
    every row but [n], and the velocity fields of row [n] hold the first
    two entries of the command.  With no row [n], a shorter row or a
    shorter command it raises [IndexError].  The new heading is one
    that [math.cos] and [math.sin] accept. *)
Theorem flocking_motion_domain :
  forall (M : Libm) (x : list (list float)) (n : nat) (u : list float)
         (dt : float),
    (forall row, nth_error x n = Some row ->
                 math_ok (nth 2 row 0 + nth 1 u 0 * dt) = true) ->
    (forall row, nth_error x n = Some row -> (5 <= length row)%nat ->
                 (2 <= length u)%nat ->
                 exists x', Flocking.motion M x n u dt = Ok x'
                            /\ length x' = length x
                            /\ (forall m, m <> n ->
                                          nth_error x' m = nth_error x m)
                            /\ getitem2 x' n 3 = getitem u 0
                            /\ getitem2 x' n 4 = getitem u 1)
    /\ (nth_error x n = None
        \/ (exists row, nth_error x n = Some row /\ (length row < 5)%nat)
        \/ (length u < 2)%nat ->
        Flocking.motion M x n u dt = Raise IndexError).
Proof.
  intros M x n u t Hm. split.
  - intros row Hn Hrow Hu.
    destruct u as [|v [|w more]]; cbn in Hu; try lia.
    rewrite (flocking_motion_long_command M x n row v w more t Hn Hrow).
    specialize (Hm row Hn). cbn [nth] in Hm. rewrite Hm.
    eexists. split; [reflexivity |].
    split; [apply length_replace_nth |].
    split; [intros m Hne; apply nth_error_replace_nth_neq; congruence |].
    unfold getitem2. rewrite (nth_error_replace_nth_eq _ _ _ _ Hn).
    apply flocking_tick_fields. exact Hrow.
  - intros Hshort. apply flocking_motion_short; assumption.
Qed.

(** * The dynamic window of the six agents *)

Lemma flock_shaped_row (x : list (list float)) (n : nat) :
  flock_shaped x -> (n < 6)%nat ->
  exists row, nth_error x n = Some row /\ (5 <= length row)%nat.
Proof.
  intros [Hlen Hrows] Hn.
  destruct (nth_error x n) as [row|] eqn:E.
  - exists row. split; [reflexivity |]. apply Hrows.
    eapply nth_error_In; exact E.
  - apply nth_error_None in E. lia.
Qed.

Lemma flock_shaped_replace (x : list (list float)) (n : nat)
  (row : list float) :
  flock_shaped x -> (5 <= length row)%nat ->
  flock_shaped (replace_nth x n row).
Proof.
  intros [Hlen Hrows] Hrow.
  split; [rewrite length_replace_nth; exact Hlen |].
  intros r Hr. apply in_replace_nth in Hr.
  destruct Hr as [-> | Hr]; [exact Hrow | apply Hrows; exact Hr].
Qed.

Lemma in_agents (n : nat) : In n Flocking.agents <-> (n < 6)%nat.
Proof. unfold Flocking.agents. rewrite in_seq. lia. Qed.

Lemma getitem2_shaped (x : list (list float)) (n j : nat) :
  flock_shaped x -> (n < 6)%nat -> (j < 5)%nat ->
  exists v, getitem2 x n j = Ok v.
Proof.
  intros Hx Hn Hj. destruct (flock_shaped_row x n Hx Hn) as [row [E Hrow]].
  unfold getitem2. rewrite E. apply getitem_long. lia.
Qed.

Lemma flocking_window_shaped (x : list (list float)) (config : Config) :
  flock_shaped x ->
  Flocking.calc_dynamic_window x config
  = Ok (map (flocking_window_of config) (firstn 6 x)).
Proof.
  intros [Hlen Hrows].
  destruct x as [|r0 [|r1 [|r2 [|r3 [|r4 [|r5 rest]]]]]]; cbn in Hlen;
    try lia.
  assert (H0 : (5 <= length r0)%nat) by (apply Hrows; cbn; tauto).
  assert (H1 : (5 <= length r1)%nat) by (apply Hrows; cbn; tauto).
  assert (H2 : (5 <= length r2)%nat) by (apply Hrows; cbn; tauto).
  assert (H3 : (5 <= length r3)%nat) by (apply Hrows; cbn; tauto).
  assert (H4 : (5 <= length r4)%nat) by (apply Hrows; cbn; tauto).
  assert (H5 : (5 <= length r5)%nat) by (apply Hrows; cbn; tauto).
  unfold Flocking.calc_dynamic_window, Flocking.agents.
  cbn [seq for_each]. unfold Flocking.Vd_row, getitem2.
  cbn [nth_error]. rewrite !getitem_nth by lia. reflexivity.
Qed.

Lemma flocking_Vd_row_index_only (x : list (list float)) (config : Config)
  (n : nat) : index_only (Flocking.Vd_row x config n).
Proof.
  unfold Flocking.Vd_row.
  repeat (apply bind_index_only; [apply getitem2_index_only | intros ?]).
  left. eauto.
Qed.

Lemma flocking_Vd_row_short (x : list (list float)) (config : Config)
  (n : nat) :
  getitem2 x n 4 = Raise IndexError ->
  Flocking.Vd_row x config n = Raise IndexError.
Proof.
  intros H. unfold Flocking.Vd_row.
  apply bind_index_error; [apply getitem2_index_only | intros a].
  apply bind_index_error; [apply getitem2_index_only | intros b].
  rewrite H. reflexivity.
Qed.

Lemma for_each_collect_raises {A B : Type} (f : A -> res B) (l : list A)
  (a : A) :
  (forall a', index_only (f a')) -> In a l -> f a = Raise IndexError ->
  forall acc,
    for_each l (fun acc a' => r <- f a' ;; Ok (acc ++ [r])) acc
    = Raise IndexError.
Proof.
  intros Hf. induction l as [|a' l IH]; intros Hin Ha acc; [destruct Hin |].
  cbn. destruct Hin as [-> | Hin].
  - rewrite Ha. reflexivity.
  - destruct (Hf a') as [[b ->] | ->]; cbn [bind]; [| reflexivity].
    apply IH; assumption.
Qed.

(** X7.  The window computation of [dwa_flocking.py] on a state array
    with six agents of five fields returns six windows, the window of
    agent [n] being computed from the two velocity fields of row [n]
    alone (rows beyond the sixth are not read); if one of the six agents
    has no row or no angular-velocity field, it raises [IndexError]. *)
Theorem flocking_dynamic_window_rows :
  forall (x : list (list float)) (config : Config),
    (flock_shaped x ->
     exists dws : list (list scalar),
       Flocking.calc_dynamic_window x config = Ok dws
       /\ length dws = 6%nat
       /\ forall n row, (n < 6)%nat -> nth_error x n = Some row ->
                        nth_error dws n
                        = Some (flocking_window_of config row))
    /\ ((exists n, (n < 6)%nat /\ getitem2 x n 4 = Raise IndexError) ->
        Flocking.calc_dynamic_window x config = Raise IndexError).
Proof.
  intros x config. split.
  - intros Hx. rewrite (flocking_window_shaped x config Hx).
    eexists. split; [reflexivity |].
    destruct Hx as [Hlen _].
    split; [rewrite length_map, length_firstn; lia |].
    intros n row Hn En.
    rewrite nth_error_map, nth_error_firstn.
    apply Nat.ltb_lt in Hn. rewrite Hn, En. reflexivity.
  - intros [n [Hn Hshort]]. unfold Flocking.calc_dynamic_window.
    rewrite (for_each_collect_raises (Flocking.Vd_row x config)
               Flocking.agents n).
    + reflexivity.
    + intros a. apply flocking_Vd_row_index_only.
    + apply in_agents. exact Hn.
    + apply flocking_Vd_row_short. exact Hshort.
Qed.

Lemma py_max_lower (a b : scalar) :
  is_nan (value a) = false -> (value a <=? value (py_max a b)) = true.
Proof.
  intros Ha. unfold py_max. destruct (value a <? value b) eqn:E.
  - apply ltb_leb. exact E.
  - apply leb_refl. exact Ha.
Qed.

Lemma py_min_upper (a b : scalar) :
  is_nan (value a) = false -> (value (py_min a b) <=? value a) = true.
Proof.
  intros Ha. unfold py_min. destruct (value b <? value a) eqn:E.
  - apply ltb_leb. exact E.
  - apply leb_refl. exact Ha.
Qed.

Lemma is_nan_opp (a : float) : is_nan a = false -> is_nan (- a) = false.
Proof.
  rewrite !is_nan_spec, FloatAxioms.opp_spec.
  destruct (Prim2SF a); cbn; congruence.
Qed.

Lemma dw_row_within_limits (config : Config) (vd dw : list scalar) :
  is_nan (min_speed config) = false ->
  is_nan (max_speed config) = false ->
  is_nan (max_yaw_rate config) = false ->
  Flocking.dw_row (Flocking.Vs_row config) vd = Ok dw ->
  within_limits config dw.
Proof.
  intros Hmin Hmax Hyaw. unfold Flocking.dw_row, Flocking.Vs_row.
  cbn [getitem nth_error bind].
  destruct (getitem vd 0) as [d0| |]; cbn [bind]; try discriminate.
  destruct (getitem vd 1) as [d1| |]; cbn [bind]; try discriminate.
  destruct (getitem vd 2) as [d2| |]; cbn [bind]; try discriminate.
  destruct (getitem vd 3) as [d3| |]; cbn [bind]; try discriminate.
  intros E. injection E as <-. do 4 eexists. split; [reflexivity |].
  repeat split.
  - apply (py_max_lower (PyFloat _)); assumption.
  - apply (py_min_upper (PyFloat _)); assumption.
  - apply (py_max_lower (PyFloat _)). apply is_nan_opp; assumption.
  - apply (py_min_upper (PyFloat _)); assumption.
Qed.

Lemma for_each_collect {A B : Type} (f : A -> res B) (P : B -> Prop)
  (l : list A) :
  (forall a b, f a = Ok b -> P b) ->
  forall acc out,
    (forall b, In b acc -> P b) ->
    for_each l (fun acc a => r <- f a ;; Ok (acc ++ [r])) acc = Ok out ->
    length out = (length acc + length l)%nat /\ forall b, In b out -> P b.
Proof.
  intros Hf. induction l as [|a l IH]; intros acc out Hacc; cbn.
  - intros E. injection E as <-. split; [lia | exact Hacc].
  - destruct (f a) as [b| |] eqn:Ea; cbn [bind]; try discriminate.
    intros E. apply IH in E.
    + rewrite length_app in E. cbn in E. split; [lia | apply E].
    + intros b' Hb'. apply in_app_or in Hb'.
      destruct Hb' as [Hb' | [<- | []]]; [apply Hacc; exact Hb' |].
      eapply Hf; exact Ea.
Qed.

(** X8.  In both files every window that is returned lies within the
    limits of the robot, whatever the state, even with velocities that are
    infinite or NaN: [min_speed <= v_min], [v_max <= max_speed],
    [-max_yaw_rate <= yaw_min] and [yaw_max <= max_yaw_rate], provided the
    three limits of the Config are not NaN.  Python's [max] and [min]
    keep their first argument, the limit, unless the second is strictly
    beyond it. *)
Theorem dynamic_window_within_limits :
  forall config : Config,
    is_nan (min_speed config) = false ->
    is_nan (max_speed config) = false ->
    is_nan (max_yaw_rate config) = false ->
    (forall (x : list float) (dw : list scalar),
        Dwa3d.calc_dynamic_window x config = Ok dw ->
        within_limits config dw)
    /\ (forall (x : list (list float)) (dws : list (list scalar)),
           Flocking.calc_dynamic_window x config = Ok dws ->
           length dws = 6%nat
           /\ forall dw, In dw dws -> within_limits config dw).
Proof.
  intros config Hmin Hmax Hyaw. split.
  - intros x dw. unfold Dwa3d.calc_dynamic_window.
    destruct (getitem x 4) as [x4| |]; cbn [bind]; try discriminate.
    destruct (getitem x 5) as [x5| |]; cbn [bind]; try discriminate.
    intros E. injection E as <-. do 4 eexists. split; [reflexivity |].
    repeat split.
    + apply (py_max_lower (PyFloat _)); assumption.
    + apply (py_min_upper (PyFloat _)); assumption.
    + apply (py_max_lower (PyFloat _)). apply is_nan_opp; assumption.
    + apply (py_min_upper (PyFloat _)); assumption.
  - intros x dws. unfold Flocking.calc_dynamic_window.
    destruct (for_each Flocking.agents _ []) as [Vd| |] eqn:EVd;
      cbn [bind]; try discriminate.
    apply (for_each_collect (Flocking.Vd_row x config) (fun _ => True))
      in EVd; [| auto | intros b []].
    destruct EVd as [LVd _]. cbn in LVd.
    intros E.
    apply (for_each_collect (Flocking.dw_row (Flocking.Vs_row config))
             (within_limits config)) in E.
    + cbn in E. rewrite LVd in E. exact E.
    + intros vd dw. apply dw_row_within_limits; assumption.
    + intros b [].
Qed.

(** A state whose velocities are NaN: the window is the static rectangle
    of the Config. *)
Lemma dynamic_window_within_limits_witness :
  Dwa3d.calc_dynamic_window [0; 0; 0; 0; nan; nan; 0] Dwa3d.config
  = Ok [PyFloat (-0.5); PyFloat 0.8;
        PyFloat (-1.0471975511965976); PyFloat 1.0471975511965976]
  /\ within_limits Dwa3d.config
       [PyFloat (-0.5); PyFloat 0.8;
        PyFloat (-1.0471975511965976); PyFloat 1.0471975511965976].
Proof.
  split; [reflexivity |].
  apply (proj1 (dynamic_window_within_limits Dwa3d.config
                  eq_refl eq_refl eq_refl)
           [0; 0; 0; 0; nan; nan; 0]).
  reflexivity.
Defined.

(** * What the simulator of [dwa_flocking.py] moves *)

Lemma flocking_snapshots_other (M : Libm) (x : list (list float)) (n : nat)
  (v w dt : float) (k : nat) :
  forall (row : list float) (j m : nat),
    (j < k)%nat -> (m < length x)%nat -> m <> n ->
    nth_error (flocking_snapshots M x n row v w dt k) (j * length x + m)
    = nth_error x m.
Proof.
  induction k as [|k IH]; intros row j m Hj Hm Hne; [lia |].
  cbn [flocking_snapshots].
  destruct j as [|j].
  - cbn [Nat.mul Nat.add]. rewrite nth_error_app1
      by (rewrite length_replace_nth; exact Hm).
    apply nth_error_replace_nth_neq. congruence.
  - rewrite nth_error_app2 by (rewrite length_replace_nth; cbn; lia).
    rewrite length_replace_nth.
    replace (S j * length x + m - length x)%nat with (j * length x + m)%nat
      by (cbn; lia).
    apply IH; [lia | exact Hm | exact Hne].
Qed.

Lemma flocking_snapshots_self (M : Libm) (x : list (list float)) (n : nat)
  (v w dt : float) (k : nat) :
  forall (row r0 : list float) (j : nat),
    nth_error x n = Some r0 -> (5 <= length row)%nat -> (j < k)%nat ->
    exists r, nth_error (flocking_snapshots M x n row v w dt k)
                (j * length x + n) = Some r
              /\ getitem r 3 = Ok v /\ getitem r 4 = Ok w.
Proof.
  induction k as [|k IH]; intros row r0 j Hn Hlen Hj; [lia |].
  assert (Hn' : (n < length x)%nat) by (apply nth_error_Some; congruence).
  cbn [flocking_snapshots].
  destruct j as [|j].
  - cbn [Nat.mul Nat.add]. rewrite nth_error_app1
      by (rewrite length_replace_nth; exact Hn').
    rewrite (nth_error_replace_nth_eq _ _ _ _ Hn).
    eexists. split; [reflexivity |]. apply flocking_tick_fields. exact Hlen.
  - rewrite nth_error_app2 by (rewrite length_replace_nth; cbn; lia).
    rewrite length_replace_nth.
    replace (S j * length x + n - length x)%nat with (j * length x + n)%nat
      by (cbn; lia).
    apply (IH _ r0); [exact Hn | | lia].
    rewrite flocking_tick_length. exact Hlen.
Qed.

Lemma flocking_snapshots_wide (M : Libm) (x : list (list float)) (n : nat)
  (v w dt : float) (c : nat) (k : nat) :
  (forall r, In r x -> (c <= length r)%nat) ->
  forall row, (c <= length row)%nat ->
    forall r, In r (flocking_snapshots M x n row v w dt k) ->
              (c <= length r)%nat.
Proof.
  intros Hx. induction k as [|k IH]; intros row Hrow r; cbn; [tauto |].
  intros H. apply in_app_or in H. destruct H as [H | H].
  - apply in_replace_nth in H. destruct H as [-> | H]; [| apply Hx; exact H].
    rewrite flocking_tick_length. exact Hrow.
  - eapply IH; [| exact H]. rewrite flocking_tick_length. exact Hrow.
Qed.

(** X9.  The simulator of [dwa_flocking.py] moves one agent.  In the
    trajectory simulated for agent [n] with the command [(v, y)], sample
    [b] (rows [b * len(x)] to [b * len(x) + len(x) - 1]) holds the row of
    every other agent as it is in the current state, at every tick; and
    from the first tick on, the velocity fields of agent [n] hold the
    command.  (The loop of the simulator ends after [k] passes, and the
    headings of the [k] ticks are accepted by [math.cos] and
    [math.sin].) *)
Theorem flocking_trajectory_moves_one_agent :
  forall (M : Libm) (fuel k : nat) (config : Config) (n : nat)
         (v y : float) (x : list (list float)) (row : list float),
    nth_error x n = Some row -> (5 <= length row)%nat ->
    runs_for config 0 k -> (k < fuel)%nat ->
    headings_ok (nth 2 row 0) y (dt config) k = true ->
    exists rows : list (list float),
      Flocking.predict_trajectory M fuel x n v y config = Ok (Arr2 rows)
      /\ (forall b m, (b <= k)%nat -> (m < length x)%nat -> m <> n ->
                      nth_error rows (b * length x + m) = nth_error x m)
      /\ (forall b, (1 <= b <= k)%nat ->
                    getitem2 rows (b * length x + n) 3 = Ok v
                    /\ getitem2 rows (b * length x + n) 4 = Ok y).
Proof.
  intros M fuel k config n v y x row Hn Hlen Hrun Hfuel Hh.
  eexists. split; [| split].
  - rewrite (flocking_predict_trajectory_runs M fuel k config n v y x row)
      by assumption.
    rewrite Hh. reflexivity.
  - intros b m Hb Hm Hne. destruct b as [|b].
    + cbn [Nat.mul Nat.add]. apply nth_error_app1. exact Hm.
    + rewrite nth_error_app2 by (cbn; lia).
      replace (S b * length x + m - length x)%nat
        with (b * length x + m)%nat by (cbn; lia).
      apply flocking_snapshots_other; [lia | exact Hm | exact Hne].
  - intros b Hb. destruct b as [|b]; [lia |].
    unfold getitem2.
    rewrite nth_error_app2 by (cbn; lia).
    replace (S b * length x + n - length x)%nat
      with (b * length x + n)%nat by (cbn; lia).
    destruct (flocking_snapshots_self M x n v y (dt config) k row row b)
      as [r [-> Hr]]; [exact Hn | exact Hlen | lia |].
    exact Hr.
Qed.

Lemma runs_for_default : runs_for Flocking.config 0 15.
Proof.
  split; [| reflexivity].
  intros i Hi. do 15 (destruct i as [|i]; [reflexivity |]). lia.
Qed.

(** Agent 2 of the state [main] starts with, under the Config of the
    file: fifteen ticks. *)
Lemma flocking_trajectory_moves_one_agent_witness :
  exists rows : list (list float),
    Flocking.predict_trajectory example_libm 100 Flocking.x_start 2
      0.02 0.05 Flocking.config = Ok (Arr2 rows)
    /\ (forall b m, (b <= 15)%nat -> (m < length Flocking.x_start)%nat ->
                    m <> 2%nat ->
                    nth_error rows (b * length Flocking.x_start + m)
                    = nth_error Flocking.x_start m)
    /\ (forall b, (1 <= b <= 15)%nat ->
                  getitem2 rows (b * length Flocking.x_start + 2) 3
                  = Ok 0.02
                  /\ getitem2 rows (b * length Flocking.x_start + 2) 4
                     = Ok 0.05).
Proof.
  apply (flocking_trajectory_moves_one_agent example_libm 100 15
           Flocking.config 2 0.02 0.05 Flocking.x_start
           [1.0; -5.0; 0.0; 0.0; 0.0]).
  - reflexivity.
  - simpl. lia.
  - exact runs_for_default.
  - lia.
  - reflexivity.
Defined.

Lemma add_zero_time (d : float) : (d =? 0) = true -> 0 + d = 0.
Proof.
  rewrite FloatAxioms.eqb_spec. intros H.
  rewrite <- (FloatAxioms.SF2Prim_Prim2SF (0 + d)).
  rewrite FloatAxioms.add_spec.
  change (Prim2SF 0) with (S754_zero false) in *.
  destruct (Prim2SF d) as [[|]|s| |s m e]; cbn in H; try discriminate;
    try (destruct s; discriminate); reflexivity.
Qed.

Lemma math_ok_spec (a : float) :
  math_ok a = true <-> forall s, Prim2SF a <> S754_infinity s.
Proof.
  unfold math_ok, is_infinity.
  rewrite FloatAxioms.eqb_spec, FloatAxioms.abs_spec.
  change (Prim2SF infinity) with (S754_infinity false).
  destruct (Prim2SF a) as [s|s| |s m e]; cbn; split; try congruence;
    try (intros H; exfalso; apply (H s); reflexivity).
Qed.

(** A heading that [math.cos] accepts stays one a tick later when the
    time step is zero: it is kept, or becomes NaN. *)
Lemma math_ok_zero_step (h y d : float) :
  math_ok h = true -> (d =? 0) = true -> math_ok (h + y * d) = true.
Proof.
  rewrite !math_ok_spec, FloatAxioms.eqb_spec.
  rewrite FloatAxioms.add_spec, FloatAxioms.mul_spec.
  change (Prim2SF 0) with (S754_zero false).
  intros Hh Hd.
  destruct (Prim2SF d) as [sd|sd| |sd md ed]; cbn in Hd;
    try discriminate; try (destruct sd; discriminate).
  destruct (Prim2SF h) as [sh|sh| |sh mh eh];
    try (exfalso; apply (Hh sh); reflexivity);
    destruct (Prim2SF y) as [sy|sy| |sy my ey];
    try destruct sh; try destruct sy; try destruct sd;
    intros s; cbn; discriminate.
Qed.

(** X10.  With a time step of zero (and a horizon that is not negative)
    the simulator of [dwa_flocking.py] never returns: the clock stays at
    0, the test [time <= predict_time] holds at every pass, and whatever
    fuel the loop is given it is still running when the fuel is used
    up.  (The heading of the agent is not infinite: it stays as it is, or
    becomes NaN, and [math.cos] and [math.sin] accept it at every
    tick.) *)
Theorem flocking_zero_time_step_never_returns :
  forall (M : Libm) (fuel : nat) (config : Config) (n : nat) (v y : float)
         (x : list (list float)) (row : list float),
    nth_error x n = Some row -> (5 <= length row)%nat ->
    math_ok (nth 2 row 0) = true ->
    (dt config =? 0) = true ->
    (0 <=? predict_time config) = true ->
    Flocking.predict_trajectory M fuel x n v y config = OutOfFuel.
Proof.
  intros M fuel config n v y x row Hn Hlen Hm Hdt HT.
  unfold Flocking.predict_trajectory.
  generalize x at 2. intros stacked.
  revert x row Hn Hlen Hm stacked.
  induction fuel as [|fuel IH]; intros x row Hn Hlen Hm stacked;
    cbn [Flocking.predict_loop]; [reflexivity |].
  rewrite HT. rewrite (flocking_motion_row M x n row) by assumption.
  rewrite (math_ok_zero_step _ y _ Hm Hdt).
  cbn [bind vstack atleast_2d]. rewrite (add_zero_time _ Hdt).
  eapply IH.
  - eapply nth_error_replace_nth_eq; eassumption.
  - rewrite flocking_tick_length. exact Hlen.
  - rewrite flocking_tick_heading by exact Hlen.
    apply math_ok_zero_step; assumption.
Qed.

Lemma flocking_zero_time_step_never_returns_witness :
  Flocking.predict_trajectory example_libm 1000 Flocking.x_start 0
    0.02 0.05 config_zero_step = OutOfFuel.
Proof.
  apply (flocking_zero_time_step_never_returns example_libm 1000
           config_zero_step 0 0.02 0.05 Flocking.x_start
           [1.0; -1.0; 0.0; 0.0; 0.0]).
  - reflexivity.
  - simpl. lia.
  - reflexivity.
  - reflexivity.
  - reflexivity.
Defined.

Lemma is_finite_sf (a : float) : is_finite a = true -> sf_finite (Prim2SF a).
Proof.
  unfold is_finite, is_nan, is_infinity.
  rewrite !FloatAxioms.eqb_spec, FloatAxioms.abs_spec.
  change (Prim2SF infinity) with (S754_infinity false).
  destruct (Prim2SF a) as [s|[|]| |s m e]; cbn; try discriminate; intros _.
  - left. exists s. reflexivity.
  - right. exists s, m, e. reflexivity.
Qed.

Lemma mul_zero_finite (a b : float) :
  sf_zero (Prim2SF a) -> sf_finite (Prim2SF b) -> sf_zero (Prim2SF (a * b)).
Proof.
  intros [sa Ha] Hb. rewrite FloatAxioms.mul_spec, Ha.
  destruct Hb as [[sb ->] | [sb [m [e ->]]]]; cbn; eexists; reflexivity.
Qed.

Lemma add_zero_eqb (a z : float) :
  sf_zero (Prim2SF z) -> is_nan a = false -> (a + z =? a) = true.
Proof.
  intros [sz Hz] Ha. apply is_nan_spec in Ha.
  rewrite FloatAxioms.eqb_spec, FloatAxioms.add_spec, Hz.
  unfold SFeqb.
  destruct (Prim2SF a) as [s|s| |s m e] eqn:E; try congruence.
  - destruct s, sz; reflexivity.
  - cbn. destruct s; reflexivity.
  - change (SF64add (S754_finite s m e) (S754_zero sz))
      with (S754_finite s m e).
    rewrite SFcompare_refl by discriminate. reflexivity.
Qed.

Lemma math_ok_eqb (a b : float) :
  (a =? b) = true -> math_ok b = true -> math_ok a = true.
Proof.
  rewrite !math_ok_spec, FloatAxioms.eqb_spec. intros E Hb s Ha.
  rewrite Ha in E.
  destruct (Prim2SF b) as [sb|sb| |sb mb eb];
    try (apply (Hb sb); reflexivity);
    destruct s; try destruct sb; discriminate E.
Qed.

(** X11.  The command [[0.0, 0.0]], which the search returns for an
    agent when it accepts no candidate for it, leaves the agent where it
    is: one tick of the motion model with it keeps the position and the
    heading of the agent (as binary64 compares them: a zero may change its
    sign) and sets its two velocity fields to zero, provided the time step
    and the heading are finite, the position is not NaN and the cosine and
    sine of the heading are finite. *)
Theorem flocking_zero_command_keeps_agent :
  forall (M : Libm) (x : list (list float)) (n : nat)
         (px py heading v0 w0 : float) (rest : list float) (dt : float),
    nth_error x n = Some (px :: py :: heading :: v0 :: w0 :: rest) ->
    is_finite dt = true ->
    is_nan px = false -> is_nan py = false -> is_finite heading = true ->
    is_finite (cos M (heading + 0.0 * dt)) = true ->
    is_finite (sin M (heading + 0.0 * dt)) = true ->
    exists px' py' heading' : float,
      Flocking.motion M x n [0.0; 0.0] dt
      = Ok (replace_nth x n (px' :: py' :: heading' :: 0.0 :: 0.0 :: rest))
      /\ (px' =? px) = true
      /\ (py' =? py) = true
      /\ (heading' =? heading) = true.
Proof.
  intros M x n px py heading v0 w0 rest dt Hn Hdt Hpx Hpy Hfin Hcos Hsin.
  assert (Hh : is_nan heading = false).
  { unfold is_finite in Hfin. destruct (is_nan heading); [| reflexivity].
    discriminate Hfin. }
  assert (Z : sf_zero (Prim2SF 0.0)) by (exists false; reflexivity).
  assert (Hm : math_ok heading = true).
  { unfold math_ok. unfold is_finite in Hfin.
    destruct (is_infinity heading); [| reflexivity].
    rewrite orb_true_r in Hfin. discriminate Hfin. }
  apply is_finite_sf in Hdt, Hcos, Hsin.
  assert (Hk : (heading + 0.0 * dt =? heading) = true).
  { apply add_zero_eqb; [| exact Hh]. apply mul_zero_finite; assumption. }
  do 3 eexists. split.
  - rewrite (flocking_motion_row M x n _ 0.0 0.0 dt Hn) by (cbn; lia).
    cbn [nth]. rewrite (math_ok_eqb _ _ Hk Hm). reflexivity.
  - repeat split; try exact Hk; apply add_zero_eqb; try assumption;
      repeat apply mul_zero_finite; assumption.
Qed.

Lemma flocking_zero_command_keeps_agent_witness :
  exists px' py' heading' : float,
    Flocking.motion example_libm Flocking.x_start 1 [0.0; 0.0] 0.1
    = Ok (replace_nth Flocking.x_start 1 [px'; py'; heading'; 0.0; 0.0])
    /\ (px' =? 1.0) = true
    /\ (py' =? -3.0) = true
    /\ (heading' =? 0.0) = true.
Proof.
  apply (flocking_zero_command_keeps_agent example_libm Flocking.x_start 1
           1.0 (-3.0) 0.0 0.0 0.0 [] 0.1); reflexivity.
Defined.

(** * The costs of a candidate *)

Lemma abs_not_negative (a : float) :
  (abs a <? 0) = false /\ (is_nan a = false -> (0 <=? abs a) = true).
Proof.
  rewrite FloatAxioms.ltb_spec, FloatAxioms.leb_spec, FloatAxioms.abs_spec,
    is_nan_spec.
  change (Prim2SF 0) with (S754_zero false).
  destruct (Prim2SF a) as [s|s| |s m e]; cbn; split; congruence.
Qed.

(** X12.  The goal cost, in either file, is never negative: whenever it
    is returned it is not below zero, and it is at least zero unless it is
    NaN, whatever the math library returns. *)
Theorem goal_cost_not_negative :
  forall (M : Libm) (trajectory : ndarray) (goal : list float) (c : float),
    calc_to_goal_cost M trajectory goal = Ok c ->
    (c <? 0) = false /\ (is_nan c = false -> (0 <=? c) = true).
Proof.
  intros M trajectory goal c. unfold calc_to_goal_cost.
  repeat match goal with
         | |- bind ?c _ = Ok _ -> _ =>
             destruct c; cbn [bind]; try discriminate
         end.
  intros E. injection E as <-.
  match goal with
  | |- (abs ?t <? 0) = false /\ _ =>
      destruct (abs_not_negative t) as [H1 H2]
  end.
  split; [exact H1 |].
  intros Hn. apply H2.
  rewrite is_nan_spec in *. rewrite FloatAxioms.abs_spec in Hn.
  intros E. rewrite E in Hn. apply Hn. reflexivity.
Qed.

(** The goal cost of the state [main] of [dwa_flocking.py] starts with,
    read as a trajectory of six rows. *)
Lemma goal_cost_not_negative_witness :
  exists c : float,
    calc_to_goal_cost example_libm (Arr2 Flocking.x_start) Flocking.goal1
    = Ok c
    /\ (c <? 0) = false /\ (is_nan c = false -> (0 <=? c) = true).
Proof.
  eexists. split; [vm_compute; reflexivity |].
  apply (goal_cost_not_negative example_libm (Arr2 Flocking.x_start)
           Flocking.goal1).
  vm_compute. reflexivity.
Defined.

Lemma mul_positive_infinity (g : float) :
  (0 <? g) = true -> g * infinity = infinity.
Proof.
  rewrite FloatAxioms.ltb_spec. intros H.
  rewrite <- (FloatAxioms.SF2Prim_Prim2SF (g * infinity)).
  rewrite FloatAxioms.mul_spec.
  change (Prim2SF 0) with (S754_zero false) in H.
  change (Prim2SF infinity) with (S754_infinity false).
  destruct (Prim2SF g) as [s|[|]| |[|] m e]; cbn in H; try discriminate;
    reflexivity.
Qed.

Lemma add_infinity (a : float) :
  a + infinity = infinity \/ is_nan (a + infinity) = true.
Proof.
  destruct (is_nan (a + infinity)) eqn:N; [right; reflexivity | left].
  apply is_nan_spec in N.
  rewrite <- (FloatAxioms.SF2Prim_Prim2SF (a + infinity)).
  rewrite FloatAxioms.add_spec in *.
  change (Prim2SF infinity) with (S754_infinity false) in *.
  destruct (Prim2SF a) as [s|[|]| |s m e]; cbn in N; try congruence;
    reflexivity.
Qed.

(** X13.  One agent in collision blocks the whole flock.  If any row of
    the current state is within the robot's radius of an obstacle point,
    then for every agent [n] and every command the simulated trajectory
    has the obstacle cost [+infinity] (each sample holds all the rows, and
    the first sample is the current state), and with a positive obstacle
    gain the cost of the candidate, when it is computed, is [+infinity] or
    NaN: the search cannot tell one candidate from another. *)
Theorem flocking_collision_blocks_every_candidate :
  forall (M : Libm) (fuel k : nat) (config : Config) (n : nat)
         (v y : float) (x obstacles : list (list float))
         (row r o : list float),
    (forall r', In r' x -> (5 <= length r')%nat) ->
    (forall o', In o' obstacles -> (2 <= length o')%nat) ->
    nth_error x n = Some row ->
    runs_for config 0 k -> (k < fuel)%nat ->
    headings_ok (nth 2 row 0) y (dt config) k = true ->
    In r x -> In o obstacles ->
    (hypot M (nth 0 r 0 - nth 0 o 0) (nth 1 r 0 - nth 1 o 0)
     <=? robot_radius config) = true ->
    (0 <? obstacle_cost_gain config) = true ->
    exists trajectory : ndarray,
      Flocking.predict_trajectory M fuel x n v y config = Ok trajectory
      /\ calc_obstacle_cost M trajectory (Arr2 obstacles) config
         = Ok infinity
      /\ forall (goal : list float) (c : float),
           final_cost M config trajectory goal (Arr2 obstacles) = Ok c ->
           c = infinity \/ is_nan c = true.
Proof.
  intros M fuel k config n v y x obstacles row r o Hx Ho Hn Hrun Hfuel Hh
    Hr Hobs Hd Hgain.
  assert (Hrow : (5 <= length row)%nat)
    by (apply Hx; eapply nth_error_In; exact Hn).
  eexists. split.
  { rewrite (flocking_predict_trajectory_runs M fuel k config n v y x row)
      by assumption.
    rewrite Hh. reflexivity. }
  assert (C : calc_obstacle_cost M
                (Arr2 (x ++ flocking_snapshots M x n row v y (dt config) k))
                (Arr2 obstacles) config = Ok infinity).
  { rewrite calc_obstacle_cost_unfold.
    - assert (A : any_le
                    (distance_matrix M
                       (x ++ flocking_snapshots M x n row v y (dt config) k)
                       obstacles) (robot_radius config) = true).
      { apply any_le_exists. eexists. split; [| exact Hd].
        apply in_distance_matrix. exists r, o.
        split; [apply in_or_app; left; exact Hr |].
        split; [exact Hobs | reflexivity]. }
      rewrite A. reflexivity.
    - intros r' Hr'. apply in_app_or in Hr'. destruct Hr' as [Hr' | Hr'].
      + specialize (Hx r' Hr'). lia.
      + apply (flocking_snapshots_wide M x n v y (dt config) 2 k)
          with (row := row) in Hr'; [exact Hr' | | lia].
        intros r'' H''. specialize (Hx r'' H''). lia.
    - exact Ho. }
  split; [exact C |].
  intros goal c. unfold final_cost.
  destruct (calc_to_goal_cost M _ goal) as [g| |]; cbn [bind];
    try discriminate.
  destruct (getitem_last _ 3) as [vl| |]; cbn [bind]; try discriminate.
  rewrite C. cbn [bind]. intros E. injection E as <-.
  rewrite (mul_positive_infinity _ Hgain). apply add_infinity.
Qed.

(** Agent 0 on the obstacle point (12, -3); the candidate simulated is one
    of agent 3. *)
Lemma flocking_collision_blocks_every_candidate_witness :
  exists trajectory : ndarray,
    Flocking.predict_trajectory example_libm 100 x_on_obstacle 3 0.02 0.05
      Flocking.config = Ok trajectory
    /\ calc_obstacle_cost example_libm trajectory (Arr2 Flocking.objarry)
         Flocking.config
       = Ok infinity
    /\ forall (goal : list float) (c : float),
         final_cost example_libm Flocking.config trajectory goal
           (Arr2 Flocking.objarry) = Ok c ->
         c = infinity \/ is_nan c = true.
Proof.
  apply (flocking_collision_blocks_every_candidate example_libm 100 15
           Flocking.config 3 0.02 0.05 x_on_obstacle Flocking.objarry
           [3.0; -1.0; 0.0; 0.0; 0.0] [12; -3; 0.0; 0.0; 0.0] [12; -3]).
  - intros r H. each_member H.
  - intros o H. each_member H.
  - reflexivity.
  - exact runs_for_default.
  - lia.
  - reflexivity.
  - left. reflexivity.
  - left. reflexivity.
  - vm_compute. reflexivity.
  - reflexivity.
Defined.

(** * The search of [dwa_flocking.py] *)

Lemma leb_infinity (c : float) : is_nan c = false -> (c <=? infinity) = true.
Proof.
  rewrite is_nan_spec, FloatAxioms.leb_spec.
  change (Prim2SF infinity) with (S754_infinity false).
  destruct (Prim2SF c) as [s|[|]| |s m e]; cbn; congruence.
Qed.

Lemma not_leb_leb (a b : float) :
  is_nan a = false -> is_nan b = false ->
  (a <=? b) = false -> (b <=? a) = true.
Proof.
  intros Ha Hb H. apply not_ltb_leb; [exact Ha | exact Hb |].
  destruct (a <? b) eqn:E; [| reflexivity].
  apply ltb_leb in E. congruence.
Qed.

Section LeastCost.
Variable M : Libm.
Variables (fuel : nat) (x : list (list float)) (config : Config)
  (goal : list float) (obs : ndarray).

Lemma flocking_search_body_least (st st' : Flocking.search_state)
  (costs : list float) (n : nat) (v y : float) :
  flocking_least_inv M fuel x config goal obs st costs ->
  Flocking.search_body M fuel x config goal obs st n v y = Ok st' ->
  exists costs',
    (trajectory <- Flocking.predict_trajectory M fuel x n v y config ;;
     c <- final_cost M config trajectory goal obs ;;
     Ok (costs ++ [c])) = Ok costs'
    /\ flocking_least_inv M fuel x config goal obs st' costs'.
Proof.
  intros [Hnan [Hle Hbest]].
  unfold Flocking.search_body, Flocking.accept_candidate.
  destruct (Flocking.predict_trajectory M fuel x n v y config)
    as [tr| |] eqn:Etr; cbn [bind]; try discriminate.
  destruct (final_cost M config tr goal obs) as [c| |] eqn:Ec;
    cbn [bind]; try discriminate.
  destruct (c <=? Flocking.min_cost st) eqn:Ecmp.
  - destruct (leb_not_nan _ _ Ecmp) as [Hc _].
    assert (Hnew : forall us,
               nth_error us n = Some [v; y]
               \/ nth_error us n = Some [v; - max_delta_yaw_rate config] ->
               flocking_least_inv M fuel x config goal obs
                 {| Flocking.min_cost := c; Flocking.best_u := us;
                    Flocking.best_trajectory := tr |} (costs ++ [c])).
    { intros us Hus. split; [exact Hc |]. split.
      - intros c' Hc' Hn'. cbn. apply in_app_or in Hc'.
        destruct Hc' as [Hc' | [<- | []]]; [| apply leb_refl; exact Hc].
        eapply leb_trans; [exact Ecmp |]. apply Hle; assumption.
      - right. exists n, v, y. cbn.
        split; [exact Etr | split; [exact Ec |]].
        split; [| exact Hus].
        exists costs, []. split; [reflexivity | intros c' []]. }
    unfold getitem2 at 1.
    destruct (nth_error (replace_nth (Flocking.best_u st) n [v; y]) n)
      as [r|] eqn:En; [| discriminate].
    destruct (nth_error_replace_nth_inv _ _ _ _ _ En) as [[_ ->] | [Hne _]];
      [| congruence].
    cbn [getitem nth_error bind].
    destruct (abs v <? robot_stuck_flag_cons config).
    + destruct (getitem2 x n 3) as [xv| |]; cbn [bind]; try discriminate.
      destruct (abs xv <? robot_stuck_flag_cons config).
      * unfold setitem2. rewrite En. cbn. rewrite replace_nth_twice.
        intros E. injection E as <-. eexists. split; [reflexivity |].
        apply Hnew. right.
        assert (Hlt : (n < length (Flocking.best_u st))%nat).
        { rewrite <- (length_replace_nth _ n [v; y]).
          apply nth_error_Some. congruence. }
        apply nth_error_Some in Hlt.
        destruct (nth_error (Flocking.best_u st) n) as [w|] eqn:Ew;
          [| congruence].
        eapply nth_error_replace_nth_eq; exact Ew.
      * intros E. injection E as <-. eexists. split; [reflexivity |].
        apply Hnew. left. exact En.
    + intros E. injection E as <-. eexists. split; [reflexivity |].
      apply Hnew. left. exact En.
  - intros E. injection E as <-. eexists. split; [reflexivity |].
    split; [exact Hnan |]. split.
    + intros c' Hc' Hn'. apply in_app_or in Hc'.
      destruct Hc' as [Hc' | [<- | []]]; [apply Hle; assumption |].
      apply not_leb_leb; assumption.
    + destruct Hbest as [[Hinf [Htr [Hus Hall]]] | [n0 [v0 [y0 Hb]]]].
      * left. split; [exact Hinf | split; [exact Htr | split; [exact Hus |]]].
        intros c' Hc'. apply in_app_or in Hc'.
        destruct Hc' as [Hc' | [<- | []]]; [apply Hall; exact Hc' |].
        destruct (is_nan c) eqn:Hn; [reflexivity |].
        rewrite Hinf, leb_infinity in Ecmp by exact Hn. discriminate.
      * right. exists n0, v0, y0.
        destruct Hb as [Etr0 [Ec0 [[pre [post [Hsplit Hpost]]] Hus]]].
        split; [exact Etr0 | split; [exact Ec0 |]].
        split; [| exact Hus].
        exists pre, (post ++ [c]). split.
        -- rewrite Hsplit, <- app_assoc. reflexivity.
        -- intros c' Hc'. apply in_app_or in Hc'.
           destruct Hc' as [Hc' | [<- | []]];
             [apply Hpost; exact Hc' | exact Ecmp].
Qed.

Lemma flocking_search_agent_least (st st' : Flocking.search_state)
  (dw : list (list scalar)) (costs : list float) (n : nat) :
  flocking_least_inv M fuel x config goal obs st costs ->
  Flocking.search_agent M fuel x dw config goal obs st n = Ok st' ->
  exists costs',
    flocking_agent_costs M fuel x dw config goal obs costs n = Ok costs'
    /\ flocking_least_inv M fuel x config goal obs st' costs'.
Proof.
  unfold Flocking.search_agent, flocking_agent_costs.
  destruct (getitem2 dw n 0) as [lo| |]; cbn [bind]; try discriminate.
  destruct (getitem2 dw n 1) as [hi| |]; cbn [bind]; try discriminate.
  destruct (arange lo hi (v_resolution config)) as [vs| |];
    cbn [bind]; try discriminate.
  intros Hinv. revert st costs st' Hinv.
  apply (for_each_simulation (flocking_least_inv M fuel x config goal obs)).
  intros s t v s' Hst.
  destruct (getitem2 dw n 2) as [ylo| |]; cbn [bind]; try discriminate.
  destruct (getitem2 dw n 3) as [yhi| |]; cbn [bind]; try discriminate.
  destruct (arange ylo yhi (yaw_rate_resolution config)) as [ys| |];
    cbn [bind]; try discriminate.
  revert s t s' Hst.
  apply (for_each_simulation (flocking_least_inv M fuel x config goal obs)).
  intros s t y s' Hst. apply flocking_search_body_least. exact Hst.
Qed.

End LeastCost.

(** X14.  The search of [dwa_flocking.py] returns a trajectory of least
    cost.  Whenever it returns, all the candidates of all the agents were
    scored, and either none was accepted (every cost was NaN, or there was
    no candidate) and it returns what it started from, the zero commands
    and the current state alone; or the trajectory it returns is the one
    simulated for a candidate [(v, y)] of some agent [n], whose cost is not
    NaN and is at most the cost of every candidate of every agent that is
    not NaN; it is the last such candidate in the order of the search (the
    test is [min_cost >= final_cost], so of two candidates of equal cost
    the later one is kept); and the command returned for that agent is
    [[v, y]], or
    [[v, -max_delta_yaw_rate]] when the anti-stall branch replaced the yaw
    rate: the trajectory is then still the one simulated with [y]. *)
Theorem flocking_search_returns_least_cost :
  forall (M : Libm) (fuel : nat) (x : list (list float))
         (dw : list (list scalar))
         (config : Config) (goal : list float) (obs : ndarray)
         (us : list (list float)) (trajectory : ndarray),
    Flocking.calc_control_and_trajectory M fuel x dw config goal obs
    = Ok (us, trajectory) ->
    exists costs : list float,
      flocking_candidate_costs M fuel x dw config goal obs = Ok costs
      /\ ((trajectory = Arr3 [x] /\ us = repeat [0.0; 0.0] 6
           /\ forall c, In c costs -> is_nan c = true)
          \/ exists (n : nat) (v y c : float) (pre post : list float),
              Flocking.predict_trajectory M fuel x n v y config
              = Ok trajectory
              /\ final_cost M config trajectory goal obs = Ok c
              /\ costs = pre ++ c :: post
              /\ is_nan c = false
              /\ (forall c', In c' costs -> is_nan c' = false ->
                             (c <=? c') = true)
              /\ (forall c', In c' post -> (c' <=? c) = false)
              /\ (nth_error us n = Some [v; y]
                  \/ nth_error us n
                     = Some [v; - max_delta_yaw_rate config])).
Proof.
  intros M fuel x dw config goal obs us trajectory.
  unfold Flocking.calc_control_and_trajectory, flocking_candidate_costs.
  match goal with
  | |- (st <- for_each ?l ?body ?init ;; _) = _ -> _ =>
      destruct (for_each l body init) as [st| |] eqn:E
  end; cbn [bind]; try discriminate.
  intros R. injection R as <- <-.
  eapply (for_each_simulation
            (flocking_least_inv M fuel x config goal obs)
            _ (flocking_agent_costs M fuel x dw config goal obs)) in E.
  - destruct E as [costs [Ecosts [Hnan [Hle Hbest]]]].
    exists costs. split; [exact Ecosts |].
    destruct Hbest as [[_ [Htr [Hus Hall]]] | [n [v [y Hb]]]].
    + left. auto.
    + right.
      destruct Hb as [Etr [Ec [[pre [post [Hsplit Hpost]]] Hus]]].
      exists n, v, y, (Flocking.min_cost st), pre, post. auto 8.
  - intros s t n s' Hst. apply flocking_search_agent_least. exact Hst.
  - split; [reflexivity |]. split; [intros c' [] |].
    left. cbn. split; [reflexivity | split; [reflexivity |]].
    split; [reflexivity | intros c []].
Qed.

(** The search from the state [main] starts with, under the Config of the
    file: 240 candidates. *)
Lemma flocking_search_returns_least_cost_witness :
  exists (dw : list (list scalar)) (us : list (list float))
         (trajectory : ndarray)
         (costs : list float),
    Flocking.calc_dynamic_window Flocking.x_start Flocking.config = Ok dw
    /\ Flocking.calc_control_and_trajectory example_libm 100
         Flocking.x_start dw Flocking.config Flocking.goal1
         (ob Flocking.config)
       = Ok (us, trajectory)
    /\ flocking_candidate_costs example_libm 100 Flocking.x_start dw
         Flocking.config Flocking.goal1 (ob Flocking.config) = Ok costs
    /\ length costs = 240%nat
    /\ exists (n : nat) (v y c : float),
        Flocking.predict_trajectory example_libm 100 Flocking.x_start n v y
          Flocking.config = Ok trajectory
        /\ final_cost example_libm Flocking.config trajectory
             Flocking.goal1 (ob Flocking.config) = Ok c
        /\ In c costs
        /\ is_nan c = false
        /\ (forall c', In c' costs -> is_nan c' = false ->
                       (c <=? c') = true).
Proof.
  assert (W : exists r,
             Flocking.calc_control_and_trajectory example_libm 100
               Flocking.x_start
               (repeat window_at_rest 6)
               Flocking.config Flocking.goal1 (ob Flocking.config)
             = Ok r)
    by (eexists; vm_compute; reflexivity).
  destruct W as [[us trajectory] W].
  destruct (flocking_search_returns_least_cost example_libm 100
              Flocking.x_start _ Flocking.config Flocking.goal1
              (ob Flocking.config) us trajectory W)
    as [costs [Ecosts Hbest]].
  exists (repeat window_at_rest 6),
    us, trajectory, costs.
  split; [reflexivity | split; [exact W | split; [exact Ecosts |]]].
  assert (L : length costs = 240%nat).
  { assert (F : (r <- flocking_candidate_costs example_libm 100
                        Flocking.x_start
                        (repeat window_at_rest 6)
                        Flocking.config Flocking.goal1 (ob Flocking.config) ;;
                 Ok (length r)) = Ok 240%nat)
      by (vm_compute; reflexivity).
    rewrite Ecosts in F. cbn [bind] in F. congruence. }
  split; [exact L |].
  destruct Hbest as [[_ [_ Hall]] | [n [v [y [c H]]]]].
  - exfalso.
    assert (F : (r <- flocking_candidate_costs example_libm 100
                        Flocking.x_start
                        (repeat window_at_rest 6)
                        Flocking.config Flocking.goal1 (ob Flocking.config) ;;
                 Ok (hd nan r)) = Ok 0.9111111111111112)
      by (vm_compute; reflexivity).
    rewrite Ecosts in F. cbn [bind] in F.
    destruct costs as [|c0 costs]; [discriminate L |].
    cbn in F. injection F as ->.
    specialize (Hall _ (or_introl eq_refl)). discriminate Hall.
  - destruct H as [pre [post [H1 [H2 [H3 [H4 [H5 _]]]]]]].
    exists n, v, y, c.
    split; [exact H1 | split; [exact H2 | split; [| split; assumption]]].
    rewrite H3. apply in_or_app. right. left. reflexivity.
Defined.

(** * Where a division by zero can come from

    [np.arange] with a step of zero is the only source of
    [ZeroDivisionError] in the two files. *)

Section ZeroDivision.

Lemma nzd_bind {A B : Type} (c : res A) (k : A -> res B) :
  no_zero_division c -> (forall a, no_zero_division (k a)) ->
  no_zero_division (bind c k).
Proof.
  unfold no_zero_division. intros Hc Hk.
  destruct c as [a|e|]; cbn; [apply Hk | | discriminate].
  intros E. apply Hc. injection E as ->. reflexivity.
Qed.

Lemma nzd_for_each {A S : Type} (body : S -> A -> res S) (l : list A) :
  (forall s a, no_zero_division (body s a)) ->
  forall s, no_zero_division (for_each l body s).
Proof.
  intros H. induction l as [|a l IH]; intros s; cbn; [discriminate |].
  apply nzd_bind; [apply H | exact IH].
Qed.

Lemma nzd_getitem {A : Type} (l : list A) (i : nat) :
  no_zero_division (getitem l i).
Proof. unfold getitem. destruct (nth_error l i); discriminate. Qed.

Lemma nzd_setitem (l : list float) (i : nat) (v : float) :
  no_zero_division (setitem l i v).
Proof. unfold setitem. destruct (i <? length l)%nat; discriminate. Qed.

Lemma nzd_getitem2 {A : Type} (x : list (list A)) (n j : nat) :
  no_zero_division (getitem2 x n j).
Proof.
  unfold getitem2. destruct (nth_error x n); [| discriminate].
  apply nzd_getitem.
Qed.

Lemma nzd_setitem2 (x : list (list float)) (n j : nat) (v : float) :
  no_zero_division (setitem2 x n j v).
Proof.
  unfold setitem2. destruct (nth_error x n); [| discriminate].
  apply nzd_bind; [apply nzd_setitem | discriminate].
Qed.

Lemma nzd_getitem_last (a : ndarray) (j : nat) :
  no_zero_division (getitem_last a j).
Proof.
  destruct a as [d|rows|p]; cbn; try discriminate.
  destruct rows; [discriminate | apply nzd_getitem].
Qed.

Lemma nzd_column (a : ndarray) (j : nat) : no_zero_division (column a j).
Proof.
  destruct a as [d|rows|p]; cbn; try discriminate.
  induction rows as [|r t IH]; cbn; [discriminate |].
  apply nzd_bind; [apply nzd_getitem | intros v].
  apply nzd_bind; [exact IH | discriminate].
Qed.

Lemma nzd_vstack (a b : ndarray) : no_zero_division (vstack a b).
Proof. destruct a, b; discriminate. Qed.

Lemma nzd_np_min (r : list (list float)) : no_zero_division (np_min r).
Proof. unfold np_min. destruct (concat r); discriminate. Qed.

Lemma nzd_math_cos (M : Libm) (a : float) : no_zero_division (math_cos M a).
Proof. unfold math_cos. destruct (math_ok a); discriminate. Qed.

Lemma nzd_math_sin (M : Libm) (a : float) : no_zero_division (math_sin M a).
Proof. unfold math_sin. destruct (math_ok a); discriminate. Qed.

Lemma nzd_arange (start stop : scalar) (step : float) :
  (step =? 0) = false -> no_zero_division (arange start stop step).
Proof.
  intros H. unfold arange. rewrite H, andb_false_r. cbv zeta.
  destruct (_ && negb _); [destruct (signbit _); discriminate |].
  destruct (is_nan _); [discriminate |].
  destruct (ceil _) as [n|]; [| discriminate].
  destruct (_ || _)%bool; [discriminate |].
  destruct (n =? two63)%Z; [discriminate |].
  destruct (two60 <=? n)%Z; discriminate.
Qed.

End ZeroDivision.

Create HintDb nzd.
#[local] Hint Resolve nzd_getitem nzd_setitem nzd_getitem2 nzd_setitem2
  nzd_getitem_last nzd_column nzd_vstack nzd_np_min nzd_math_cos
  nzd_math_sin nzd_arange : nzd.

Ltac nzd :=
  repeat first
    [ solve [auto with nzd]
    | apply nzd_bind; [| intros ?]
    | apply nzd_for_each; intros ? ?
    | match goal with
      | |- no_zero_division (if ?b then _ else _) => destruct b
      | |- no_zero_division (Ok _) => discriminate
      | |- no_zero_division (Raise _) => discriminate
      | |- no_zero_division OutOfFuel => discriminate
      end ].

Section NoZeroDivision.
Variable M : Libm.
Variable config : Config.
Hypothesis v_step : (v_resolution config =? 0) = false.
Hypothesis yaw_step : (yaw_rate_resolution config =? 0) = false.

Lemma nzd_final_cost (trajectory : ndarray) (goal : list float)
  (obs : ndarray) : no_zero_division (final_cost M config trajectory goal obs).
Proof. unfold final_cost, calc_to_goal_cost, calc_obstacle_cost. nzd. Qed.

Lemma nzd_dwa3d_motion (x u : list float) (t : float) :
  no_zero_division (Dwa3d.motion M x u t).
Proof. unfold Dwa3d.motion. nzd. Qed.

Lemma nzd_dwa3d_predict_loop (fuel : nat) :
  forall (v y : float) (x : list float) (trajectory : ndarray)
         (time : float),
    no_zero_division
      (Dwa3d.predict_loop M fuel config v y x trajectory time).
Proof.
  induction fuel as [|fuel IH]; intros v y x trajectory time;
    cbn [Dwa3d.predict_loop]; [discriminate |].
  destruct (time <=? predict_time config); [| discriminate].
  apply nzd_bind; [apply nzd_dwa3d_motion | intros x'].
  apply nzd_bind; [apply nzd_vstack | intros t']. apply IH.
Qed.

Lemma nzd_dwa3d_control (fuel : nat) (x : list float) (goal : list float)
  (obs : ndarray) :
  no_zero_division (Dwa3d.dwa_control M fuel x config goal obs).
Proof.
  pose proof nzd_final_cost. pose proof nzd_dwa3d_predict_loop.
  unfold Dwa3d.dwa_control, Dwa3d.calc_dynamic_window,
    Dwa3d.calc_control_and_trajectory, Dwa3d.search_body,
    Dwa3d.accept_candidate, Dwa3d.predict_trajectory.
  nzd.
Qed.

Lemma nzd_flocking_motion (x : list (list float)) (n : nat)
  (u : list float) (t : float) :
  no_zero_division (Flocking.motion M x n u t).
Proof. unfold Flocking.motion. nzd. Qed.

Lemma nzd_flocking_predict_loop (fuel : nat) :
  forall (n : nat) (v y : float) (x : list (list float))
         (trajectory : ndarray) (time : float),
    no_zero_division
      (Flocking.predict_loop M fuel config n v y x trajectory time).
Proof.
  induction fuel as [|fuel IH]; intros n v y x trajectory time;
    cbn [Flocking.predict_loop]; [discriminate |].
  destruct (time <=? predict_time config); [| discriminate].
  apply nzd_bind; [apply nzd_flocking_motion | intros x'].
  apply nzd_bind; [apply nzd_vstack | intros t']. apply IH.
Qed.

Lemma nzd_flocking_control (fuel : nat) (x : list (list float))
  (goal : list float) (obs : ndarray) :
  no_zero_division (Flocking.dwa_control M fuel x config goal obs).
Proof.
  pose proof nzd_final_cost. pose proof nzd_flocking_predict_loop.
  unfold Flocking.dwa_control, Flocking.calc_dynamic_window,
    Flocking.Vd_row, Flocking.dw_row,
    Flocking.calc_control_and_trajectory, Flocking.search_agent,
    Flocking.search_body, Flocking.accept_candidate,
    Flocking.predict_trajectory.
  nzd.
Qed.

Lemma nzd_flocking_goal_scan (ns : list nat) (x : list (list float))
  (goal : list float) :
  no_zero_division (Flocking.goal_scan M ns x goal config).
Proof.
  induction ns as [|n ns IH]; cbn [Flocking.goal_scan]; [discriminate |].
  nzd.
Qed.

Lemma nzd_flocking_goal1_loop (steps fuel : nat) (goal : list float)
  (obs : ndarray) :
  forall s : Flocking.loop_state,
    no_zero_division (Flocking.goal1_loop M steps fuel config goal obs s).
Proof.
  pose proof nzd_flocking_control. pose proof nzd_flocking_motion.
  pose proof nzd_flocking_goal_scan.
  induction steps as [|steps IH]; intros s; cbn [Flocking.goal1_loop];
    [discriminate |].
  apply nzd_bind; [| apply IH].
  unfold Flocking.goal1_step.
  apply nzd_bind; [auto | intros ut].
  apply nzd_bind.
  { apply nzd_for_each. intros y n.
    destruct (nth_error (fst ut) n); [auto | discriminate]. }
  intros y. nzd.
Qed.

End NoZeroDivision.

(** A [ZeroDivisionError] tells that a resolution is zero. *)
Lemma zero_division_resolution {A : Type} (config : Config) (c : res A) :
  ((v_resolution config =? 0) = false ->
   (yaw_rate_resolution config =? 0) = false -> no_zero_division c) ->
  c = Raise ZeroDivisionError ->
  (v_resolution config =? 0) = true
  \/ (yaw_rate_resolution config =? 0) = true.
Proof.
  intros H E.
  destruct (v_resolution config =? 0) eqn:Ev; [left; reflexivity |].
  destruct (yaw_rate_resolution config =? 0) eqn:Ey; [right; reflexivity |].
  exfalso. exact (H eq_refl eq_refl E).
Qed.

(** * A control step of [dwa_flocking.py] on a well-shaped state *)

Lemma for_each_runs {A S : Type} (P : S -> Prop) (body : S -> A -> res S)
  (l : list A) :
  (forall s a, P s -> In a l ->
               (exists s', body s a = Ok s' /\ P s')
               \/ arange_refused (body s a)) ->
  forall s, P s ->
            (exists s', for_each l body s = Ok s' /\ P s')
            \/ arange_refused (for_each l body s).
Proof.
  induction l as [|a l IH]; intros H s Hs; cbn.
  - left. eauto.
  - destruct (H s a Hs (or_introl eq_refl)) as [[s1 [-> Hs1]] | [-> | ->]];
      cbn [bind]; [| right; left; reflexivity | right; right; reflexivity].
    apply IH; [| exact Hs1].
    intros s' a' Hs' Ha'. apply H; [exact Hs' | right; exact Ha'].
Qed.

Lemma six_commands_replace (us : list (list float)) (n : nat) (v w : float) :
  six_commands us -> six_commands (replace_nth us n [v; w]).
Proof.
  intros [Hlen Hus]. split; [rewrite length_replace_nth; exact Hlen |].
  intros u Hu. apply in_replace_nth in Hu.
  destruct Hu as [-> | Hu]; [reflexivity | apply Hus; exact Hu].
Qed.

Lemma six_commands_init :
  six_commands (map (fun _ : nat => [0.0; 0.0]) Flocking.agents).
Proof.
  split; [reflexivity |]. cbn. intros u Hu.
  repeat (destruct Hu as [<- | Hu]; [reflexivity |]). destruct Hu.
Qed.

Section ControlStep.
Variable M : Libm.
Variables (fuel k : nat) (config : Config) (goal : list float)
  (obstacles : list (list float)) (x : list (list float)).
Hypothesis Hx : flock_shaped x.
Hypothesis Hgoal : (2 <= length goal)%nat.
Hypothesis Hobs : obstacles <> [].
Hypothesis Hcols : forall o, In o obstacles -> (2 <= length o)%nat.
Hypothesis Hrun : runs_for config 0 k.
Hypothesis Hfuel : (k < fuel)%nat.

(** A candidate is simulated and scored, unless [math.cos] or [math.sin]
    refuses a heading of the simulation or the angle of the goal cost. *)
Lemma flocking_final_cost_runs (n : nat) (v y : float) :
  (n < 6)%nat ->
  (exists tr c,
      Flocking.predict_trajectory M fuel x n v y config = Ok tr
      /\ final_cost M config tr goal (Arr2 obstacles) = Ok c)
  \/ (tr <- Flocking.predict_trajectory M fuel x n v y config ;;
      final_cost M config tr goal (Arr2 obstacles)) = Raise ValueError.
Proof.
  intros Hn. destruct (flock_shaped_row x n Hx Hn) as [row [En Hrow]].
  destruct Hx as [Hlen Hrows].
  rewrite (flocking_predict_trajectory_runs M fuel k config n v y x row)
    by assumption.
  destruct (headings_ok (nth 2 row 0) y (dt config) k);
    [| right; reflexivity].
  cbn [bind].
  set (rows := x ++ flocking_snapshots M x n row v y (dt config) k).
  cut ((exists c, final_cost M config (Arr2 rows) goal (Arr2 obstacles)
                  = Ok c)
       \/ final_cost M config (Arr2 rows) goal (Arr2 obstacles)
          = Raise ValueError).
  { intros [[c Hc] | Hc]; [left | right; exact Hc].
    exists (Arr2 rows), c. split; [reflexivity | exact Hc]. }
  assert (Hne : rows <> []).
  { unfold rows. destruct x; [cbn in Hlen; lia | discriminate]. }
  assert (Hwide : forall r, In r rows -> (5 <= length r)%nat).
  { intros r Hr. unfold rows in Hr. apply in_app_or in Hr.
    destruct Hr as [Hr | Hr]; [apply Hrows; exact Hr |].
    eapply flocking_snapshots_wide; [exact Hrows | exact Hrow | exact Hr]. }
  assert (Hlast : forall j, (j < 5)%nat ->
                    exists t, getitem_last (Arr2 rows) j = Ok t).
  { intros j Hj. rewrite getitem_last_rows by exact Hne.
    apply getitem_long.
    specialize (Hwide (last rows []) (last_in rows [] Hne)). lia. }
  unfold final_cost, calc_to_goal_cost, math_sin, math_cos.
  destruct (getitem_long goal 0) as [g0 ->]; [lia |]. cbn [bind].
  destruct (Hlast 0%nat) as [t0 ->]; [lia |]. cbn [bind].
  destruct (getitem_long goal 1) as [g1 ->]; [lia |]. cbn [bind].
  destruct (Hlast 1%nat) as [t1 ->]; [lia |]. cbn [bind].
  destruct (Hlast 2%nat) as [t2 ->]; [lia |]. cbn [bind].
  destruct (math_ok _); cbn [bind]; [| right; reflexivity].
  destruct (Hlast 3%nat) as [t3 ->]; [lia |]. cbn [bind].
  rewrite calc_obstacle_cost_unfold;
    [| intros r Hr; specialize (Hwide r Hr); lia | exact Hcols].
  destruct (any_le _ _); cbn [bind]; [eauto |].
  unfold np_min.
  pose proof (distance_matrix_nonempty M rows obstacles Hne Hobs) as Hd.
  destruct (concat (distance_matrix M rows obstacles)); [congruence |].
  cbn [bind]. eauto.
Qed.

Lemma flocking_search_body_runs (st : Flocking.search_state) (n : nat)
  (v y : float) :
  (n < 6)%nat -> six_commands (Flocking.best_u st) ->
  (exists st',
      Flocking.search_body M fuel x config goal (Arr2 obstacles) st n v y
      = Ok st'
      /\ six_commands (Flocking.best_u st'))
  \/ arange_refused
       (Flocking.search_body M fuel x config goal (Arr2 obstacles) st n v y).
Proof.
  intros Hn Hst. unfold Flocking.search_body, Flocking.accept_candidate.
  destruct (flocking_final_cost_runs n v y Hn) as [[tr [c [Etr Ec]]] | E].
  2:{ right. left.
      destruct (Flocking.predict_trajectory M fuel x n v y config)
        as [tr|e|]; cbn [bind] in *;
        [| injection E as ->; reflexivity | discriminate E].
      rewrite E. reflexivity. }
  left. rewrite Etr. cbn [bind]. rewrite Ec. cbn [bind].
  destruct (c <=? Flocking.min_cost st);
    [| eexists; split; [reflexivity | exact Hst]].
  assert (Hlt : (n < length (Flocking.best_u st))%nat)
    by (destruct Hst as [Hlen _]; lia).
  apply nth_error_Some in Hlt.
  destruct (nth_error (Flocking.best_u st) n) as [u0|] eqn:Eu;
    [| congruence].
  assert (En : nth_error (replace_nth (Flocking.best_u st) n [v; y]) n
               = Some [v; y])
    by (eapply nth_error_replace_nth_eq; exact Eu).
  unfold getitem2 at 1. rewrite En. cbn [getitem nth_error bind].
  destruct (abs v <? robot_stuck_flag_cons config).
  - destruct (getitem2_shaped x n 3 Hx Hn) as [xv ->]; [lia |].
    cbn [bind].
    destruct (abs xv <? robot_stuck_flag_cons config).
    + unfold setitem2. rewrite En. cbn. rewrite replace_nth_twice.
      eexists. split; [reflexivity | apply six_commands_replace, Hst].
    + eexists. split; [reflexivity | apply six_commands_replace, Hst].
  - eexists. split; [reflexivity | apply six_commands_replace, Hst].
Qed.

Lemma flocking_search_agent_runs (dw : list (list scalar))
  (st : Flocking.search_state) (n : nat) (lo hi ylo yhi : scalar) :
  (n < 6)%nat -> nth_error dw n = Some [lo; hi; ylo; yhi] ->
  six_commands (Flocking.best_u st) ->
  (exists st',
      Flocking.search_agent M fuel x dw config goal (Arr2 obstacles) st n
      = Ok st'
      /\ six_commands (Flocking.best_u st'))
  \/ arange_refused
       (Flocking.search_agent M fuel x dw config goal (Arr2 obstacles) st n).
Proof.
  intros Hn Hdw Hst. unfold Flocking.search_agent, getitem2.
  rewrite Hdw. cbn [getitem nth_error bind].
  destruct (arange_cases lo hi (v_resolution config)) as [[vs ->] | [-> | ->]];
    cbn [bind]; [| right; left; reflexivity | right; right; reflexivity].
  apply (for_each_runs (fun st => six_commands (Flocking.best_u st)));
    [| exact Hst].
  intros s v Hs _.
  destruct (arange_cases ylo yhi (yaw_rate_resolution config))
    as [[ys ->] | [-> | ->]];
    cbn [bind]; [| right; left; reflexivity | right; right; reflexivity].
  apply (for_each_runs (fun st => six_commands (Flocking.best_u st)));
    [| exact Hs].
  intros s' y Hs' _. apply flocking_search_body_runs; assumption.
Qed.

Lemma flocking_control_runs :
  (exists us tr,
      Flocking.dwa_control M fuel x config goal (Arr2 obstacles)
      = Ok (us, tr)
      /\ six_commands us)
  \/ arange_refused
       (Flocking.dwa_control M fuel x config goal (Arr2 obstacles)).
Proof.
  unfold Flocking.dwa_control.
  rewrite (flocking_window_shaped x config Hx).
  cbn [bind]. unfold Flocking.calc_control_and_trajectory.
  match goal with
  | |- context [for_each ?l ?body ?init] =>
      destruct (for_each_runs
                  (fun st => six_commands (Flocking.best_u st)) body l)
        with (s := init) as [[st [-> Hst]] | [-> | ->]]
  end.
  - intros s n Hs Hn. apply in_agents in Hn.
    destruct (flock_shaped_row x n Hx Hn) as [row [En _]].
    eapply flocking_search_agent_runs; try eassumption.
    rewrite nth_error_map, nth_error_firstn.
    apply Nat.ltb_lt in Hn. rewrite Hn, En. reflexivity.
  - exact six_commands_init.
  - left. cbn [bind]. eauto.
  - right; left; reflexivity.
  - right; right; reflexivity.
Qed.

End ControlStep.

(** X15.  One call of [dwa_control] of [dwa_flocking.py] cannot fail on
    an index or run away.  On a state array with six agents of five
    fields, a goal of two coordinates and a non-empty obstacle array of
    two columns, when the loop of the simulator ends after [k] passes and
    is given more fuel than that, the call either returns, with one
    command of two entries for each of the six agents, or raises
    [ValueError] or [ZeroDivisionError].  [ValueError] is raised by
    [np.arange] on bounds of a window from which it gets no length (a NaN,
    or a length no array can have), and by [math.cos] and [math.sin]
    on an infinite heading or goal angle; [ZeroDivisionError] by
    [np.arange] on a resolution of zero between two static bounds, and
    only with a Config in which a resolution is zero.  The call raises no
    [IndexError] and no [TypeError]. *)
Theorem flocking_control_step_safe :
  forall (M : Libm) (fuel k : nat) (config : Config) (goal : list float)
         (obstacles x : list (list float)),
    flock_shaped x -> (2 <= length goal)%nat ->
    obstacles <> [] -> (forall o, In o obstacles -> (2 <= length o)%nat) ->
    runs_for config 0 k -> (k < fuel)%nat ->
    (exists (us : list (list float)) (trajectory : ndarray),
        Flocking.dwa_control M fuel x config goal (Arr2 obstacles)
        = Ok (us, trajectory)
        /\ six_commands us)
    \/ Flocking.dwa_control M fuel x config goal (Arr2 obstacles)
       = Raise ValueError
    \/ (Flocking.dwa_control M fuel x config goal (Arr2 obstacles)
        = Raise ZeroDivisionError
        /\ ((v_resolution config =? 0) = true
            \/ (yaw_rate_resolution config =? 0) = true)).
Proof.
  intros M fuel k config goal obstacles x Hx Hgoal Hobs Hcols Hrun Hfuel.
  destruct (flocking_control_runs M fuel k config goal obstacles x
              Hx Hgoal Hobs Hcols Hrun Hfuel) as [H | [H | H]].
  - left. exact H.
  - right. left. exact H.
  - right. right. split; [exact H |].
    apply (zero_division_resolution config _
             (fun Hv Hy => nzd_flocking_control M config Hv Hy _ _ _ _) H).
Qed.

Lemma flock_shaped_start : flock_shaped Flocking.x_start.
Proof.
  split; [simpl; lia |]. intros row H. each_member H.
Qed.

(** The first control step of [main], under the Config of the file. *)
Lemma flocking_control_step_safe_witness :
  (exists (us : list (list float)) (trajectory : ndarray),
      Flocking.dwa_control example_libm 100 Flocking.x_start Flocking.config
        Flocking.goal1 (Arr2 Flocking.objarry)
      = Ok (us, trajectory)
      /\ six_commands us)
  \/ Flocking.dwa_control example_libm 100 Flocking.x_start Flocking.config
       Flocking.goal1 (Arr2 Flocking.objarry)
     = Raise ValueError
  \/ (Flocking.dwa_control example_libm 100 Flocking.x_start Flocking.config
        Flocking.goal1 (Arr2 Flocking.objarry)
      = Raise ZeroDivisionError
      /\ ((v_resolution Flocking.config =? 0) = true
          \/ (yaw_rate_resolution Flocking.config =? 0) = true)).
Proof.
  apply (flocking_control_step_safe example_libm 100 15 Flocking.config
           Flocking.goal1 Flocking.objarry Flocking.x_start).
  - exact flock_shaped_start.
  - simpl. lia.
  - discriminate.
  - intros o H. each_member H.
  - exact runs_for_default.
  - lia.
Defined.

(** * The body of the first loop of the multi-agent [main] *)

Lemma flocking_search_body_six (M : Libm) (fuel : nat)
  (x : list (list float)) (config : Config) (goal : list float)
  (obs : ndarray) (st st' : Flocking.search_state) (n : nat) (v y : float) :
  six_commands (Flocking.best_u st) ->
  Flocking.search_body M fuel x config goal obs st n v y = Ok st' ->
  six_commands (Flocking.best_u st').
Proof.
  intros Hst. unfold Flocking.search_body, Flocking.accept_candidate.
  destruct (Flocking.predict_trajectory M fuel x n v y config) as [tr| |];
    cbn [bind]; try discriminate.
  destruct (final_cost M config tr goal obs) as [c| |];
    cbn [bind]; try discriminate.
  destruct (c <=? Flocking.min_cost st).
  2:{ intros E. injection E as <-. exact Hst. }
  unfold getitem2 at 1.
  destruct (nth_error (replace_nth (Flocking.best_u st) n [v; y]) n)
    as [r|] eqn:En; [| discriminate].
  destruct (nth_error_replace_nth_inv _ _ _ _ _ En) as [[_ ->] | [Hc _]];
    [| congruence].
  cbn [getitem nth_error bind].
  destruct (abs v <? robot_stuck_flag_cons config).
  - destruct (getitem2 x n 3) as [xv| |]; cbn [bind]; try discriminate.
    destruct (abs xv <? robot_stuck_flag_cons config).
    + unfold setitem2. rewrite En. cbn. rewrite replace_nth_twice.
      intros E. injection E as <-. cbn. apply six_commands_replace, Hst.
    + intros E. injection E as <-. cbn. apply six_commands_replace, Hst.
  - intros E. injection E as <-. cbn. apply six_commands_replace, Hst.
Qed.

Lemma flocking_search_six (M : Libm) (fuel : nat)
  (x : list (list float)) (dw : list (list scalar)) (config : Config)
  (goal : list float)
  (obs : ndarray) (us : list (list float)) (trajectory : ndarray) :
  Flocking.calc_control_and_trajectory M fuel x dw config goal obs
  = Ok (us, trajectory) ->
  six_commands us.
Proof.
  unfold Flocking.calc_control_and_trajectory.
  match goal with
  | |- (st <- for_each ?l ?body ?init ;; _) = _ -> _ =>
      destruct (for_each l body init) as [st| |] eqn:E
  end; cbn [bind]; try discriminate.
  intros R. injection R as <- _.
  revert E.
  apply (for_each_invariant (fun st => six_commands (Flocking.best_u st)));
    [| exact six_commands_init].
  intros s n s' Hs. unfold Flocking.search_agent.
  destruct (getitem2 dw n 0) as [lo| |]; cbn [bind]; try discriminate.
  destruct (getitem2 dw n 1) as [hi| |]; cbn [bind]; try discriminate.
  destruct (arange lo hi (v_resolution config)) as [vs| |];
    cbn [bind]; try discriminate.
  revert s s' Hs.
  apply (for_each_invariant
           (fun st => six_commands (Flocking.best_u st))).
  intros s v s' Hs.
  destruct (getitem2 dw n 2) as [ylo| |]; cbn [bind]; try discriminate.
  destruct (getitem2 dw n 3) as [yhi| |]; cbn [bind]; try discriminate.
  destruct (arange ylo yhi (yaw_rate_resolution config)) as [ys| |];
    cbn [bind]; try discriminate.
  revert s s' Hs.
  apply (for_each_invariant
           (fun st => six_commands (Flocking.best_u st))).
  intros s y s'. apply flocking_search_body_six.
Qed.

(** A loop whose passes keep a relation between the elements done so
    far and the state. *)
Lemma for_each_prefix {A S : Type} (P : list A -> S -> Prop)
  (body : S -> A -> res S) (whole : list A) :
  (forall done a rest s,
      whole = done ++ a :: rest -> P done s ->
      exists s', body s a = Ok s' /\ P (done ++ [a]) s') ->
  forall l done s,
    whole = done ++ l -> P done s ->
    exists s', for_each l body s = Ok s' /\ P whole s'.
Proof.
  intros H. induction l as [|a l IH]; intros done s Hw Hs; cbn.
  - rewrite app_nil_r in Hw. subst whole. eauto.
  - destruct (H done a l s Hw Hs) as [s1 [-> Hs1]]. cbn [bind].
    apply (IH (done ++ [a])); [| exact Hs1].
    rewrite <- app_assoc. exact Hw.
Qed.

(** The six motion updates of a pass: each one moves its own agent, from
    the row the agent had when the pass began. *)
Lemma flocking_apply_commands (M : Libm) (us x : list (list float))
  (t : float) :
  six_commands us -> flock_shaped x ->
  (forall n row u, (n < 6)%nat ->
      nth_error x n = Some row -> nth_error us n = Some u ->
      math_ok (nth 2 row 0 + nth 1 u 0 * t) = true) ->
  exists x',
    for_each Flocking.agents
      (fun x n =>
         match nth_error us n with
         | Some un => Flocking.motion M x n un t
         | None => Raise IndexError
         end) x = Ok x'
    /\ flock_shaped x' /\ length x' = length x
    /\ (forall w, same_width w x -> same_width w x')
    /\ commands_applied us x' Flocking.agents.
Proof.
  intros [Hlen Hus] Hx Hmath.
  match goal with
  | |- context [for_each Flocking.agents ?body x] =>
      destruct (for_each_prefix
                  (fun done y => flock_shaped y /\ length y = length x
                                 /\ (forall w, same_width w x ->
                                                same_width w y)
                                 /\ commands_applied us y done
                                 /\ forall m, ~ In m done ->
                                       nth_error y m = nth_error x m)
                  body Flocking.agents)
        with (l := Flocking.agents) (done := @nil nat) (s := x)
        as [x' [-> [Hx' [Hlen' [Hw' [Happ _]]]]]]
  end.
  - intros done n rest y Hsplit [Hy [Hl [Hw [Hdone Hkeep]]]].
    assert (Hn : (n < 6)%nat).
    { apply in_agents. rewrite Hsplit. apply in_or_app. right. left.
      reflexivity. }
    assert (Hfresh : ~ In n done).
    { pose proof (seq_NoDup 6 0) as ND. fold Flocking.agents in ND.
      rewrite Hsplit in ND. apply NoDup_remove_2 in ND.
      intros Hin. apply ND. apply in_or_app. left. exact Hin. }
    destruct (nth_error us n) as [un|] eqn:Eun;
      [| apply nth_error_None in Eun; lia].
    destruct (flock_shaped_row y n Hy Hn) as [row [En Hrow]].
    assert (Hun : length un = 2%nat)
      by (apply Hus; eapply nth_error_In; exact Eun).
    destruct un as [|v [|w [|]]]; try discriminate.
    rewrite (flocking_motion_row M y n row v w t En Hrow).
    assert (Hok : math_ok (nth 2 row 0 + w * t) = true).
    { apply (Hmath n row [v; w] Hn); [| exact Eun].
      rewrite <- Hkeep; assumption. }
    rewrite Hok.
    eexists. split; [reflexivity |].
    split; [apply flock_shaped_replace;
            [exact Hy | rewrite flocking_tick_length; exact Hrow] |].
    split; [rewrite length_replace_nth; exact Hl |].
    split.
    { intros wd Hwx r Hr. apply in_replace_nth in Hr.
      destruct Hr as [-> | Hr]; [| apply (Hw wd Hwx); exact Hr].
      rewrite flocking_tick_length. apply (Hw wd Hwx).
      eapply nth_error_In; exact En. }
    split.
    { intros m u Hm Hu. unfold getitem2.
      destruct (Nat.eq_dec m n) as [-> | Hne].
      + rewrite (nth_error_replace_nth_eq _ _ _ _ En).
        rewrite Eun in Hu. injection Hu as <-.
        apply flocking_tick_fields. exact Hrow.
      + rewrite nth_error_replace_nth_neq by congruence.
        apply in_app_or in Hm. destruct Hm as [Hm | [-> | []]];
          [| congruence].
        apply (Hdone m u Hm Hu). }
    intros m Hm.
    rewrite nth_error_replace_nth_neq.
    + apply Hkeep. intros Hin. apply Hm. apply in_or_app. left. exact Hin.
    + intros ->. apply Hm. apply in_or_app. right. left. reflexivity.
  - reflexivity.
  - split; [exact Hx | split; [reflexivity | split; [auto |]]].
    split; [intros n u [] | reflexivity].
  - eexists. split; [reflexivity |]. auto.
Qed.

Lemma flocking_goal_scan_runs (M : Libm) (x : list (list float))
  (goal : list float) (config : Config) (ns : list nat) :
  flock_shaped x -> (2 <= length goal)%nat ->
  (forall n, In n ns -> (n < 6)%nat) ->
  exists b, Flocking.goal_scan M ns x goal config = Ok b.
Proof.
  intros Hx Hgoal. induction ns as [|n ns IH]; intros Hns; cbn; [eauto |].
  assert (Hn : (n < 6)%nat) by (apply Hns; left; reflexivity).
  destruct (getitem2_shaped x n 0 Hx Hn) as [a ->]; [lia |]. cbn [bind].
  destruct (getitem_long goal 0) as [g0 ->]; [lia |]. cbn [bind].
  destruct (getitem2_shaped x n 1 Hx Hn) as [b ->]; [lia |]. cbn [bind].
  destruct (getitem_long goal 1) as [g1 ->]; [lia |]. cbn [bind].
  destruct (_ <=? _); [eauto |].
  apply IH. intros m Hm. apply Hns. right; exact Hm.
Qed.

Lemma flocking_goal_scan_spec (M : Libm) (x : list (list float))
  (goal : list float) (config : Config) (ns : list nat) (b : bool) :
  Flocking.goal_scan M ns x goal config = Ok b ->
  (b = true <-> exists n, In n ns /\ agent_at_goal M x goal config n).
Proof.
  revert b. induction ns as [|n ns IH]; intros b; cbn.
  - intros E. injection E as <-. split; [discriminate | intros [n [[] _]]].
  - destruct (getitem2 x n 0) as [a| |] eqn:Ea; cbn [bind];
      try discriminate.
    destruct (getitem goal 0) as [g0| |] eqn:Eg0; cbn [bind];
      try discriminate.
    destruct (getitem2 x n 1) as [c| |] eqn:Ec; cbn [bind];
      try discriminate.
    destruct (getitem goal 1) as [g1| |] eqn:Eg1; cbn [bind];
      try discriminate.
    unfold getitem2 in Ea, Ec.
    destruct (nth_error x n) as [row|] eqn:En; try discriminate.
    apply getitem_ok_nth in Ea, Ec, Eg0, Eg1. subst a c g0 g1.
    destruct (_ <=? _) eqn:Ed.
    + intros E. injection E as <-. split; [intros _ | reflexivity].
      exists n. split; [left; reflexivity |].
      exists row. split; [exact En | exact Ed].
    + intros E. rewrite (IH b E). split.
      * intros [m [Hm Hat]]. exists m. split; [right; exact Hm | exact Hat].
      * intros [m [[<- | Hm] Hat]]; [| eauto].
        destruct Hat as [row' [En' Hd]]. congruence.
Qed.

(** X16.  The body of the first loop of the multi-agent [main] (the
    plotting apart) keeps the shape of its state.  Entered with six agents
    of five fields, a goal of two coordinates and a two-dimensional
    history whose rows are as wide as those of the state array (what
    [np.vstack] needs), if the call of [dwa_control] returns, and the new
    heading of each agent is one that [math.cos] and [math.sin] accept,
    then the pass completes: the six motion updates and the goal check
    raise nothing; the state array keeps its rows and their width; the
    history is extended by the new state; the velocity fields of every
    agent hold the command that was returned for it; and [Goal!!] is
    printed once if some agent is within the robot's radius of the goal,
    however many are, and not at all if none is. *)
Theorem flocking_step_keeps_shape :
  forall (M : Libm) (fuel : nat) (config : Config) (goal : list float)
         (obs : ndarray) (s : Flocking.loop_state) (w : nat)
         (h us : list (list float)) (trajectory : ndarray),
    flock_shaped (Flocking.agents_x s) -> (2 <= length goal)%nat ->
    same_width w (Flocking.agents_x s) ->
    Flocking.history s = Arr2 h -> same_width w h ->
    Flocking.dwa_control M fuel (Flocking.agents_x s) config goal obs
    = Ok (us, trajectory) ->
    (forall n row u, (n < 6)%nat ->
        nth_error (Flocking.agents_x s) n = Some row ->
        nth_error us n = Some u ->
        math_ok (nth 2 row 0 + nth 1 u 0 * dt config) = true) ->
    exists s' : Flocking.loop_state,
      Flocking.goal1_step M fuel config goal obs s = Ok s'
      /\ flock_shaped (Flocking.agents_x s')
      /\ length (Flocking.agents_x s') = length (Flocking.agents_x s)
      /\ same_width w (Flocking.agents_x s')
      /\ Flocking.history s' = Arr2 (h ++ Flocking.agents_x s')
      /\ (forall n u, (n < 6)%nat -> nth_error us n = Some u ->
                      getitem2 (Flocking.agents_x s') n 3 = getitem u 0
                      /\ getitem2 (Flocking.agents_x s') n 4 = getitem u 1)
      /\ ((Flocking.goals_printed s' = S (Flocking.goals_printed s)
           /\ exists n, (n < 6)%nat
                /\ agent_at_goal M (Flocking.agents_x s') goal config n)
          \/ (Flocking.goals_printed s' = Flocking.goals_printed s
              /\ forall n, (n < 6)%nat ->
                   ~ agent_at_goal M (Flocking.agents_x s') goal config n)).
Proof.
  intros M fuel config goal obs s w h us tr Hx Hgoal Hwx Hh Hwh Hut Hm.
  unfold Flocking.goal1_step. rewrite Hut. cbn [bind fst].
  assert (Hus : six_commands us).
  { unfold Flocking.dwa_control in Hut.
    destruct (Flocking.calc_dynamic_window _ _) as [dw| |];
      cbn [bind] in Hut; try discriminate.
    eapply flocking_search_six; exact Hut. }
  destruct (flocking_apply_commands M us (Flocking.agents_x s) (dt config)
              Hus Hx Hm) as [x' [-> [Hx' [Hlen' [Hw' Happ]]]]].
  cbn [bind]. rewrite Hh. cbn [vstack atleast_2d bind].
  destruct (flocking_goal_scan_runs M x' goal config Flocking.agents
              Hx' Hgoal) as [b Eb].
  { intros n Hn. apply in_agents. exact Hn. }
  rewrite Eb. cbn [bind]. eexists. split; [reflexivity |]. cbn.
  split; [exact Hx' | split; [exact Hlen' |]].
  split; [apply Hw'; exact Hwx | split; [reflexivity |]].
  split.
  - intros n u Hn Hu. apply Happ; [apply in_agents; exact Hn | exact Hu].
  - apply flocking_goal_scan_spec in Eb. destruct b.
    + left. split; [reflexivity |].
      destruct (proj1 Eb eq_refl) as [n [Hn Hat]].
      exists n. split; [apply in_agents; exact Hn | exact Hat].
    + right. split; [reflexivity |]. intros n Hn Hat.
      assert (E : false = true); [| discriminate].
      apply Eb. exists n. split; [apply in_agents; exact Hn | exact Hat].
Qed.

Lemma flock_shaped_near_goal :
  flock_shaped (Flocking.agents_x near_goal_state).
Proof.
  split; [simpl; lia |]. intros row H. each_member H.
Qed.

(** The pass entered with agent 0 at 0.2 m from the first goal. *)
Lemma flocking_step_keeps_shape_witness :
  exists s' : Flocking.loop_state,
    Flocking.goal1_step example_libm 100 Flocking.config Flocking.goal1
      (ob Flocking.config) near_goal_state = Ok s'
    /\ flock_shaped (Flocking.agents_x s')
    /\ length (Flocking.agents_x s') = 6%nat
    /\ Flocking.history s'
       = Arr2 (Flocking.agents_x near_goal_state ++ Flocking.agents_x s')
    /\ Flocking.goals_printed s' = 1%nat.
Proof.
  pose (us := [[0.019999999999999997; 0.052359877559829862];
               [0.019999999999999997; 0.052359877559829862];
               [0.019999999999999997; 0.052359877559829862];
               [0.019999999999999997; 0.052359877559829862];
               [0.019999999999999997; 0.052359877559829862];
               [0.019999999999999997; -1.3877787807814457e-17]]).
  assert (W : exists trajectory,
             Flocking.dwa_control example_libm 100
               (Flocking.agents_x near_goal_state) Flocking.config
               Flocking.goal1 (ob Flocking.config)
             = Ok (us, trajectory))
    by (eexists; vm_compute; reflexivity).
  destruct W as [trajectory W].
  destruct (flocking_step_keeps_shape example_libm 100 Flocking.config
              Flocking.goal1 (ob Flocking.config) near_goal_state 5
              (Flocking.agents_x near_goal_state) us trajectory
              flock_shaped_near_goal)
    as [s' [E [Hs [Hl [_ [Hh [_ Hg]]]]]]].
  - simpl. lia.
  - intros r H. each_member H.
  - reflexivity.
  - intros r H. each_member H.
  - exact W.
  - intros n row u Hn.
    do 6 (destruct n as [|n];
          [cbn; intros Hrow Hu; injection Hrow as <-; injection Hu as <-;
           reflexivity |]).
    lia.
  - exists s'. split; [exact E |].
    split; [exact Hs | split; [exact Hl | split; [exact Hh |]]].
    assert (G : (r <- Flocking.goal1_step example_libm 100 Flocking.config
                        Flocking.goal1 (ob Flocking.config)
                        near_goal_state ;;
                 Ok (Flocking.goals_printed r)) = Ok 1%nat)
      by (vm_compute; reflexivity).
    rewrite E in G. cbn [bind] in G. congruence.
Defined.

(** * The commands the search returns *)

Lemma flocking_search_body_sampled (M : Libm) (fuel : nat)
  (x : list (list float)) (dw : list (list scalar)) (config : Config)
  (goal : list float)
  (obs : ndarray) (st st' : Flocking.search_state) (n : nat) (v y : float) :
  (forall w, w = y \/ w = - max_delta_yaw_rate config ->
             sampled_command config dw n [v; w]) ->
  flocking_sampled_inv config dw st ->
  Flocking.search_body M fuel x config goal obs st n v y = Ok st' ->
  flocking_sampled_inv config dw st'.
Proof.
  intros Hcand Hst. unfold Flocking.search_body, Flocking.accept_candidate.
  destruct (Flocking.predict_trajectory M fuel x n v y config) as [tr| |];
    cbn [bind]; try discriminate.
  destruct (final_cost M config tr goal obs) as [c| |];
    cbn [bind]; try discriminate.
  destruct (c <=? Flocking.min_cost st).
  2:{ intros E. injection E as <-. exact Hst. }
  unfold getitem2 at 1.
  destruct (nth_error (replace_nth (Flocking.best_u st) n [v; y]) n)
    as [r|] eqn:En; [| discriminate].
  destruct (nth_error_replace_nth_inv _ _ _ _ _ En) as [[_ ->] | [Hc _]];
    [| congruence].
  cbn [getitem nth_error bind].
  assert (Hnew : forall w,
             w = y \/ w = - max_delta_yaw_rate config ->
             forall m u,
               nth_error (replace_nth (Flocking.best_u st) n [v; w]) m
               = Some u ->
               u = [0.0; 0.0] \/ sampled_command config dw m u).
  { intros w Hw m u Hm.
    destruct (nth_error_replace_nth_inv _ _ _ _ _ Hm) as [[-> ->] | [_ Hm']].
    - right. apply Hcand. exact Hw.
    - apply Hst. exact Hm'. }
  destruct (abs v <? robot_stuck_flag_cons config).
  - destruct (getitem2 x n 3) as [xv| |]; cbn [bind]; try discriminate.
    destruct (abs xv <? robot_stuck_flag_cons config).
    + unfold setitem2. rewrite En. cbn. rewrite replace_nth_twice.
      intros E. injection E as <-. cbn. intros m u.
      apply Hnew. right; reflexivity.
    + intros E. injection E as <-. cbn. intros m u.
      apply Hnew. left; reflexivity.
  - intros E. injection E as <-. cbn. intros m u.
    apply Hnew. left; reflexivity.
Qed.

(** X17.  The search of [dwa_flocking.py] returns only commands it has
    sampled.  Whenever it returns, the command of every agent [n] is the
    [[0.0, 0.0]] the search starts from, or a pair whose velocity is an
    element of [np.arange] over the velocity bounds of the window of agent
    [n] and whose yaw rate is an element of [np.arange] over its yaw-rate
    bounds, or the anti-stall yaw rate [-max_delta_yaw_rate]: never a
    value taken from the window of another agent. *)
Theorem flocking_commands_are_sampled :
  forall (M : Libm) (fuel : nat) (x : list (list float))
         (dw : list (list scalar))
         (config : Config) (goal : list float) (obs : ndarray)
         (us : list (list float)) (trajectory : ndarray),
    Flocking.calc_control_and_trajectory M fuel x dw config goal obs
    = Ok (us, trajectory) ->
    forall (n : nat) (u : list float),
      nth_error us n = Some u ->
      u = [0.0; 0.0] \/ sampled_command config dw n u.
Proof.
  intros M fuel x dw config goal obs us trajectory.
  unfold Flocking.calc_control_and_trajectory.
  match goal with
  | |- (st <- for_each ?l ?body ?init ;; _) = _ -> _ =>
      destruct (for_each l body init) as [st| |] eqn:E
  end; cbn [bind]; try discriminate.
  intros R. injection R as <- _.
  revert E. apply (for_each_invariant (flocking_sampled_inv config dw)).
  - intros s n s' Hs. unfold Flocking.search_agent.
    destruct (getitem2 dw n 0) as [lo| |] eqn:E0; cbn [bind];
      try discriminate.
    destruct (getitem2 dw n 1) as [hi| |] eqn:E1; cbn [bind];
      try discriminate.
    destruct (arange lo hi (v_resolution config)) as [vs| |] eqn:Ev;
      cbn [bind]; try discriminate.
    revert s s' Hs.
    apply (for_each_invariant_in (flocking_sampled_inv config dw)).
    intros s v s' Hv Hs.
    destruct (getitem2 dw n 2) as [ylo| |] eqn:E2; cbn [bind];
      try discriminate.
    destruct (getitem2 dw n 3) as [yhi| |] eqn:E3; cbn [bind];
      try discriminate.
    destruct (arange ylo yhi (yaw_rate_resolution config)) as [ys| |] eqn:Ey;
      cbn [bind]; try discriminate.
    revert s s' Hs.
    apply (for_each_invariant_in (flocking_sampled_inv config dw)).
    intros s y s' Hy Hs. apply flocking_search_body_sampled; [| exact Hs].
    intros w Hw. exists lo, hi, ylo, yhi, v, y, vs, ys.
    repeat (split; [assumption |]).
    destruct Hw as [-> | ->]; [left | right]; reflexivity.
  - intros m u. cbn [Flocking.best_u]. intros Hm.
    apply nth_error_In in Hm. apply in_map_iff in Hm.
    destruct Hm as [_ [<- _]]. left. reflexivity.
Qed.

(** The command returned for agent 4 from the state [main] starts with. *)
Lemma flocking_commands_are_sampled_witness :
  [-3.4694469519536142e-18; -0.69813170079773179] = [0.0; 0.0]
  \/ sampled_command Flocking.config
       (repeat window_at_rest 6)
       4 [-3.4694469519536142e-18; -0.69813170079773179].
Proof.
  assert (W : exists trajectory,
             Flocking.calc_control_and_trajectory example_libm 100
               Flocking.x_start
               (repeat window_at_rest 6)
               Flocking.config Flocking.goal1 (ob Flocking.config)
             = Ok ([[0.019999999999999997; 0.052359877559829862];
                    [0.019999999999999997; 0.052359877559829862];
                    [0.019999999999999997; 0.052359877559829862];
                    [0.019999999999999997; 0.052359877559829862];
                    [-3.4694469519536142e-18; -0.69813170079773179];
                    [0.019999999999999997; -1.3877787807814457e-17]],
                   trajectory))
    by (eexists; vm_compute; reflexivity).
  destruct W as [trajectory W].
  apply (flocking_commands_are_sampled _ _ _ _ _ _ _ _ _ W 4%nat).
  reflexivity.
Defined.

(** * The outcomes of a control step of [dwa_3d.py] *)

Lemma dwa3d_search_body_raises (M : Libm) (fuel : nat) (x : list float)
  (config : Config) (goal : list float) (obs : ndarray)
  (st : Dwa3d.search_state) (v y : float) :
  Dwa3d.search_body M (S fuel) x config goal obs st v y = Raise IndexError
  \/ Dwa3d.search_body M (S fuel) x config goal obs st v y
     = Raise ValueError.
Proof.
  unfold Dwa3d.search_body, Dwa3d.predict_trajectory.
  destruct (0 <=? predict_time config) eqn:E.
  - destruct (dwa3d_predict_loop_raises M fuel config v y x (Arr1 x) 0 E)
      as [-> | ->]; [left | right]; reflexivity.
  - cbn [Dwa3d.predict_loop]. rewrite E. cbn [bind].
    assert (C : final_cost M config (Arr1 x) goal obs = Raise IndexError).
    { unfold final_cost, calc_to_goal_cost.
      destruct (getitem_index_only goal 0) as [[g0 ->] | ->]; reflexivity. }
    rewrite C. left. reflexivity.
Qed.

(** X18.  One call of [dwa_control] of [dwa_3d.py] always ends, and in
    one of four ways: it returns the zero command with the current state
    as the only trajectory row (no candidate was enumerated); it raises
    [IndexError] (the state has fewer than six fields, or a candidate was
    simulated); it raises [ValueError], [np.arange] having got no length
    from the bounds of the window, or [math.cos] an infinite heading from
    the simulation of a candidate; or it raises [ZeroDivisionError],
    [np.arange] having been given a resolution of zero between two static
    bounds, which takes a Config in which a resolution is zero.  It never
    returns another command. *)
Theorem dwa3d_control_outcomes :
  forall (M : Libm) (fuel : nat) (x : list float) (config : Config)
         (goal : list float) (obs : ndarray),
    Dwa3d.dwa_control M (S fuel) x config goal obs
    = Ok ([0.0; 0.0], Arr2 [x])
    \/ Dwa3d.dwa_control M (S fuel) x config goal obs = Raise IndexError
    \/ Dwa3d.dwa_control M (S fuel) x config goal obs = Raise ValueError
    \/ (Dwa3d.dwa_control M (S fuel) x config goal obs
        = Raise ZeroDivisionError
        /\ ((v_resolution config =? 0) = true
            \/ (yaw_rate_resolution config =? 0) = true)).
Proof.
  intros M fuel x config goal obs.
  cut (Dwa3d.dwa_control M (S fuel) x config goal obs
       = Ok ([0.0; 0.0], Arr2 [x])
       \/ Dwa3d.dwa_control M (S fuel) x config goal obs = Raise IndexError
       \/ Dwa3d.dwa_control M (S fuel) x config goal obs = Raise ValueError
       \/ Dwa3d.dwa_control M (S fuel) x config goal obs
          = Raise ZeroDivisionError).
  { intros [H | [H | [H | H]]]; auto.
    right. right. right. split; [exact H |].
    apply (zero_division_resolution config _
             (fun Hv Hy => nzd_dwa3d_control M config Hv Hy _ _ _ _) H). }
  unfold Dwa3d.dwa_control.
  unfold Dwa3d.calc_dynamic_window.
  destruct (getitem_index_only x 4) as [[x4 ->] | ->]; cbn [bind];
    [| right; left; reflexivity].
  destruct (getitem_index_only x 5) as [[x5 ->] | ->]; cbn [bind];
    [| right; left; reflexivity].
  unfold Dwa3d.calc_control_and_trajectory. cbn [getitem nth_error bind].
  match goal with
  | |- context [arange ?lo ?hi (v_resolution config)] =>
      destruct (arange_cases lo hi (v_resolution config))
        as [[vs ->] | [-> | ->]]
  end; cbn [bind]; [| right; right; left; reflexivity
                    | right; right; right; reflexivity].
  match goal with
  | |- context [arange ?lo ?hi (yaw_rate_resolution config)] =>
      destruct (arange_cases lo hi (yaw_rate_resolution config))
        as [[ys Ey] | [Ey | Ey]]
  end.
  - destruct ys as [|y ys].
    + rewrite (for_each_no_inner vs (fun _ _ => arange _ _ _)
                 (fun st v y =>
                    Dwa3d.search_body M (S fuel) x config goal obs st v y))
        by (intros; exact Ey).
      left. reflexivity.
    + destruct vs as [|v vs]; [left; reflexivity |].
      cbn [for_each]. rewrite Ey. cbn [bind for_each].
      match goal with
      | |- context [Dwa3d.search_body M (S fuel) x config goal obs ?st v y]
        => destruct (dwa3d_search_body_raises M fuel x config goal obs
                       st v y) as [-> | ->]
      end; [right; left | right; right; left]; reflexivity.
  - destruct vs as [|v vs]; [left; reflexivity |].
    cbn [for_each]. rewrite Ey. right; right; left; reflexivity.
  - destruct vs as [|v vs]; [left; reflexivity |].
    cbn [for_each]. rewrite Ey. right; right; right; reflexivity.
Qed.

(** * The shapes at work *)

(** [dwa_3d.py]: the five-field state of [main] is too short for the
    window and for the motion model; a seven-field state with a
    three-entry command is moved, and its altitude is 1 afterwards. *)
Lemma dwa3d_shapes_required_witness :
  Dwa3d.calc_dynamic_window [2.5; -5.0; 0.0; 0.0; 0.0] Dwa3d.config
  = Raise IndexError
  /\ Dwa3d.motion example_libm [2.5; -5.0; 0.0; 0.0; 0.0] [0.5; 0.1; 0.3]
       0.1 = Raise IndexError
  /\ exists x',
      Dwa3d.motion example_libm [2.5; -5.0; 7.0; 0.0; 0.0; 0.0; 0.0]
        [0.5; 0.1; 0.3] 0.1 = Ok x'
      /\ length x' = 7%nat
      /\ getitem x' 2 = Ok 1
      /\ getitem x' 6 = Ok 0.3.
Proof.
  destruct (dwa3d_shapes_required example_libm Dwa3d.config
              [2.5; -5.0; 0.0; 0.0; 0.0] [0.5; 0.1; 0.3] 0.1 eq_refl)
    as [_ [Hw [_ Hm]]].
  destruct (dwa3d_shapes_required example_libm Dwa3d.config
              [2.5; -5.0; 7.0; 0.0; 0.0; 0.0; 0.0] [0.5; 0.1; 0.3] 0.1
              eq_refl)
    as [_ [_ [Hok _]]].
  split; [apply Hw; simpl; lia |].
  split; [apply Hm; left; simpl; lia |].
  destruct Hok as [x' [E [Hl [H2 [_ [_ [H6 _]]]]]]]; [simpl; lia |].
  exists x'. auto.
Defined.

(** [dwa_flocking.py]: agent 6 does not exist; agent 1 is moved by a
    command of three entries, the third of which is not read. *)
Lemma flocking_motion_domain_witness :
  Flocking.motion example_libm Flocking.x_start 6 [0.5; 0.1] 0.1
  = Raise IndexError
  /\ Flocking.motion example_libm Flocking.x_start 1 [0.5] 0.1
     = Raise IndexError
  /\ exists x',
      Flocking.motion example_libm Flocking.x_start 1 [0.5; 0.1; 9] 0.1
      = Ok x'
      /\ length x' = 6%nat
      /\ getitem2 x' 1 3 = Ok 0.5
      /\ getitem2 x' 1 4 = Ok 0.1.
Proof.
  split; [| split].
  - refine (proj2 (flocking_motion_domain example_libm Flocking.x_start 6
                     [0.5; 0.1] 0.1 _) _).
    + intros row H. discriminate H.
    + left. reflexivity.
  - refine (proj2 (flocking_motion_domain example_libm Flocking.x_start 1
                     [0.5] 0.1 _) _).
    + intros row H. injection H as <-. reflexivity.
    + right. right. simpl. lia.
  - assert (Hok : forall row,
               nth_error Flocking.x_start 1 = Some row ->
               math_ok (nth 2 row 0 + nth 1 [0.5; 0.1; 9] 0 * 0.1) = true)
      by (intros row H; injection H as <-; reflexivity).
    destruct (proj1 (flocking_motion_domain example_libm Flocking.x_start 1
                       [0.5; 0.1; 9] 0.1 Hok)
                [1.0; -3.0; 0.0; 0.0; 0.0])
      as [x' [E [Hl [_ [H3 H4]]]]];
      [reflexivity | simpl; lia | simpl; lia |].
    exists x'. auto.
Defined.

(** The six windows of the state [main] starts with; a state of five
    agents has none. *)
Lemma flocking_dynamic_window_rows_witness :
  (exists dws : list (list scalar),
      Flocking.calc_dynamic_window Flocking.x_start Flocking.config = Ok dws
      /\ length dws = 6%nat
      /\ nth_error dws 5
         = Some (flocking_window_of Flocking.config
                   [3.0; -5.0; 0.0; 0.0; 0.0]))
  /\ Flocking.calc_dynamic_window (firstn 5 Flocking.x_start)
       Flocking.config = Raise IndexError.
Proof.
  destruct (flocking_dynamic_window_rows Flocking.x_start Flocking.config)
    as [Hok _].
  destruct (flocking_dynamic_window_rows (firstn 5 Flocking.x_start)
              Flocking.config) as [_ Hshort].
  split.
  - destruct (Hok flock_shaped_start) as [dws [E [Hl Hrows]]].
    exists dws. split; [exact E | split; [exact Hl |]].
    apply Hrows; [lia | reflexivity].
  - apply Hshort. exists 5%nat. split; [lia | reflexivity].
Defined.

(** The first control step of [main] of [dwa_3d.py], and a step from a
    seven-field state at rest. *)
Lemma dwa3d_control_outcomes_examples :
  Dwa3d.dwa_control example_libm 100 [2.5; -5.0; 0.0; 0.0; 0.0]
    Dwa3d.config [26.5; -5] (ob Dwa3d.config) = Raise IndexError
  /\ Dwa3d.dwa_control example_libm 100 [2.5; -5.0; 0; 0; 0; 0; 0]
       Dwa3d.config [26.5; -5] (ob Dwa3d.config) = Raise IndexError.
Proof. split; vm_compute; reflexivity. Qed.

(** * The first loop of the multi-agent [main], pass after pass *)

Lemma same_width_app (w : nat) (a b : list (list float)) :
  same_width w a -> same_width w b -> same_width w (a ++ b).
Proof.
  intros Ha Hb r Hr. apply in_app_or in Hr.
  destruct Hr as [Hr | Hr]; [apply Ha | apply Hb]; exact Hr.
Qed.

(** The six motion updates of a pass return a state array of the same
    shape, unless [math.cos] refuses a heading. *)
Lemma flocking_apply_commands_runs (M : Libm) (us x : list (list float))
  (t : float) :
  six_commands us -> flock_shaped x ->
  (exists x',
      for_each Flocking.agents
        (fun x n =>
           match nth_error us n with
           | Some un => Flocking.motion M x n un t
           | None => Raise IndexError
           end) x = Ok x'
      /\ flock_shaped x'
      /\ forall w, same_width w x -> same_width w x')
  \/ arange_refused
       (for_each Flocking.agents
          (fun x n =>
             match nth_error us n with
             | Some un => Flocking.motion M x n un t
             | None => Raise IndexError
             end) x).
Proof.
  intros [Hlen Hus] Hx.
  match goal with
  | |- context [for_each Flocking.agents ?body x] =>
      destruct (for_each_runs
                  (fun y => flock_shaped y
                            /\ forall w, same_width w x -> same_width w y)
                  body Flocking.agents) with (s := x)
        as [[x' [E [Hx' Hw']]] | E]
  end.
  - intros y n [Hy Hw] Hn. apply in_agents in Hn.
    destruct (nth_error us n) as [un|] eqn:Eun;
      [| apply nth_error_None in Eun; lia].
    destruct (flock_shaped_row y n Hy Hn) as [row [En Hrow]].
    assert (Hun : length un = 2%nat)
      by (apply Hus; eapply nth_error_In; exact Eun).
    destruct un as [|v [|w [|]]]; try discriminate.
    rewrite (flocking_motion_row M y n row v w t En Hrow).
    destruct (math_ok (nth 2 row 0 + w * t)); [| right; left; reflexivity].
    left. eexists. split; [reflexivity |].
    split; [apply flock_shaped_replace;
            [exact Hy | rewrite flocking_tick_length; exact Hrow] |].
    intros wd Hwx r Hr. apply in_replace_nth in Hr.
    destruct Hr as [-> | Hr]; [| apply (Hw wd Hwx); exact Hr].
    rewrite flocking_tick_length. apply (Hw wd Hwx).
    eapply nth_error_In; exact En.
  - split; [exact Hx | auto].
  - left. exists x'. auto.
  - right. exact E.
Qed.

Lemma flocking_step_runs (M : Libm) (fuel : nat) (config : Config)
  (goal : list float) (obs : ndarray) (s : Flocking.loop_state) (w : nat)
  (us : list (list float)) (trajectory : ndarray) :
  flocking_loop_inv w s -> (2 <= length goal)%nat ->
  Flocking.dwa_control M fuel (Flocking.agents_x s) config goal obs
  = Ok (us, trajectory) ->
  six_commands us ->
  (exists s', Flocking.goal1_step M fuel config goal obs s = Ok s'
              /\ flocking_loop_inv w s')
  \/ arange_refused (Flocking.goal1_step M fuel config goal obs s).
Proof.
  intros [Hx [Hwx [h [Hh Hwh]]]] Hgoal Hut Hus.
  unfold Flocking.goal1_step. rewrite Hut. cbn [bind fst].
  destruct (flocking_apply_commands_runs M us (Flocking.agents_x s)
              (dt config) Hus Hx) as [[x' [-> [Hx' Hw']]] | [-> | ->]];
    [| right; left; reflexivity | right; right; reflexivity].
  left. cbn [bind]. rewrite Hh. cbn [vstack atleast_2d bind].
  destruct (flocking_goal_scan_runs M x' goal config Flocking.agents
              Hx' Hgoal) as [b ->].
  { intros n Hn. apply in_agents. exact Hn. }
  cbn [bind]. eexists. split; [reflexivity |].
  split; [exact Hx' | split; [apply Hw'; exact Hwx |]].
  cbn. eexists. split; [reflexivity |].
  apply same_width_app; [exact Hwh | apply Hw'; exact Hwx].
Qed.

Section FirstLoop.
Variable M : Libm.
Variables (fuel k : nat) (config : Config) (goal : list float)
  (obstacles : list (list float)).
Hypothesis Hgoal : (2 <= length goal)%nat.
Hypothesis Hobs : obstacles <> [].
Hypothesis Hcols : forall o, In o obstacles -> (2 <= length o)%nat.
Hypothesis Hrun : runs_for config 0 k.
Hypothesis Hfuel : (k < fuel)%nat.

Lemma flocking_goal1_loop_outcomes (w steps : nat) :
  forall s : Flocking.loop_state,
    flocking_loop_inv w s ->
    Flocking.goal1_loop M steps fuel config goal (Arr2 obstacles) s
    = OutOfFuel
    \/ arange_refused
         (Flocking.goal1_loop M steps fuel config goal (Arr2 obstacles) s).
Proof.
  induction steps as [|steps IH]; intros s Hs;
    cbn [Flocking.goal1_loop]; [left; reflexivity |].
  destruct (flocking_control_runs M fuel k config goal obstacles
              (Flocking.agents_x s) (proj1 Hs) Hgoal Hobs Hcols Hrun Hfuel)
    as [[us [tr [Hut Hus]]] | Href].
  - destruct (flocking_step_runs M fuel config goal (Arr2 obstacles) s w us
                tr Hs Hgoal Hut Hus) as [[s' [-> Hs']] | [-> | ->]].
    + cbn [bind]. apply IH. exact Hs'.
    + right. left. reflexivity.
    + right. right. reflexivity.
  - right. unfold Flocking.goal1_step.
    destruct Href as [-> | ->]; [left | right]; reflexivity.
Qed.

End FirstLoop.

(** X19.  The first loop of the multi-agent [main], pass after pass
    (the plotting apart).  Entered with six agents of five fields, a
    two-dimensional history of the same width as the state array, a goal
    of two coordinates and a non-empty obstacle array of two columns, and
    with a simulator whose loop ends, the loop raises no [IndexError] and
    no [TypeError] at any pass: for every number of passes it is still
    running, unless it raised [ValueError] ([np.arange] got no length
    from the bounds of a window, or [math.cos] an infinite heading or
    goal angle) or, with a Config in which a resolution is zero,
    [ZeroDivisionError] ([np.arange] was given the resolution between two
    static bounds).  So [main] itself, under the Config of the file, is
    still running in its first loop or has raised [ValueError]: it never
    reaches its second loop. *)
Theorem flocking_first_loop_outcomes :
  (forall (M : Libm) (steps fuel k : nat) (config : Config)
          (goal : list float) (obstacles : list (list float))
          (s : Flocking.loop_state) (w : nat) (h : list (list float)),
      flock_shaped (Flocking.agents_x s) ->
      same_width w (Flocking.agents_x s) ->
      Flocking.history s = Arr2 h -> same_width w h ->
      (2 <= length goal)%nat ->
      obstacles <> [] -> (forall o, In o obstacles -> (2 <= length o)%nat) ->
      runs_for config 0 k -> (k < fuel)%nat ->
      Flocking.goal1_loop M steps fuel config goal (Arr2 obstacles) s
      = OutOfFuel
      \/ Flocking.goal1_loop M steps fuel config goal (Arr2 obstacles) s
         = Raise ValueError
      \/ (Flocking.goal1_loop M steps fuel config goal (Arr2 obstacles) s
          = Raise ZeroDivisionError
          /\ ((v_resolution config =? 0) = true
              \/ (yaw_rate_resolution config =? 0) = true)))
  /\ (forall (M : Libm) (steps fuel : nat),
         (15 < fuel)%nat ->
         Flocking.main M steps fuel = OutOfFuel
         \/ Flocking.main M steps fuel = Raise ValueError).
Proof.
  assert (L : forall (M : Libm) (steps fuel k : nat) (config : Config)
                     (goal : list float) (obstacles : list (list float))
                     (s : Flocking.loop_state) (w : nat),
             flocking_loop_inv w s ->
             (2 <= length goal)%nat ->
             obstacles <> [] ->
             (forall o, In o obstacles -> (2 <= length o)%nat) ->
             runs_for config 0 k -> (k < fuel)%nat ->
             Flocking.goal1_loop M steps fuel config goal (Arr2 obstacles) s
             = OutOfFuel
             \/ Flocking.goal1_loop M steps fuel config goal
                  (Arr2 obstacles) s
                = Raise ValueError
             \/ (Flocking.goal1_loop M steps fuel config goal
                   (Arr2 obstacles) s
                 = Raise ZeroDivisionError
                 /\ ((v_resolution config =? 0) = true
                     \/ (yaw_rate_resolution config =? 0) = true))).
  { intros M steps fuel k config goal obstacles s w Hs Hgoal Hobs Hcols
      Hrun Hfuel.
    destruct (flocking_goal1_loop_outcomes M fuel k config goal obstacles
                Hgoal Hobs Hcols Hrun Hfuel w steps s Hs)
      as [E | [E | E]]; auto.
    right. right. split; [exact E |].
    apply (zero_division_resolution config _
             (fun Hv Hy =>
                nzd_flocking_goal1_loop M config Hv Hy _ _ _ _ _) E). }
  split.
  - intros M steps fuel k config goal obstacles s w h Hx Hwx Hh Hwh Hgoal
      Hobs Hcols Hrun Hfuel.
    apply (L M steps fuel k config goal obstacles s w); try assumption.
    split; [exact Hx | split; [exact Hwx |]]. eauto.
  - intros M steps fuel Hfuel. unfold Flocking.main.
    change (ob Flocking.config) with (Arr2 Flocking.objarry).
    destruct (L M steps fuel 15%nat Flocking.config Flocking.goal1
                Flocking.objarry
                {| Flocking.agents_x := Flocking.x_start;
                   Flocking.history := Arr2 Flocking.x_start;
                   Flocking.goals_printed := 0 |} 5%nat)
      as [E | [E | [_ [E | E]]]].
    + split; [exact flock_shaped_start |].
      split; [intros r H; each_member H |].
      cbn. eexists. split; [reflexivity |]. intros r H. each_member H.
    + simpl. lia.
    + discriminate.
    + intros o H. each_member H.
    + exact runs_for_default.
    + exact Hfuel.
    + rewrite E. left. reflexivity.
    + rewrite E. right. reflexivity.
    + discriminate E.
    + discriminate E.
Qed.

(** The loop entered by [main], after three passes. *)
Lemma flocking_first_loop_outcomes_witness :
  Flocking.goal1_loop example_libm 3 100 Flocking.config Flocking.goal1
    (Arr2 Flocking.objarry)
    {| Flocking.agents_x := Flocking.x_start;
       Flocking.history := Arr2 Flocking.x_start;
       Flocking.goals_printed := 0 |}
  = OutOfFuel
  \/ Flocking.goal1_loop example_libm 3 100 Flocking.config Flocking.goal1
       (Arr2 Flocking.objarry)
       {| Flocking.agents_x := Flocking.x_start;
          Flocking.history := Arr2 Flocking.x_start;
          Flocking.goals_printed := 0 |}
     = Raise ValueError
  \/ (Flocking.goal1_loop example_libm 3 100 Flocking.config Flocking.goal1
        (Arr2 Flocking.objarry)
        {| Flocking.agents_x := Flocking.x_start;
           Flocking.history := Arr2 Flocking.x_start;
           Flocking.goals_printed := 0 |}
      = Raise ZeroDivisionError
      /\ ((v_resolution Flocking.config =? 0) = true
          \/ (yaw_rate_resolution Flocking.config =? 0) = true)).
Proof.
  apply (proj1 flocking_first_loop_outcomes example_libm 3%nat 100%nat 15%nat
           Flocking.config Flocking.goal1 Flocking.objarry _ 5%nat
           Flocking.x_start).
  - exact flock_shaped_start.
  - intros r H. each_member H.
  - reflexivity.
  - intros r H. each_member H.
  - simpl. lia.
  - discriminate.
  - intros o H. each_member H.
  - exact runs_for_default.
  - lia.
Defined.
